(** * FundMind: the per-security stock data loader and its local query cache

    A shallow embedding of [src/fund_loader.py] (the SQLAlchemy tables, the
    [StockDataLoader] methods and the module-level entry points), of
    [src/data_fetcher.py] (the session factory and the response builders)
    and of [src/data/cache.py] (the read-only accessors).

    Conventions of the embedding.
    - Instants ([datetime], [date], [pd.Timestamp]) live on one time axis,
      counted in seconds; a [date] is the instant of its midnight and
      [.date()] is the day number [t / 86400].
    - The loader never computes with the numbers it loads, it parses and
      stores them: a Python float is a [pyfloat], NaN or an integer payload.
    - The provider (akshare), the wall clock, Python's text parsers and the
      faults of the store are the environment [Env]; one run reads the clock
      as one instant.
    - A SQLAlchemy session is the pair of the committed tables and the
      tables as the open transaction sees them; [commit] publishes the
      second, [rollback] restores it from the first.
    - [logger] calls and provider calls are recorded, in order, in a trace;
      a log message is recorded as the text of its format string. *)

From Stdlib Require Import ZArith List String Ascii Bool Lia.
Import ListNotations.

Local Open Scope string_scope.
Local Open Scope Z_scope.
Local Open Scope list_scope.

Set Implicit Arguments.

(** ** Python values met in provider frames *)

Inductive pyfloat : Type :=
| Fnan
| Fnum (z : Z).

Inductive pyval : Type :=
| PyNone
| PyFloat (f : pyfloat)
| PyStr (s : string)
| PyDate (t : Z).

Definition pyfloat_eq_dec (a b : pyfloat) : {a = b} + {a <> b}.
Proof. decide equality; apply Z.eq_dec. Defined.

Definition pyval_eq_dec (a b : pyval) : {a = b} + {a <> b}.
Proof.
  decide equality;
    [apply pyfloat_eq_dec | apply string_dec | apply Z.eq_dec].
Defined.

(** The exceptions the loader can meet; all of them derive from
    [Exception]. *)
Inductive exn : Type :=
| KeyError
| ValueError
| TypeError
| AttributeError
| NameError
| ProviderError
| StoreError
| FileNotFoundError.

Inductive result (A : Type) : Type :=
| Ok (a : A)
| Raise (e : exn).
Arguments Ok {A} a.
Arguments Raise {A} e.

Definition rbind {A B} (r : result A) (k : A -> result B) : result B :=
  match r with
  | Ok a => k a
  | Raise e => Raise e
  end.

Notation "'let?' x ':=' r 'in' k" := (rbind r (fun x => k))
  (at level 10, x name, r at level 100, k at level 200).

(** [0.0], and the [0] an absent field defaults to. *)
Definition zero : pyfloat := Fnum 0.

(** Truth value of an object, as [or] and [not] use it. *)
Definition truthy (v : pyval) : bool :=
  match v with
  | PyNone => false
  | PyStr s => negb (String.eqb s "")
  | PyFloat (Fnum z) => negb (z =? 0)
  | PyFloat Fnan => true
  | PyDate _ => true
  end.

(** [a or b] *)
Definition py_or (a b : pyval) : pyval := if truthy a then a else b.

(** [pd.notna] *)
Definition notna (v : pyval) : bool :=
  match v with
  | PyNone => false
  | PyFloat Fnan => false
  | _ => true
  end.

(** [int(x)] of a float: NaN has no integer value. *)
Definition py_int (f : pyfloat) : result Z :=
  match f with
  | Fnum z => Ok z
  | Fnan => Raise ValueError
  end.

(** [s.replace(",", "")] *)
Fixpoint remove_commas (s : string) : string :=
  match s with
  | EmptyString => EmptyString
  | String c s' =>
      if Ascii.eqb c ","%char then remove_commas s'
      else String c (remove_commas s')
  end.

(** [v.replace(",", "")]: only a [str] has the method. *)
Definition py_replace_commas (v : pyval) : result string :=
  match v with
  | PyStr s => Ok (remove_commas s)
  | _ => Raise AttributeError
  end.

(** [s.startswith(p)] *)
Definition startswith (s p : string) : bool := String.prefix p s.

(** ** Data frames and their rows *)

Record DataFrame : Type := mkDataFrame {
  columns : list string;
  data : list (list pyval)
}.

(** A row as [iterrows] yields it, and a frame's column after
    [set_index]: labels with their values. *)
Definition Series : Type := list (string * pyval).

Definition iterrows (df : DataFrame) : list Series :=
  map (fun r => combine (columns df) r) (data df).

(** [df.empty] *)
Definition empty (df : DataFrame) : bool :=
  match columns df, data df with
  | [], _ => true
  | _, [] => true
  | _, _ => false
  end.

(** [label in df.columns] *)
Definition has_column (df : DataFrame) (label : string) : bool :=
  existsb (String.eqb label) (columns df).

Fixpoint lookup (row : Series) (label : string) : option pyval :=
  match row with
  | [] => None
  | (l, v) :: row' => if String.eqb l label then Some v else lookup row' label
  end.

(** [row[label]] *)
Definition getitem (row : Series) (label : string) : result pyval :=
  match lookup row label with
  | Some v => Ok v
  | None => Raise KeyError
  end.

(** [row.get(label, default)]; [row.get(label)] is [get row label PyNone]. *)
Definition get (row : Series) (label : string) (default : pyval) : pyval :=
  match lookup row label with
  | Some v => v
  | None => default
  end.

(** [df.iloc[0]] *)
Definition iloc0 (df : DataFrame) : result Series :=
  match iterrows df with
  | row :: _ => Ok row
  | [] => Raise KeyError
  end.

(** The [info_dict] loop of the valuation code: one entry per row, the
    [item] cell as key and the [value] cell as value, a later row
    overwriting an earlier one of the same key. A key is a text label
    there; a row whose [item] is no text adds a key no lookup asks for. *)
Fixpoint dict_set (d : Series) (k : string) (v : pyval) : Series :=
  match d with
  | [] => [(k, v)]
  | (k', v') :: d' =>
      if String.eqb k' k then (k, v) :: d' else (k', v') :: dict_set d' k v
  end.

Fixpoint info_dict_of (rows : list Series) (d : Series) : result Series :=
  match rows with
  | [] => Ok d
  | row :: rows' =>
      let? item := getitem row "item" in
      let? value := getitem row "value" in
      match item with
      | PyStr k => info_dict_of rows' (dict_set d k value)
      | _ => info_dict_of rows' d
      end
  end.

(** [df.set_index("item")["value"]]: the [value] column labelled by the
    [item] column; [.get] answers with the first row of a label. *)
Fixpoint series_of_items (rows : list Series) : result Series :=
  match rows with
  | [] => Ok []
  | row :: rows' =>
      let? item := getitem row "item" in
      let? value := getitem row "value" in
      let? rest := series_of_items rows' in
      match item with
      | PyStr k => Ok ((k, value) :: rest)
      | _ => Ok rest
      end
  end.

Definition set_index_item_value (df : DataFrame) : result Series :=
  if has_column df "item" && has_column df "value"
  then series_of_items (iterrows df)
  else Raise KeyError.

(** ** The tables of [fund_loader.py]

    One module per mapped class, its fields under the names of the
    columns. Text columns keep the provider's cell as it came. *)

Module StockBasic.
Record t : Type := mk {
    symbol : string;
    name : pyval;
    industry : pyval;
    area : pyval;
    market : string;
    list_date : pyval;
    last_updated : Z
  }.
  (** [symbol] is the primary key. *)
Definition pk (r : t) : string := symbol r.
End StockBasic.

Module StockDaily.
  (** [id] is the only primary key column; [class Config] with
      [unique_together] is not something SQLAlchemy reads, so the table
      carries no constraint on [(symbol, trade_date)]. An object built by
      the loader has no [id] until the insert gives it one. *)
Record t : Type := mk {
    id : option Z;
    symbol : string;
    trade_date : Z;
    open : pyfloat;
    high : pyfloat;
    low : pyfloat;
    close : pyfloat;
    volume : pyfloat;
    amount : pyfloat
  }.
Definition with_id (i : Z) (r : t) : t :=
    mk (Some i) (symbol r) (trade_date r) (open r) (high r) (low r)
       (close r) (volume r) (amount r).
  (** The composite key the data model gives the collection. *)
Definition key (r : t) : string * Z := (symbol r, trade_date r).
End StockDaily.

Module StockFinancialMetrics.
Record t : Type := mk {
    symbol : string;
    report_date : Z;
    roe : pyfloat;
    net_profit_ratio : pyfloat;
    gross_profit_rate : pyfloat;
    net_profits : pyfloat;
    eps : pyfloat;
    main_business_income : pyfloat;
    update_date : Z
  }.
Definition pk (r : t) : string * Z := (symbol r, report_date r).
End StockFinancialMetrics.

Module StockInsiderTrades.
Record t : Type := mk {
    symbol : string;
    holder_name : pyval;
    change_date : Z;
    change_type : pyval;
    shares_changed : Z;
    price : pyfloat;
    update_date : Z
  }.
Definition pk (r : t) : string * pyval * Z :=
    (symbol r, holder_name r, change_date r).
End StockInsiderTrades.

Module StockNews.
Record t : Type := mk {
    symbol : string;
    title : pyval;
    date : Z;
    source : string;
    url : pyval;
    update_date : Z
  }.
Definition pk (r : t) : string * pyval * Z := (symbol r, title r, date r).
End StockNews.

Module StockValuationInfo.
Record t : Type := mk {
    symbol : string;
    market_cap : pyfloat;
    total_shares : pyfloat;
    outstanding_shares : pyfloat;
    pe_ratio : pyfloat;
    pb_ratio : pyfloat;
    update_date : Z
  }.
Definition pk (r : t) : string := symbol r.
End StockValuationInfo.

Definition key2_eq_dec (a b : string * Z) : {a = b} + {a <> b}.
Proof. decide equality; [apply Z.eq_dec | apply string_dec]. Defined.

Definition key3_eq_dec (a b : string * pyval * Z) : {a = b} + {a <> b}.
Proof.
  decide equality; [apply Z.eq_dec |].
  decide equality; [apply pyval_eq_dec | apply string_dec].
Defined.

(** ** [Session.merge] and the queries, on one table

    A table is the list of its rows in insertion order. *)

Section Table.
Context {R K : Type}.
Variable pk : R -> K.
Variable K_eq_dec : forall a b : K, {a = b} + {a <> b}.

  (** [session.merge(r)] for a class whose primary key the object
      carries: the row of that key is overwritten where it stands, and a
      new row is added when there is none. *)
Fixpoint merge (r : R) (tbl : list R) : list R :=
    match tbl with
    | [] => [r]
    | x :: tbl' =>
        if K_eq_dec (pk x) (pk r) then r :: tbl' else x :: merge r tbl'
    end.

  (** [session.get]: the row of a key. *)
Fixpoint find_pk (k : K) (tbl : list R) : option R :=
    match tbl with
    | [] => None
    | x :: tbl' => if K_eq_dec (pk x) k then Some x else find_pk k tbl'
    end.

  (** How many rows carry a key. *)
Definition count_pk (k : K) (tbl : list R) : nat :=
    List.length (filter (fun x => if K_eq_dec (pk x) k then true else false) tbl).

  (** The invariant a primary key constraint keeps. *)
Definition unique_pk (tbl : list R) : Prop := NoDup (map pk tbl).
End Table.

(** [query.order_by(col.desc()).first()]: a row of the greatest [col],
    the earliest inserted among equals. *)
Fixpoint first_desc {R : Type} (col : R -> Z) (rows : list R) : option R :=
  match rows with
  | [] => None
  | x :: rows' =>
      match first_desc col rows' with
      | Some y => if col x <? col y then Some y else Some x
      | None => Some x
      end
  end.

(** [query.filter(cond).delete()] keeps the rows outside [cond]. *)
Definition delete_where {R : Type} (cond : R -> bool) (rows : list R) : list R :=
  filter (fun x => negb (cond x)) rows.

(** [StockDaily] rows get their [id] from the table: one more than the
    greatest in use. *)
Definition next_id (tbl : list StockDaily.t) : Z :=
  1 + fold_right (fun r m => match StockDaily.id r with
                             | Some i => Z.max i m
                             | None => m
                             end) 0 tbl.

Definition option_Z_eq_dec (a b : option Z) : {a = b} + {a <> b}.
Proof. decide equality; apply Z.eq_dec. Defined.

(** [session.merge(price)]: an object without [id] has no identity to
    look up and is inserted as a new row; one with an [id] goes the way
    of every keyed class. *)
Definition merge_daily (r : StockDaily.t) (tbl : list StockDaily.t)
  : list StockDaily.t :=
  match StockDaily.id r with
  | None => tbl ++ [StockDaily.with_id (next_id tbl) r]
  | Some _ => merge StockDaily.id option_Z_eq_dec r tbl
  end.

(** The six collections of one security's store. *)
Record Store : Type := mkStore {
  stock_basic : list StockBasic.t;
  stock_daily : list StockDaily.t;
  stock_financial_metrics : list StockFinancialMetrics.t;
  stock_insider_trades : list StockInsiderTrades.t;
  stock_news : list StockNews.t;
  stock_valuation_info : list StockValuationInfo.t
}.

Definition empty_store : Store := mkStore [] [] [] [] [] [].

Definition set_stock_basic (v : list StockBasic.t) (st : Store) : Store :=
  mkStore v (stock_daily st) (stock_financial_metrics st)
          (stock_insider_trades st) (stock_news st) (stock_valuation_info st).

Definition set_stock_daily (v : list StockDaily.t) (st : Store) : Store :=
  mkStore (stock_basic st) v (stock_financial_metrics st)
          (stock_insider_trades st) (stock_news st) (stock_valuation_info st).

Definition set_stock_financial_metrics (v : list StockFinancialMetrics.t)
  (st : Store) : Store :=
  mkStore (stock_basic st) (stock_daily st) v
          (stock_insider_trades st) (stock_news st) (stock_valuation_info st).

Definition set_stock_insider_trades (v : list StockInsiderTrades.t)
  (st : Store) : Store :=
  mkStore (stock_basic st) (stock_daily st) (stock_financial_metrics st)
          v (stock_news st) (stock_valuation_info st).

Definition set_stock_news (v : list StockNews.t) (st : Store) : Store :=
  mkStore (stock_basic st) (stock_daily st) (stock_financial_metrics st)
          (stock_insider_trades st) v (stock_valuation_info st).

Definition set_stock_valuation_info (v : list StockValuationInfo.t)
  (st : Store) : Store :=
  mkStore (stock_basic st) (stock_daily st) (stock_financial_metrics st)
          (stock_insider_trades st) (stock_news st) v.

(** ** The environment of a run *)

(** The six entity kinds of the data model; a commit is tagged with the
    kind whose step issues it. *)
Inductive Entity : Type :=
| BasicInfo
| DailyPrice
| FinancialMetric
| InsiderTrade
| NewsItem
| ValuationSnapshot.

(** What a provider call answers: an exception, [None], or a frame. *)
Definition Fetched : Type := result (option DataFrame).

(** The akshare functions the loader calls. [stock_zh_a_hist] takes the
    symbol and the optional [start_date], a day number. *)
Record Akshare : Type := mkAkshare {
  stock_financial_analysis_indicator : string -> Fetched;
  stock_financial_abstract : string -> Fetched;
  stock_share_hold_change_sse : string -> Fetched;
  stock_share_hold_change_szse : string -> Fetched;
  stock_news_em : string -> Fetched;
  stock_individual_info_em : string -> Fetched;
  stock_board_industry_name_em : Fetched;
  stock_zh_a_hist : string -> option Z -> Fetched
}.

Record Env : Type := mkEnv {
  (** [float(s)] of a text; [None] is its [ValueError] *)
  float_of_string : string -> option pyfloat;
  (** [pd.to_datetime(s)] of a text; [None] is its error *)
  datetime_of_string : string -> option Z;
  ak : Akshare;
  (** [datetime.now()] *)
  now : Z;
  (** whether [session.commit()] fails in the step of an entity *)
  commit_fails : Entity -> bool
}.

Definition day : Z := 86400.

(** [t.date()] *)
Definition date_of (t : Z) : Z := t / day.

(** [now - timedelta(days=30)] *)
Definition thirty_days_before (t : Z) : Z := t - 30 * day.

(** [float(v)] *)
Definition py_float (env : Env) (v : pyval) : result pyfloat :=
  match v with
  | PyFloat f => Ok f
  | PyStr s =>
      match float_of_string env s with
      | Some f => Ok f
      | None => Raise ValueError
      end
  | PyNone => Raise TypeError
  | PyDate _ => Raise TypeError
  end.

(** [pd.to_datetime] on the cells of a column: a missing cell becomes
    [NaT] (here [None]), a number counts nanoseconds. *)
Definition to_datetime_cell (env : Env) (v : pyval) : result (option Z) :=
  match v with
  | PyDate t => Ok (Some t)
  | PyStr s =>
      match datetime_of_string env s with
      | Some t => Ok (Some t)
      | None => Raise ValueError
      end
  | PyFloat (Fnum z) => Ok (Some (z / 1000000000))
  | PyFloat Fnan => Ok None
  | PyNone => Ok None
  end.

(** [pd.to_datetime(v)] where the loader goes on to compare the date or
    to store it in a key: without a date ([None], [NaT]) the comparison
    or the insert raises, which is folded into the conversion. *)
Definition to_datetime (env : Env) (v : pyval) : result Z :=
  let? d := to_datetime_cell env v in
  match d with
  | Some t => Ok t
  | None => Raise TypeError
  end.

(** ** Sessions, traces and the monad of the loader *)

Inductive level : Type := INFO | WARNING | ERROR.

Inductive Event : Type :=
| Log (l : level) (msg : string)
| Call (api : string).

Record State : Type := mkState {
  db : Store;           (* what is committed *)
  cur : Store;          (* what the open transaction sees *)
  trace : list Event
}.

Definition M (A : Type) : Type := State -> result A * State.

Definition ret {A} (a : A) : M A := fun s => (Ok a, s).

Definition bind {A B} (m : M A) (k : A -> M B) : M B :=
  fun s => match m s with
           | (Ok a, s') => k a s'
           | (Raise e, s') => (Raise e, s')
           end.

Notation "x <- m ;; k" := (bind m (fun x => k))
  (at level 61, m at next level, right associativity).
Notation "m ;; k" := (bind m (fun _ => k))
  (at level 61, right associativity).

Definition raise {A} (e : exn) : M A := fun s => (Raise e, s).

(** A pure computation that may raise. *)
Definition lift {A} (r : result A) : M A := fun s => (r, s).

(** [try: m  except Exception as e: h e] *)
Definition try_except {A} (m : M A) (h : exn -> M A) : M A :=
  fun s => match m s with
           | (Ok a, s') => (Ok a, s')
           | (Raise e, s') => h e s'
           end.

Definition emit (ev : Event) : M unit :=
  fun s => (Ok tt, mkState (db s) (cur s) (trace s ++ [ev])).

Definition log (l : level) (msg : string) : M unit := emit (Log l msg).

(** A provider call: recorded, then its answer or its exception. *)
Definition call (api : string) (r : Fetched) : M (option DataFrame) :=
  emit (Call api) ;; lift r.

(** Using a provider answer as a frame; [None] has no attributes. *)
Definition frame (df : option DataFrame) : M DataFrame :=
  match df with
  | Some d => ret d
  | None => raise AttributeError
  end.

Definition query {A} (q : Store -> A) : M A := fun s => (Ok (q (cur s)), s).

Definition modify (f : Store -> Store) : M unit :=
  fun s => (Ok tt, mkState (db s) (f (cur s)) (trace s)).

(** [session.commit()] in the step of entity [e] *)
Definition commit (env : Env) (e : Entity) : M unit :=
  fun s => if commit_fails env e then (Raise StoreError, s)
           else (Ok tt, mkState (cur s) (cur s) (trace s)).

(** [session.rollback()] *)
Definition rollback : M unit :=
  fun s => (Ok tt, mkState (db s) (db s) (trace s)).

(** [for x in l: acc = body acc x], the loop variables in [acc]. *)
Fixpoint for_fold {A B} (l : list A) (acc : B) (body : B -> A -> M B) : M B :=
  match l with
  | [] => ret acc
  | x :: l' => acc' <- body acc x ;; for_fold l' acc' body
  end.

Definition for_each {A} (l : list A) (body : A -> M unit) : M unit :=
  for_fold l tt (fun _ x => body x).

(** [session.merge] on each class. *)
Definition merge_basic (r : StockBasic.t) : M unit :=
  modify (fun st => set_stock_basic
    (merge StockBasic.pk string_dec r (stock_basic st)) st).

Definition merge_price (r : StockDaily.t) : M unit :=
  modify (fun st => set_stock_daily (merge_daily r (stock_daily st)) st).

Definition merge_metrics (r : StockFinancialMetrics.t) : M unit :=
  modify (fun st => set_stock_financial_metrics
    (merge StockFinancialMetrics.pk key2_eq_dec r (stock_financial_metrics st)) st).

Definition merge_trade (r : StockInsiderTrades.t) : M unit :=
  modify (fun st => set_stock_insider_trades
    (merge StockInsiderTrades.pk key3_eq_dec r (stock_insider_trades st)) st).

Definition merge_news (r : StockNews.t) : M unit :=
  modify (fun st => set_stock_news
    (merge StockNews.pk key3_eq_dec r (stock_news st)) st).

Definition merge_valuation (r : StockValuationInfo.t) : M unit :=
  modify (fun st => set_stock_valuation_info
    (merge StockValuationInfo.pk string_dec r (stock_valuation_info st)) st).

(** [format_symbol] *)
Definition format_symbol (symbol : string) : string :=
  if startswith symbol "6" then String.append symbol ".SH"
  else if startswith symbol "0" || startswith symbol "3"
       then String.append symbol ".SZ"
       else symbol.

(** ** [class StockDataLoader] *)

Module StockDataLoader.
Section Methods.
Variable env : Env.
Variable self_symbol : string.

(** [float(row[label])] *)
Definition float_at (row : Series) (label : string) : result pyfloat :=
  let? v := getitem row label in py_float env v.

(** The [StockFinancialMetrics(...)] constructor call on a provider row
    whose report date is known; arguments are evaluated left to right. *)
Definition metrics_of_row (row : Series) (report_date update_date : Z)
  : result StockFinancialMetrics.t :=
  let? roe := float_at row "净资产收益率" in
  let? net_profit_ratio := float_at row "净利率" in
  let? gross_profit_rate := float_at row "毛利率" in
  let? net_profits := float_at row "净利润" in
  let? eps := float_at row "每股收益" in
  let? main_business_income := float_at row "主营业务收入" in
  Ok (StockFinancialMetrics.mk self_symbol report_date roe net_profit_ratio
        gross_profit_rate net_profits eps main_business_income update_date).

(** The same with [report_date=pd.to_datetime(row['报告期'])] as its
    first argument. *)
Definition metrics_of_dated_row (row : Series) (update_date : Z)
  : result StockFinancialMetrics.t :=
  let? cell := getitem row "报告期" in
  let? report_date := to_datetime env cell in
  metrics_of_row row report_date update_date.

(** The body every insider-trade loop shares up to the constructor:
    holder, shares and price, then the row with the given date. *)
Definition trade_of_row (row : Series) (change_date : result Z)
  (update_date : Z) : result StockInsiderTrades.t :=
  let holder_name :=
    py_or (get row "董监高姓名" PyNone) (get row "股份变动人姓名" (PyStr "未知")) in
  let shares_val := get row "变动股份数量" (PyFloat (Fnum 0)) in
  let? shares_changed :=
    (if notna shares_val
     then let? f := py_float env shares_val in py_int f
     else Ok 0) in
  let raw_price := get row "成交均价" PyNone in
  let? price :=
    (if notna raw_price then py_float env raw_price else Ok zero) in
  let? change_date := change_date in
  Ok (StockInsiderTrades.mk self_symbol holder_name change_date
        (get row "变动原因" (PyStr "")) shares_changed price update_date).

(** [pd.to_datetime(row.get('变动日期'))] *)
Definition change_date_of (row : Series) : result Z :=
  to_datetime env (get row "变动日期" PyNone).

(** [row.get('时间') or row.get('日期')] *)
Definition date_str_of (row : Series) : pyval :=
  py_or (get row "时间" PyNone) (get row "日期" PyNone).

Definition news_of_row (row : Series) (news_date update_date : Z) : StockNews.t :=
  StockNews.mk self_symbol (get row "标题" (PyStr "")) news_date "东方财富"
    (get row "链接" (PyStr "")) update_date.

(** The [StockDaily(...)] constructor call with a known trade date. *)
Definition price_of_row (row : Series) (trade_date : Z) : result StockDaily.t :=
  let? open := float_at row "开盘" in
  let? high := float_at row "最高" in
  let? low := float_at row "最低" in
  let? close := float_at row "收盘" in
  let? volume := float_at row "成交量" in
  let? amount := float_at row "成交额" in
  Ok (StockDaily.mk None self_symbol trade_date open high low close volume amount).

Definition price_of_dated_row (row : Series) : result StockDaily.t :=
  let? cell := getitem row "日期" in
  let? trade_date := to_datetime env cell in
  price_of_row row trade_date.

(** The provider function for insider trades and its answer, by
    exchange; [None] for a symbol of neither exchange. *)
Definition share_hold_change : option (string * Fetched) :=
  if startswith self_symbol "6"
  then Some ("stock_share_hold_change_sse",
             stock_share_hold_change_sse (ak env) self_symbol)
  else if startswith self_symbol "0" || startswith self_symbol "3"
  then Some ("stock_share_hold_change_szse",
             stock_share_hold_change_szse (ak env) self_symbol)
  else None.

(** The call, up to the first use of its answer ([df.empty]). The
    [exchange] column the loader then adds to a frame with rows is read
    nowhere and is left out. *)
Definition call_share_hold_change : option (M DataFrame) :=
  option_map (fun f => df <- call (fst f) (snd f) ;; frame df)
             share_hold_change.

(** The body of the loop of [update_financial_metrics]. *)
Definition financial_metrics_body (row : Series) : M unit :=
  metrics <- lift (metrics_of_dated_row row (now env)) ;;
  merge_metrics metrics.

(** [update_financial_metrics] *)
Definition update_financial_metrics : M unit :=
  try_except
    (log INFO "正在获取股票 {self.symbol} 的财务指标..." ;;
     df <- call "stock_financial_analysis_indicator"
             (stock_financial_analysis_indicator (ak env) self_symbol) ;;
     d <- frame df ;;
     for_each (iterrows d) financial_metrics_body ;;
     commit env FinancialMetric ;;
     log INFO "股票 {self.symbol} 财务指标更新完成")
    (fun e =>
     log ERROR "更新财务指标时发生错误: {str(e)}" ;;
     rollback).

(** The body of the loops of [update_insider_trades] and of the daily
    run. *)
Definition insider_trades_body (row : Series) : M unit :=
  trade <- lift (trade_of_row row (change_date_of row) (now env)) ;;
  merge_trade trade.

(** [update_insider_trades] *)
Definition update_insider_trades : M unit :=
  try_except
    (log INFO "正在获取股票 {self.symbol} 的内部交易信息..." ;;
     match call_share_hold_change with
     | None => log WARNING "股票代码 {self.symbol} 不符合格式"
     | Some fetch =>
         d <- fetch ;;
         if empty d then log INFO "股票 {self.symbol} 没有内部交易数据"
         else
           for_each (iterrows d) insider_trades_body ;;
           commit env InsiderTrade ;;
           log INFO "股票 {self.symbol} 内部交易信息更新完成"
     end)
    (fun e =>
     log ERROR "更新内部交易信息时发生错误: {str(e)}" ;;
     rollback).

(** The body of the loop of [update_stock_news]. *)
Definition stock_news_body (thirty_days_ago : Z) (row : Series) : M unit :=
  let date_str := date_str_of row in
  if negb (truthy date_str) then ret tt
  else
    news_date <- lift (to_datetime env date_str) ;;
    if news_date <? thirty_days_ago then ret tt
    else merge_news (news_of_row row news_date (now env)).

(** [update_stock_news] *)
Definition update_stock_news : M unit :=
  try_except
    (log INFO "正在获取股票 {self.symbol} 的新闻信息..." ;;
     df <- call "stock_news_em" (stock_news_em (ak env) self_symbol) ;;
     d <- frame df ;;
     if empty d then log INFO "股票 {self.symbol} 没有新闻数据"
     else
       let thirty_days_ago := thirty_days_before (now env) in
       for_each (iterrows d) (stock_news_body thirty_days_ago) ;;
       commit env NewsItem ;;
       log INFO "股票 {self.symbol} 新闻信息更新完成")
    (fun e =>
     log ERROR "更新新闻信息时发生错误: {str(e)}" ;;
     rollback).

(** One field of [update_valuation_info]:
    [try: x = float(info_dict.get(label, "0").replace(",", ""))]
    [except: x = 0.0; logger.warning(msg)] *)
Definition valuation_field (info_dict : Series) (label msg : string)
  : M pyfloat :=
  try_except
    (lift (let? text := py_replace_commas (get info_dict label (PyStr "0")) in
           py_float env (PyStr text)))
    (fun _ => log WARNING msg ;; ret zero).

(** [query_symbol]: the symbol without a leading [sh] or [sz]. *)
Definition query_symbol : string :=
  if startswith self_symbol "sh" || startswith self_symbol "sz"
  then String.substring 2 (String.length self_symbol - 2) self_symbol
  else self_symbol.

(** [update_valuation_info] *)
Definition update_valuation_info : M unit :=
  try_except
    (log INFO "正在获取股票 {self.symbol} 的估值信息..." ;;
     df <- call "stock_individual_info_em"
             (stock_individual_info_em (ak env) query_symbol) ;;
     match df with
     | None => log WARNING "股票 {self.symbol} 没有估值信息"
     | Some d =>
         if empty d then log WARNING "股票 {self.symbol} 没有估值信息"
         else
           log INFO "获取到的数据列：{df.columns.tolist()}" ;;
           log INFO "原始数据：\n{df}" ;;
           if negb (has_column d "item") || negb (has_column d "value")
           then log ERROR "数据格式不正确，当前列：{df.columns}"
           else
             info_dict <- lift (info_dict_of (iterrows d) []) ;;
             market_cap <- valuation_field info_dict "总市值" "转换总市值失败" ;;
             total_shares <- valuation_field info_dict "总股本" "转换总股本失败" ;;
             outstanding_shares <-
               valuation_field info_dict "流通股本" "转换流通股本失败" ;;
             pe_ratio <- valuation_field info_dict "市盈率(动)" "转换市盈率失败" ;;
             pb_ratio <- valuation_field info_dict "市净率" "转换市净率失败" ;;
             merge_valuation
               (StockValuationInfo.mk self_symbol market_cap total_shares
                  outstanding_shares pe_ratio pb_ratio (now env)) ;;
             commit env ValuationSnapshot ;;
             log INFO "股票 {self.symbol} 估值信息更新完成"
     end)
    (fun e =>
     log ERROR "更新估值信息时发生错误: {str(e)}" ;;
     log ERROR "错误详情:" ;;
     rollback).

(** [industry_df[industry_df['代码'] == symbol]['板块名称'].values], then
    its first element, or the text for unknown. *)
Definition industry_of (industry_df : DataFrame) (symbol : string)
  : result pyval :=
  if negb (has_column industry_df "代码") then Raise KeyError
  else
    let rows := filter (fun row => match lookup row "代码" with
                                   | Some (PyStr s) => String.eqb s symbol
                                   | _ => false
                                   end) (iterrows industry_df) in
    if negb (has_column industry_df "板块名称") then Raise KeyError
    else match rows with
         | row :: _ => getitem row "板块名称"
         | [] => Ok (PyStr "未知")
         end.

(** [update_stock_basic] *)
Definition update_stock_basic (symbol : string) : M unit :=
  try_except
    (log INFO "正在获取股票 {self.symbol} 的基本信息..." ;;
     df <- call "stock_individual_info_em"
             (stock_individual_info_em (ak env) symbol) ;;
     d <- frame df ;;
     if empty d then log WARNING "股票 {self.symbol} 没有基本信息"
     else if negb (has_column d "item") || negb (has_column d "value")
     then log ERROR "股票信息数据格式不正确: {df.columns}"
     else
       info <- lift (set_index_item_value d) ;;
       industry <-
         try_except
           (industry_df <- call "stock_board_industry_name_em"
                             (stock_board_industry_name_em (ak env)) ;;
            idf <- frame industry_df ;;
            lift (industry_of idf symbol))
           (fun e => log WARNING "获取行业信息失败: {e}" ;; ret (PyStr "未知")) ;;
       merge_basic
         (StockBasic.mk self_symbol (get info "股票简称" (PyStr "")) industry
            (get info "地区" (PyStr ""))
            (if startswith self_symbol "6" then "上证" else "深证")
            (get info "上市时间" (PyStr "")) (now env)) ;;
       commit env BasicInfo ;;
       log INFO "股票 {self.symbol} 基本信息更新完成")
    (fun e =>
     log ERROR "更新基本信息时发生错误: {str(e)}" ;;
     rollback).

(** The body of the loop of [update_stock_price]. *)
Definition stock_price_body (row : Series) : M unit :=
  price <- lift (price_of_dated_row row) ;;
  merge_price price.

(** [update_stock_price] *)
Definition update_stock_price : M unit :=
  try_except
    (log INFO "获取股票 {self.symbol} 的历史K线数据..." ;;
     df <- call "stock_zh_a_hist" (stock_zh_a_hist (ak env) self_symbol None) ;;
     d <- frame df ;;
     if empty d then log WARNING "{self.symbol} 无历史价格数据"
     else
       for_each (iterrows d) stock_price_body ;;
       commit env DailyPrice ;;
       log INFO "{self.symbol} 的价格数据更新完成")
    (fun e =>
     log ERROR "价格更新失败: {e}" ;;
     rollback).

(** The latest [StockDaily] row of the symbol. *)
Definition latest_price (st : Store) : option StockDaily.t :=
  first_desc StockDaily.trade_date
    (filter (fun r => String.eqb (StockDaily.symbol r) self_symbol)
            (stock_daily st)).

(** The body of the loop of [update_daily_price]: a row of the day of
    the stored latest price is passed over. *)
Definition daily_price_body (latest : option StockDaily.t) (row : Series)
  : M unit :=
  cell <- lift (getitem row "日期") ;;
  trade_date <- lift (to_datetime env cell) ;;
  if match latest with
     | Some l => date_of (StockDaily.trade_date l) =? date_of trade_date
     | None => false
     end
  then ret tt
  else
    price <- lift (price_of_row row trade_date) ;;
    merge_price price.

(** [update_daily_price] *)
Definition update_daily_price : M unit :=
  try_except
    (log INFO "获取股票 {self.symbol} 的每日价格数据..." ;;
     latest <- query latest_price ;;
     df <- call "stock_zh_a_hist"
             (stock_zh_a_hist (ak env) self_symbol (Some (date_of (now env)))) ;;
     d <- frame df ;;
     if empty d then log INFO "{self.symbol} 今日无交易数据"
     else
       for_each (iterrows d) (daily_price_body latest) ;;
       commit env DailyPrice ;;
       log INFO "{self.symbol} 的每日价格数据更新完成")
    (fun e =>
     log ERROR "每日价格更新失败: {e}" ;;
     rollback).

(** [update_all_data]; the pauses between the steps are not modelled. *)
Definition update_all_data : M unit :=
  try_except
    (log INFO "开始更新股票 {self.symbol} 的所有数据..." ;;
     update_stock_basic self_symbol ;;
     update_stock_price ;;
     update_daily_price ;;
     try_except update_financial_metrics
       (fun e => log ERROR "更新财务指标失败: {e}") ;;
     try_except update_insider_trades
       (fun e => log ERROR "更新内部交易失败: {e}") ;;
     try_except update_stock_news
       (fun e => log ERROR "更新新闻失败: {e}") ;;
     try_except update_valuation_info
       (fun e => log ERROR "更新估值信息失败: {e}") ;;
     log INFO "股票 {self.symbol} 所有数据更新完成")
    (fun e => log ERROR "更新所有数据时发生错误: {str(e)}").

(** *** [update_stock_history] and its four entity steps *)

Definition of_symbol {R : Type} (symbol_of : R -> string) (r : R) : bool :=
  String.eqb (symbol_of r) self_symbol.

(** [query(StockFinancialMetrics).filter(symbol == self.symbol)
      .order_by(report_date.desc()).first()] *)
Definition latest_metrics (st : Store) : option StockFinancialMetrics.t :=
  first_desc StockFinancialMetrics.report_date
    (filter (of_symbol StockFinancialMetrics.symbol)
            (stock_financial_metrics st)).

Definition latest_trade (st : Store) : option StockInsiderTrades.t :=
  first_desc StockInsiderTrades.change_date
    (filter (of_symbol StockInsiderTrades.symbol) (stock_insider_trades st)).

(** The latest news of the symbol dated [thirty_days_ago] or later. *)
Definition recent_news (thirty_days_ago : Z) (st : Store) : option StockNews.t :=
  first_desc StockNews.date
    (filter (fun r => thirty_days_ago <=? StockNews.date r)
       (filter (of_symbol StockNews.symbol) (stock_news st))).

Definition recent_valuation (thirty_days_ago : Z) (st : Store)
  : option StockValuationInfo.t :=
  first_desc StockValuationInfo.update_date
    (filter (fun r => thirty_days_ago <=? StockValuationInfo.update_date r)
       (filter (of_symbol StockValuationInfo.symbol) (stock_valuation_info st))).

(** [has_data and not full_update and d <= existing.<date>], where
    [has_data] says that the query above found a row. *)
Definition already_have {R : Type} (date_of_row : R -> Z) (existing : option R)
  (full_update : bool) (d : Z) : bool :=
  match existing with
  | Some e => negb full_update && (d <=? date_of_row e)
  | None => false
  end.

(** The query for the stored latest row runs in incremental mode only. *)
Definition existing_unless_full {R : Type} (full_update : bool)
  (q : Store -> option R) : M (option R) :=
  if negb full_update then query q else ret None.

(** The body of the loop of step 1; [data_updated] is the loop's flag. *)
Definition history_metrics_body (full_update : bool)
  (existing_data : option StockFinancialMetrics.t)
  (data_updated : bool) (row : Series) : M bool :=
  cell <- lift (getitem row "报告期") ;;
  report_date <- lift (to_datetime env cell) ;;
  if already_have StockFinancialMetrics.report_date existing_data
       full_update report_date
  then ret data_updated
  else
    metrics <- lift (metrics_of_row row report_date (now env)) ;;
    merge_metrics metrics ;;
    ret true.

(** Step 1: financial metrics. *)
Definition history_financial_metrics (full_update : bool) : M unit :=
  try_except
    (log INFO "1. 获取历史财务指标..." ;;
     existing_data <- existing_unless_full full_update latest_metrics ;;
     df <- call "stock_financial_analysis_indicator"
             (stock_financial_analysis_indicator (ak env) self_symbol) ;;
     d <- frame df ;;
     if negb (empty d) then
       data_updated <-
         for_fold (iterrows d) false
           (history_metrics_body full_update existing_data) ;;
       if data_updated : bool
       then commit env FinancialMetric ;; log INFO "历史财务指标更新完成"
       else log INFO "历史财务指标无需更新"
     else ret tt)
    (fun e =>
     log ERROR "获取历史财务指标时发生错误: {str(e)}" ;;
     rollback).

(** The body of the loop of step 2. *)
Definition history_trades_body (full_update : bool)
  (existing_trade : option StockInsiderTrades.t)
  (data_updated : bool) (row : Series) : M bool :=
  change_date <- lift (change_date_of row) ;;
  if already_have StockInsiderTrades.change_date existing_trade
       full_update change_date
  then ret data_updated
  else
    trade <- lift (trade_of_row row (Ok change_date) (now env)) ;;
    merge_trade trade ;;
    ret true.

(** Step 2: insider trades. *)
Definition history_insider_trades (full_update : bool) : M unit :=
  try_except
    (log INFO "2. 获取历史内部交易..." ;;
     existing_trade <- existing_unless_full full_update latest_trade ;;
     match call_share_hold_change with
     | None => ret tt
     | Some fetch =>
         d <- fetch ;;
         if negb (empty d) then
           data_updated <-
             for_fold (iterrows d) false
               (history_trades_body full_update existing_trade) ;;
           if data_updated : bool
           then commit env InsiderTrade ;; log INFO "历史内部交易更新完成"
           else log INFO "历史内部交易无需更新"
         else ret tt
     end)
    (fun e =>
     log ERROR "获取历史内部交易时发生错误: {str(e)}" ;;
     rollback).

(** The body of the loop of step 3. *)
Definition history_news_body (full_update : bool) (thirty_days_ago : Z)
  (existing_news : option StockNews.t)
  (data_updated : bool) (row : Series) : M bool :=
  let date_str := date_str_of row in
  if negb (truthy date_str) then ret data_updated
  else
    news_date <- lift (to_datetime env date_str) ;;
    if news_date <? thirty_days_ago then ret data_updated
    else if already_have StockNews.date existing_news full_update news_date
    then ret data_updated
    else
      merge_news (news_of_row row news_date (now env)) ;;
      ret true.

(** [query(StockNews).filter(symbol == self.symbol)
      .filter(date < thirty_days_ago).delete()] *)
Definition delete_old_news (thirty_days_ago : Z) : M unit :=
  modify (fun st => set_stock_news
    (delete_where (fun r => of_symbol StockNews.symbol r
                            && (StockNews.date r <? thirty_days_ago))
                  (stock_news st)) st).

(** The same on [StockValuationInfo], by [update_date]. *)
Definition delete_old_valuation (thirty_days_ago : Z) : M unit :=
  modify (fun st => set_stock_valuation_info
    (delete_where
       (fun r => of_symbol StockValuationInfo.symbol r
                 && (StockValuationInfo.update_date r <? thirty_days_ago))
       (stock_valuation_info st)) st).

(** Step 3: news, kept for thirty days. *)
Definition history_news (full_update : bool) : M unit :=
  let thirty_days_ago := thirty_days_before (now env) in
  try_except
    (log INFO "3. 获取新闻数据..." ;;
     existing_news <- existing_unless_full full_update (recent_news thirty_days_ago) ;;
     df <- call "stock_news_em" (stock_news_em (ak env) self_symbol) ;;
     d <- frame df ;;
     if negb (empty d) then
       data_updated <-
         for_fold (iterrows d) false
           (history_news_body full_update thirty_days_ago existing_news) ;;
       (if data_updated : bool
        then commit env NewsItem ;; log INFO "新闻数据更新完成"
        else log INFO "新闻数据无需更新") ;;
       delete_old_news thirty_days_ago ;;
       commit env NewsItem
     else ret tt)
    (fun e =>
     log ERROR "获取新闻数据时发生错误: {str(e)}" ;;
     rollback).

(** [float(info.get(label, 0))] *)
Definition info_float (info : Series) (label : string) : result pyfloat :=
  py_float env (get info label (PyFloat (Fnum 0))).

(** The [StockValuationInfo(...)] call of the history and daily runs. *)
Definition valuation_of_info (info : Series) (update_date : Z)
  : result StockValuationInfo.t :=
  let? market_cap := info_float info "总市值" in
  let? total_shares := info_float info "总股本" in
  let? outstanding_shares := info_float info "流通股本" in
  let? pe_ratio := info_float info "市盈率(动)" in
  let? pb_ratio := info_float info "市净率" in
  Ok (StockValuationInfo.mk self_symbol market_cap total_shares
        outstanding_shares pe_ratio pb_ratio update_date).

(** Step 4: valuation, kept for thirty days. *)
Definition history_valuation (full_update : bool) : M unit :=
  let thirty_days_ago := thirty_days_before (now env) in
  try_except
    (log INFO "4. 获取估值信息..." ;;
     existing_valuation <-
       existing_unless_full full_update (recent_valuation thirty_days_ago) ;;
     let has_data := match existing_valuation with
                     | Some _ => true
                     | None => false
                     end in
     if negb has_data || full_update then
       df <- call "stock_individual_info_em"
               (stock_individual_info_em (ak env) self_symbol) ;;
       d <- frame df ;;
       if negb (empty d) then
         info <- lift (set_index_item_value d) ;;
         valuation <- lift (valuation_of_info info (now env)) ;;
         merge_valuation valuation ;;
         commit env ValuationSnapshot ;;
         log INFO "估值信息更新完成" ;;
         delete_old_valuation thirty_days_ago ;;
         commit env ValuationSnapshot
       else ret tt
     else log INFO "估值信息无需更新")
    (fun e =>
     log ERROR "获取估值信息时发生错误: {str(e)}" ;;
     rollback).

(** [update_stock_history]; the pauses between the steps are not
    modelled. *)
Definition update_stock_history (full_update : bool) : M unit :=
  try_except
    (log INFO "开始获取股票 {self.symbol} 的历史数据... full_update={full_update}" ;;
     history_financial_metrics full_update ;;
     history_insider_trades full_update ;;
     history_news full_update ;;
     history_valuation full_update ;;
     log INFO "股票 {self.symbol} 的历史数据获取完成")
    (fun e => log ERROR "获取历史数据时发生错误: {str(e)}").

(** *** [update_daily_data] *)

(** [query(StockValuationInfo.update_date).filter(symbol == self.symbol)
      .order_by(update_date.desc()).first()] *)
Definition last_update (st : Store) : option Z :=
  option_map StockValuationInfo.update_date
    (first_desc StockValuationInfo.update_date
       (filter (of_symbol StockValuationInfo.symbol) (stock_valuation_info st))).

(** [last_update and last_update[0].date() == datetime.now().date()] *)
Definition updated_today (st : Store) : bool :=
  match last_update st with
  | Some t => date_of t =? date_of (now env)
  | None => false
  end.

(** [df[pd.to_datetime(df[label]).dt.date == today]]: the column is
    converted as a whole, then the rows of today are kept. *)
Fixpoint rows_of_today (label : string) (today : Z) (rows : list Series)
  : result (list Series) :=
  match rows with
  | [] => Ok []
  | row :: rows' =>
      let? cell := getitem row label in
      let? d := to_datetime_cell env cell in
      let? rest := rows_of_today label today rows' in
      match d with
      | Some t => if date_of t =? today then Ok (row :: rest) else Ok rest
      | None => Ok rest
      end
  end.

Definition dated_today (df : DataFrame) (label : string) : result (list Series) :=
  if has_column df label
  then rows_of_today label (date_of (now env)) (iterrows df)
  else Raise KeyError.

(** Step 2: the newest report of the provider, when it is not stored. *)
Definition daily_financial_metrics : M unit :=
  try_except
    (log INFO "2. 检查更新财务指标..." ;;
     df <- call "stock_financial_analysis_indicator"
             (stock_financial_analysis_indicator (ak env) self_symbol) ;;
     d <- frame df ;;
     if negb (empty d) then
       row <- lift (iloc0 d) ;;
       cell <- lift (getitem row "报告期") ;;
       latest_report_date <- lift (to_datetime env cell) ;;
       existing_report <-
         query (fun st =>
           find_pk StockFinancialMetrics.pk key2_eq_dec
             (self_symbol, latest_report_date) (stock_financial_metrics st)) ;;
       match existing_report with
       | Some _ => ret tt
       | None =>
           metrics <- lift (metrics_of_row row latest_report_date (now env)) ;;
           merge_metrics metrics ;;
           commit env FinancialMetric ;;
           log INFO "新的财务指标已更新"
       end
     else ret tt)
    (fun e =>
     log ERROR "更新财务指标时发生错误: {str(e)}" ;;
     rollback).

(** The local [df] when step 3 reads it: the insider-trade frame for a
    symbol of an exchange, else what step 2 left, a frame if its call
    returned and no binding if it raised. *)
Definition daily_insider_frame : M DataFrame :=
  match call_share_hold_change with
  | Some fetch => fetch
  | None =>
      match stock_financial_analysis_indicator (ak env) self_symbol with
      | Ok df => frame df
      | Raise _ => raise NameError
      end
  end.

(** Step 3: the insider trades dated today. *)
Definition daily_insider_trades : M unit :=
  try_except
    (log INFO "3. 更新内部交易..." ;;
     d <- daily_insider_frame ;;
     if negb (empty d) then
       today_trades <- lift (dated_today d "变动日期") ;;
       for_each today_trades insider_trades_body ;;
       commit env InsiderTrade ;;
       log INFO "今日内部交易更新完成"
     else ret tt)
    (fun e =>
     log ERROR "更新内部交易时发生错误: {str(e)}" ;;
     rollback).

(** The body of the loop of step 4. *)
Definition daily_news_body (row : Series) : M unit :=
  let date_str := date_str_of row in
  if negb (truthy date_str) then ret tt
  else
    news_date <- lift (to_datetime env date_str) ;;
    merge_news (news_of_row row news_date (now env)).

(** Step 4: the news dated today. *)
Definition daily_news : M unit :=
  try_except
    (log INFO "4. 更新今日新闻..." ;;
     df <- call "stock_news_em" (stock_news_em (ak env) self_symbol) ;;
     d <- frame df ;;
     if negb (empty d) then
       today_news <- lift (dated_today d "时间") ;;
       for_each today_news daily_news_body ;;
       commit env NewsItem ;;
       log INFO "今日新闻更新完成"
     else ret tt)
    (fun e =>
     log ERROR "更新今日新闻时发生错误: {str(e)}" ;;
     rollback).

(** Step 5: the valuation snapshot. *)
Definition daily_valuation : M unit :=
  try_except
    (log INFO "5. 更新估值信息..." ;;
     df <- call "stock_individual_info_em"
             (stock_individual_info_em (ak env) self_symbol) ;;
     d <- frame df ;;
     info <- lift (set_index_item_value d) ;;
     valuation <- lift (valuation_of_info info (now env)) ;;
     merge_valuation valuation ;;
     commit env ValuationSnapshot ;;
     log INFO "估值信息更新完成")
    (fun e =>
     log ERROR "更新估值信息时发生错误: {str(e)}" ;;
     rollback).

(** [update_daily_data]: nothing runs when the valuation snapshot was
    written today. *)
Definition update_daily_data : M unit :=
  try_except
    (log INFO "开始更新股票 {self.symbol} 的每日数据..." ;;
     today_done <- query updated_today ;;
     if today_done : bool
     then log INFO "股票 {self.symbol} 今日已更新，跳过更新"
     else
       update_daily_price ;;
       daily_financial_metrics ;;
       daily_insider_trades ;;
       daily_news ;;
       daily_valuation ;;
       log INFO "股票 {self.symbol} 的每日数据更新完成")
    (fun e => log ERROR "更新每日数据时发生错误: {str(e)}").

End Methods.
End StockDataLoader.

(** ** Module-level entry points of [fund_loader.py] *)

(** The directory [data/db]: the store of each symbol that has a file
    [stock_{symbol}.db]. *)
Definition Files : Type := string -> option Store.

Definition write_file (fs : Files) (symbol : string) (st : Store) : Files :=
  fun s => if String.eqb s symbol then Some st else fs s.

(** A session on a store, nothing pending. *)
Definition open_session (st : Store) (tr : list Event) : State :=
  mkState st st tr.

(** [StockDataLoader(symbol)]: the file and its tables are created when
    missing, and a session is opened. *)
Definition new_loader (fs : Files) (symbol : string) : Store :=
  match fs symbol with
  | Some st => st
  | None => empty_store
  end.

(** [update_daily_data(symbol)], the function: the directory and the
    trace after the call. *)
Definition update_daily_data (env : Env) (symbol : string) (fs : Files)
  (tr : list Event) : Files * list Event :=
  let skip :=
    match fs symbol with
    | Some st => StockDataLoader.updated_today env symbol st
    | None => false
    end in
  if skip
  then (fs, tr ++ [Log INFO "股票 {symbol} 今日已更新，跳过更新"])
  else
    let s := snd (StockDataLoader.update_all_data env symbol
                    (open_session (new_loader fs symbol) tr)) in
    (write_file fs symbol (db s), trace s).

(** The body of the loop in step 4 of [main]; the loop variable
    [metrics] is the object built last. *)
Definition main_metrics_body (env : Env) (symbol : string)
  (metrics : option StockFinancialMetrics.t) (row : Series)
  : M (option StockFinancialMetrics.t) :=
  let raw_date :=
    py_or (py_or (get row "报告期" PyNone) (get row "报告日期" PyNone))
          (get row "发布日期" PyNone) in
  report_date <-
    (if truthy raw_date then lift (to_datetime env raw_date)
     else ret (-2208988800)) ;;
  m <- lift (StockDataLoader.metrics_of_row env symbol row
               report_date (now env)) ;;
  ret (Some m).

(** Step 4 of [main]: the financial metrics of the first load. The
    [try] meant for one row encloses the loop, and the merge stands
    after the loop, where [metrics] is the object of the last row. *)
Definition main_financial_metrics (env : Env) (symbol : string) : M unit :=
  try_except
    (df <- call "stock_financial_abstract"
             (stock_financial_abstract (ak env) symbol) ;;
     d <- frame df ;;
     if negb (empty d) then
       try_except
         (metrics <-
            for_fold (iterrows d) None (main_metrics_body env symbol) ;;
          match metrics with
          | Some m => merge_metrics m
          | None => raise NameError
          end)
         (fun row_err => log WARNING "跳过一条异常财务指标记录: {row_err}") ;;
       commit env FinancialMetric ;;
       log INFO "财务指标数据获取完成，共 {len(df)} 条记录"
     else ret tt)
    (fun e =>
     log ERROR "获取财务指标数据失败: {e}" ;;
     rollback).

(** ** [data_fetcher.py] and [data/cache.py] *)

(** [order_by(col.desc())]: a stable sort, greatest first. *)
Fixpoint insert_desc {R : Type} (col : R -> Z) (x : R) (l : list R) : list R :=
  match l with
  | [] => [x]
  | y :: l' => if col y <=? col x then x :: l else y :: insert_desc col x l'
  end.

Definition order_by_desc {R : Type} (col : R -> Z) (l : list R) : list R :=
  fold_right (insert_desc col) [] l.

(** A list comprehension whose element expression may raise. *)
Fixpoint comprehension {A B} (f : A -> result B) (l : list A) : result (list B) :=
  match l with
  | [] => Ok []
  | x :: l' =>
      let? y := f x in
      let? ys := comprehension f l' in
      Ok (y :: ys)
  end.

Module DataFetcher.
Section Responses.

(** The response classes live in [src/data/models.py], which is not
    among the sources: each class is a type with its constructor, taking
    the keyword arguments that [data_fetcher.py] passes something other
    than [None], and free to refuse them; [model_dump] turns an object
    into a dictionary. Dates formatted by [strftime] are day numbers. *)
Variables Price FinancialMetrics InsiderTrade CompanyNews : Type.
Variable mkPrice :
  pyfloat -> pyfloat -> pyfloat -> pyfloat -> Z -> Z -> result Price.
Variable mkFinancialMetrics :
  string -> Z -> pyfloat -> pyfloat -> pyfloat -> pyfloat ->
  option pyfloat -> option pyfloat -> option pyfloat -> result FinancialMetrics.
Variable mkInsiderTrade :
  string -> pyval -> Z -> Z -> pyfloat -> Z -> option pyfloat ->
  result InsiderTrade.
Variable mkCompanyNews :
  string -> pyval -> Z -> string -> pyval -> result CompanyNews.

Variable files : Files.

(** [get_db_session] as its users enter it: the body runs on the store
    of the symbol, and a missing file raises before the body starts. *)
Definition get_db_session {A} (symbol : string) (body : Store -> result A)
  : result A :=
  match files symbol with
  | None => Raise FileNotFoundError
  | Some st => body st
  end.

Definition get_price_response (symbol : string) : result (string * list Price) :=
  get_db_session symbol (fun session =>
    let result :=
      order_by_desc StockDaily.trade_date
        (filter (fun r => String.eqb (StockDaily.symbol r) symbol)
                (stock_daily session)) in
    let? prices :=
      comprehension (fun row =>
        let? volume := py_int (StockDaily.volume row) in
        mkPrice (StockDaily.open row) (StockDaily.close row)
                (StockDaily.high row) (StockDaily.low row) volume
                (date_of (StockDaily.trade_date row))) result in
    Ok (symbol, prices)).

Definition get_financial_metrics_response (symbol : string)
  : result (list FinancialMetrics) :=
  get_db_session symbol (fun session =>
    let metrics_result :=
      order_by_desc StockFinancialMetrics.report_date
        (filter (fun r => String.eqb (StockFinancialMetrics.symbol r) symbol)
                (stock_financial_metrics session)) in
    let valuation :=
      first_desc StockValuationInfo.update_date
        (filter (fun r => String.eqb (StockValuationInfo.symbol r) symbol)
                (stock_valuation_info session)) in
    comprehension (fun row =>
      mkFinancialMetrics symbol
        (date_of (StockFinancialMetrics.report_date row))
        (StockFinancialMetrics.eps row) (StockFinancialMetrics.roe row)
        (StockFinancialMetrics.net_profit_ratio row)
        (StockFinancialMetrics.gross_profit_rate row)
        (option_map StockValuationInfo.market_cap valuation)
        (option_map StockValuationInfo.pe_ratio valuation)
        (option_map StockValuationInfo.pb_ratio valuation)) metrics_result).

(** [row.shares_changed * row.price if row.shares_changed and row.price
    else None] *)
Definition transaction_value (shares_changed : Z) (price : pyfloat)
  : option pyfloat :=
  if negb (shares_changed =? 0) && truthy (PyFloat price)
  then Some match price with
            | Fnum p => Fnum (shares_changed * p)
            | Fnan => Fnan
            end
  else None.

Definition get_insider_trade_response (symbol : string)
  : result (list InsiderTrade) :=
  get_db_session symbol (fun session =>
    let result :=
      order_by_desc StockInsiderTrades.change_date
        (filter (fun r => String.eqb (StockInsiderTrades.symbol r) symbol)
                (stock_insider_trades session)) in
    comprehension (fun row =>
      mkInsiderTrade symbol (StockInsiderTrades.holder_name row)
        (date_of (StockInsiderTrades.change_date row))
        (StockInsiderTrades.shares_changed row) (StockInsiderTrades.price row)
        (date_of (StockInsiderTrades.update_date row))
        (transaction_value (StockInsiderTrades.shares_changed row)
                           (StockInsiderTrades.price row))) result).

Definition get_company_news_response (symbol : string)
  : result (list CompanyNews) :=
  get_db_session symbol (fun session =>
    let result :=
      order_by_desc StockNews.date
        (filter (fun r => String.eqb (StockNews.symbol r) symbol)
                (stock_news session)) in
    comprehension (fun row =>
      mkCompanyNews symbol (StockNews.title row) (date_of (StockNews.date row))
        (StockNews.source row) (StockNews.url row)) result).

(** *** [class Cache]: an accessor answers a list of dictionaries or
    [None], and prints a line when it meets an error other than the
    missing file; the answer comes with the lines printed. *)
Variable dump_price : Price -> Series.
Variable dump_metric : FinancialMetrics -> Series.
Variable dump_trade : InsiderTrade -> Series.
Variable dump_news : CompanyNews -> Series.

Definition get_prices (ticker : string) : option (list Series) * list string :=
  match get_price_response ticker with
  | Ok response => (Some (map dump_price (snd response)), [])
  | Raise FileNotFoundError => (None, [])
  | Raise _ => (None, ["获取价格数据时出错: {str(e)}"])
  end.

Definition get_financial_metrics (ticker : string)
  : option (list Series) * list string :=
  match get_financial_metrics_response ticker with
  | Ok response => (Some (map dump_metric response), [])
  | Raise FileNotFoundError => (None, [])
  | Raise _ => (None, ["获取财务指标数据时出错: {str(e)}"])
  end.

Definition get_insider_trades (ticker : string)
  : option (list Series) * list string :=
  match get_insider_trade_response ticker with
  | Ok response => (Some (map dump_trade response), [])
  | Raise FileNotFoundError => (None, [])
  | Raise _ => (None, ["获取内部交易数据时出错: {str(e)}"])
  end.

Definition get_company_news (ticker : string)
  : option (list Series) * list string :=
  match get_company_news_response ticker with
  | Ok response => (Some (map dump_news response), [])
  | Raise FileNotFoundError => (None, [])
  | Raise _ => (None, ["获取公司新闻数据时出错: {str(e)}"])
  end.

End Responses.
End DataFetcher.


(** The update timestamp of the latest row of an entity of a security,
    the notion the freshness gate of the specification speaks of.
    [StockDaily] has no such column. *)
Definition latest_update (symbol : string) (e : Entity) (st : Store) : option Z :=
  let mine {R : Type} (symbol_of : R -> string) (rows : list R) :=
    filter (fun r => String.eqb (symbol_of r) symbol) rows in
  match e with
  | BasicInfo =>
      option_map StockBasic.last_updated
        (first_desc StockBasic.last_updated
           (mine StockBasic.symbol (stock_basic st)))
  | DailyPrice => None
  | FinancialMetric =>
      option_map StockFinancialMetrics.update_date
        (first_desc StockFinancialMetrics.update_date
           (mine StockFinancialMetrics.symbol (stock_financial_metrics st)))
  | InsiderTrade =>
      option_map StockInsiderTrades.update_date
        (first_desc StockInsiderTrades.update_date
           (mine StockInsiderTrades.symbol (stock_insider_trades st)))
  | NewsItem =>
      option_map StockNews.update_date
        (first_desc StockNews.update_date
           (mine StockNews.symbol (stock_news st)))
  | ValuationSnapshot =>
      option_map StockValuationInfo.update_date
        (first_desc StockValuationInfo.update_date
           (mine StockValuationInfo.symbol (stock_valuation_info st)))
  end.

(** Whether a timestamp falls on the calendar day of the clock. *)
Definition on_today (env : Env) (t : option Z) : bool :=
  match t with
  | Some t => date_of t =? date_of (now env)
  | None => false
  end.

(** ** Inputs of the examples

    One security of the Shanghai exchange, a provider that answers with
    small frames, and stores to run the loader on. Dates are instants
    in seconds; the frames carry them as date objects. *)

Module Examples.

Definition symbol : string := "600000".

Definition d_2024_03_31 : Z := 1711843200.
Definition d_2024_05_31 : Z := 1717113600.
Definition d_2024_06_01 : Z := 1717200000.
Definition d_2024_06_15 : Z := 1718409600.
Definition d_2024_06_30 : Z := 1719705600.
(** The clock of the runs: 2 July 2024, 08:00. *)
Definition clock : Z := 1719878400 + 8 * 3600.
(** An earlier run: 1 July 2024, 08:00. *)
Definition yesterday : Z := 1719792000 + 8 * 3600.

(** [float] on the texts the examples hold: a run of digits is its
    number, and the other texts there (["--"], ["n/a"]) are refused. *)
Fixpoint digits (s : string) (acc : Z) : option Z :=
  match s with
  | EmptyString => Some acc
  | String c s' =>
      let n := Z.of_nat (nat_of_ascii c) - 48 in
      if (0 <=? n) && (n <=? 9) then digits s' (10 * acc + n) else None
  end.

Definition float_of_text (s : string) : option pyfloat :=
  match s with
  | EmptyString => None
  | _ => option_map Fnum (digits s 0)
  end.

(** No example holds a date as text. *)
Definition datetime_of_text (s : string) : option Z := None.

Definition failing : Fetched := Raise ProviderError.

Definition provider (metrics trades news info : Fetched) : Akshare :=
  mkAkshare (fun _ => metrics) (fun _ => failing) (fun _ => trades)
            (fun _ => failing) (fun _ => news) (fun _ => info) failing
            (fun _ _ => failing).

Definition environment (a : Akshare) : Env :=
  mkEnv float_of_text datetime_of_text a clock (fun _ => false).

Definition metrics_columns : list string :=
  ["报告期"; "净资产收益率"; "净利率"; "毛利率"; "净利润"; "每股收益"; "主营业务收入"].

Definition num (z : Z) : pyval := PyFloat (Fnum z).

Definition metrics_frame : DataFrame :=
  mkDataFrame metrics_columns
    [[PyDate d_2024_03_31; num 11; num 21; num 31; num 41; num 51; num 61];
     [PyDate d_2024_06_30; num 12; num 22; num 32; num 42; num 52; num 62]].

Definition stored_metrics : StockFinancialMetrics.t :=
  StockFinancialMetrics.mk symbol d_2024_03_31 (Fnum 10) (Fnum 20) (Fnum 30)
    (Fnum 40) (Fnum 50) (Fnum 60) yesterday.

Definition fetched_metrics (report_date r : Z) : StockFinancialMetrics.t :=
  StockFinancialMetrics.mk symbol report_date (Fnum (10 + r)) (Fnum (20 + r))
    (Fnum (30 + r)) (Fnum (40 + r)) (Fnum (50 + r)) (Fnum (60 + r)) clock.

Definition trades_columns : list string :=
  ["董监高姓名"; "变动股份数量"; "成交均价"; "变动日期"; "变动原因"].

Definition trades_frame : DataFrame :=
  mkDataFrame trades_columns
    [[PyStr "Wang"; num 1000; num 8; PyDate d_2024_05_31; PyStr "buy"];
     [PyStr "Li"; num 500; num 9; PyDate d_2024_06_15; PyStr "sell"]].

Definition stored_trade : StockInsiderTrades.t :=
  StockInsiderTrades.mk symbol (PyStr "Wang") d_2024_05_31 (PyStr "buy")
    1000 (Fnum 8) yesterday.



(** A store with one report and one insider trade. *)
Definition store_with_history : Store :=
  mkStore [] [] [stored_metrics] [stored_trade] [] [].

Definition history_env : Env :=
  environment (provider (Ok (Some metrics_frame)) (Ok (Some trades_frame))
                        failing failing).

(** The daily prices of one trading day. *)
Definition price_frame : DataFrame :=
  mkDataFrame ["日期"; "开盘"; "最高"; "最低"; "收盘"; "成交量"; "成交额"]
    [[PyDate d_2024_06_30; num 10; num 12; num 9; num 11; num 1000; num 11000]].

Definition price_env : Env :=
  environment
    (mkAkshare (fun _ => failing) (fun _ => failing) (fun _ => failing)
               (fun _ => failing) (fun _ => failing) (fun _ => failing)
               failing (fun _ _ => Ok (Some price_frame))).

Definition stored_price (id : Z) : StockDaily.t :=
  StockDaily.mk (Some id) symbol d_2024_06_30 (Fnum 10) (Fnum 12) (Fnum 9)
    (Fnum 11) (Fnum 1000) (Fnum 11000).

(** News and a valuation snapshot stored more than thirty days before
    the clock, and news stored twenty-nine days before it. *)
Definition old_news : StockNews.t :=
  StockNews.mk symbol (PyStr "old headline") (clock - 31 * day) "东方财富"
    (PyStr "http://old") (clock - 31 * day).

Definition recent_news : StockNews.t :=
  StockNews.mk symbol (PyStr "recent headline") (clock - 29 * day) "东方财富"
    (PyStr "http://recent") (clock - 29 * day).

Definition old_valuation : StockValuationInfo.t :=
  StockValuationInfo.mk symbol (Fnum 900) (Fnum 90) (Fnum 80) (Fnum 7)
    (Fnum 1) (clock - 40 * day).

Definition store_with_old_rows : Store :=
  mkStore [] [] [] [] [old_news; recent_news] [old_valuation].

Definition news_columns : list string := ["时间"; "标题"; "链接"].


(** A provider with one piece of news of yesterday and one of five
    weeks ago, and with a valuation. *)
Definition news_frame : DataFrame :=
  mkDataFrame news_columns
    [[PyDate (clock - day); PyStr "fresh headline"; PyStr "http://fresh"];
     [PyDate (clock - 35 * day); PyStr "stale headline"; PyStr "http://stale"]].

Definition fresh_news : StockNews.t :=
  StockNews.mk symbol (PyStr "fresh headline") (clock - day) "东方财富"
    (PyStr "http://fresh") clock.

Definition info_frame : DataFrame :=
  mkDataFrame ["item"; "value"]
    [[PyStr "总市值"; num 1000]; [PyStr "总股本"; num 100];
     [PyStr "流通股本"; num 90]; [PyStr "市盈率(动)"; num 8];
     [PyStr "市净率"; num 2]].

Definition info_series : Series :=
  [("总市值", num 1000); ("总股本", num 100); ("流通股本", num 90);
   ("市盈率(动)", num 8); ("市净率", num 2)].

Definition fresh_valuation : StockValuationInfo.t :=
  StockValuationInfo.mk symbol (Fnum 1000) (Fnum 100) (Fnum 90) (Fnum 8)
    (Fnum 2) clock.

Definition busy_env : Env :=
  environment
    (provider failing failing (Ok (Some news_frame)) (Ok (Some info_frame))).

(** The provider's reports, the newest first, as the daily run reads
    them. *)
Definition newest_first_frame : DataFrame :=
  mkDataFrame metrics_columns
    [[PyDate d_2024_06_30; num 12; num 22; num 32; num 42; num 52; num 62];
     [PyDate d_2024_03_31; num 11; num 21; num 31; num 41; num 51; num 61]].

Definition daily_env : Env :=
  environment
    (provider (Ok (Some newest_first_frame)) failing failing failing).

(** Metrics written earlier today, no valuation yet. *)
Definition metrics_of_today : StockFinancialMetrics.t :=
  StockFinancialMetrics.mk symbol d_2024_06_30 (Fnum 12) (Fnum 22) (Fnum 32)
    (Fnum 42) (Fnum 52) (Fnum 62) (clock - 3600).

Definition store_metrics_today : Store :=
  mkStore [] [] [metrics_of_today] [] [] [].

(** A valuation snapshot written earlier today, and the report of 31
    March written yesterday. *)
Definition valuation_of_today : StockValuationInfo.t :=
  StockValuationInfo.mk symbol (Fnum 1000) (Fnum 100) (Fnum 90) (Fnum 8)
    (Fnum 2) (clock - 3600).

Definition store_valuation_today : Store :=
  mkStore [] [] [stored_metrics] [] [] [valuation_of_today].

(** A batch of three reports, the second with a return on equity that
    is no number. *)
Definition mixed_frame : DataFrame :=
  mkDataFrame metrics_columns
    [[PyDate d_2024_03_31; num 11; num 21; num 31; num 41; num 51; num 61];
     [PyDate d_2024_05_31; PyStr "--"; num 20; num 30; num 40; num 50; num 60];
     [PyDate d_2024_06_30; num 12; num 22; num 32; num 42; num 52; num 62]].

Definition mixed_env : Env :=
  environment
    (mkAkshare (fun _ => Ok (Some mixed_frame)) (fun _ => Ok (Some mixed_frame))
               (fun _ => failing) (fun _ => failing) (fun _ => failing)
               (fun _ => failing) failing (fun _ _ => failing)).




(** A valuation answer with a market value written with commas, a
    share count that is no number, and no price ratios. *)
Definition partial_info_frame : DataFrame :=
  mkDataFrame ["item"; "value"]
    [[PyStr "总市值"; PyStr "1,000"]; [PyStr "总股本"; PyStr "n/a"];
     [PyStr "流通股本"; PyStr "90"]].

Definition partial_info_env : Env :=
  environment (provider failing failing failing (Ok (Some partial_info_frame))).


End Examples.

(** * Properties *)

(** ** Tables *)

Section TableFacts.
Context {R K : Type}.
Variable pk : R -> K.
Variable K_eq_dec : forall a b : K, {a = b} + {a <> b}.

Local Abbreviation merge' := (merge pk K_eq_dec).
Local Abbreviation find' := (find_pk pk K_eq_dec).
Local Abbreviation count' := (count_pk pk K_eq_dec).

Lemma merge_keys (r : R) (tbl : list R) :
  (In (pk r) (map pk tbl) /\ map pk (merge' r tbl) = map pk tbl) \/
  (~ In (pk r) (map pk tbl) /\ merge' r tbl = tbl ++ [r]).
Proof.
  induction tbl as [|x tbl IH]; simpl.
  - right. split; [tauto | reflexivity].
  - destruct (K_eq_dec (pk x) (pk r)) as [E|N].
    + left. simpl. split; [left; exact E | now rewrite E].
    + destruct IH as [[Hin Hm]|[Hout Hm]].
      * left. simpl. split; [right; exact Hin | now rewrite Hm].
      * right. split; [intros [H|H]; [apply N, H | apply Hout, H] | now rewrite Hm].
Qed.

Lemma merge_unique (r : R) (tbl : list R) :
  unique_pk pk tbl -> unique_pk pk (merge' r tbl).
Proof.
  unfold unique_pk. intros U.
  destruct (merge_keys r tbl) as [[_ Hm]|[Hout Hm]]; rewrite Hm; [exact U|].
  rewrite map_app. simpl.
  apply NoDup_app; [exact U | repeat constructor; simpl; tauto |].
  intros k Hk [<-|[]]. exact (Hout Hk).
Qed.

Lemma merge_length (r : R) (tbl : list R) :
  In (pk r) (map pk tbl) -> List.length (merge' r tbl) = List.length tbl.
Proof.
  intros Hin. destruct (merge_keys r tbl) as [[_ Hm]|[Hout _]]; [|tauto].
  rewrite <- (length_map pk (merge' r tbl)), Hm. apply length_map.
Qed.

Lemma find_merge_same (r : R) (tbl : list R) :
  find' (pk r) (merge' r tbl) = Some r.
Proof.
  induction tbl as [|x tbl IH]; simpl.
  - destruct (K_eq_dec (pk r) (pk r)); congruence.
  - destruct (K_eq_dec (pk x) (pk r)) as [E|N]; simpl.
    + destruct (K_eq_dec (pk r) (pk r)); congruence.
    + destruct (K_eq_dec (pk x) (pk r)); [contradiction | exact IH].
Qed.

Lemma find_merge_other (r : R) (k : K) (tbl : list R) :
  k <> pk r -> find' k (merge' r tbl) = find' k tbl.
Proof.
  intros Hk. induction tbl as [|x tbl IH]; simpl.
  - destruct (K_eq_dec (pk r) k); congruence.
  - destruct (K_eq_dec (pk x) (pk r)) as [E|N]; simpl.
    + destruct (K_eq_dec (pk r) k), (K_eq_dec (pk x) k); congruence.
    + destruct (K_eq_dec (pk x) k); [reflexivity | exact IH].
Qed.

Lemma find_pk_In (k : K) (tbl : list R) (x : R) :
  find' k tbl = Some x -> In x tbl /\ pk x = k.
Proof.
  induction tbl as [|y tbl IH]; simpl; [discriminate|].
  destruct (K_eq_dec (pk y) k) as [E|N].
  - intros [= <-]. tauto.
  - intros H. destruct (IH H). tauto.
Qed.


Lemma In_merge (r x : R) (tbl : list R) :
  In x (merge' r tbl) -> x = r \/ In x tbl.
Proof.
  induction tbl as [|y tbl IH]; simpl.
  - intros [<-|[]]. now left.
  - destruct (K_eq_dec (pk y) (pk r)) as [E|N]; simpl.
    + intros [<-|H]; [now left | right; now right].
    + intros [<-|H]; [right; now left|].
      destruct (IH H) as [->|Hin]; [now left | right; now right].
Qed.

Lemma In_merge_self (r : R) (tbl : list R) : In r (merge' r tbl).
Proof.
  induction tbl as [|y tbl IH]; simpl; [now left|].
  destruct (K_eq_dec (pk y) (pk r)); simpl; [now left | now right].
Qed.

Lemma In_merge_other (r x : R) (tbl : list R) :
  In x tbl -> pk x <> pk r -> In x (merge' r tbl).
Proof.
  intros Hin Hne. induction tbl as [|y tbl IH]; simpl; [contradiction|].
  destruct Hin as [->|Hin].
  - destruct (K_eq_dec (pk x) (pk r)); [contradiction | now left].
  - destruct (K_eq_dec (pk y) (pk r)); simpl; [now right | right; now apply IH].
Qed.

(** A key once stored stays stored under [merge]. *)
Lemma merge_keeps_key (r : R) (k : K) (tbl : list R) :
  In k (map pk tbl) -> In k (map pk (merge' r tbl)).
Proof.
  intros Hin. destruct (merge_keys r tbl) as [[_ Hm]|[_ Hm]]; rewrite Hm.
  - exact Hin.
  - rewrite map_app. apply in_or_app. now left.
Qed.

Lemma count_pk_NoDup (k : K) (tbl : list R) :
  unique_pk pk tbl -> In k (map pk tbl) -> count' k tbl = 1%nat.
Proof.
  unfold unique_pk, count_pk. induction tbl as [|x tbl IH]; simpl; [tauto|].
  intros U Hin. inversion U as [|? ? Hx U']; subst.
  destruct (K_eq_dec (pk x) k) as [E|N]; simpl.
  - f_equal. subst k. clear IH Hin U U'.
    induction tbl as [|y tbl IH]; simpl; [reflexivity|].
    destruct (K_eq_dec (pk y) (pk x)) as [E|N]; simpl.
    + exfalso. apply Hx. left. exact E.
    + apply IH. intros H. apply Hx. now right.
  - apply IH; [exact U'|]. destruct Hin as [H|H]; [contradiction | exact H].
Qed.

(** Merging under a primary key overwrites: the key is stored once, with
    the object just merged. *)
Lemma merge_overwrites (r : R) (tbl : list R) :
  unique_pk pk tbl ->
  count' (pk r) (merge' r tbl) = 1%nat /\ find' (pk r) (merge' r tbl) = Some r.
Proof.
  intros U. split; [|apply find_merge_same].
  apply count_pk_NoDup; [now apply merge_unique|].
  apply in_map, In_merge_self.
Qed.

(** A second merge of the same key replaces the first. *)
Lemma merge_twice (r1 r2 : R) (tbl : list R) :
  pk r1 = pk r2 -> merge' r2 (merge' r1 tbl) = merge' r2 tbl.
Proof.
  intros E. induction tbl as [|x tbl IH]; simpl.
  - destruct (K_eq_dec (pk r1) (pk r2)); [reflexivity | contradiction].
  - destruct (K_eq_dec (pk x) (pk r1)) as [E1|N1]; simpl.
    + destruct (K_eq_dec (pk r1) (pk r2)); [|contradiction].
      destruct (K_eq_dec (pk x) (pk r2)); [reflexivity | congruence].
    + destruct (K_eq_dec (pk x) (pk r2)); [congruence | now rewrite IH].
Qed.


Lemma In_fold_merge (rs : list R) (x : R) (tbl : list R) :
  In x (fold_left (fun t r => merge' r t) rs tbl) -> In x rs \/ In x tbl.
Proof.
  revert tbl. induction rs as [|r rs IH]; simpl; intros tbl Hin; [now right|].
  destruct (IH _ Hin) as [H|H]; [left; now right|].
  destruct (In_merge _ _ _ H) as [->|H']; [left; now left | now right].
Qed.

Lemma fold_merge_unique (rs : list R) (tbl : list R) :
  unique_pk pk tbl -> unique_pk pk (fold_left (fun t r => merge' r t) rs tbl).
Proof.
  revert tbl. induction rs as [|r rs IH]; simpl; intros tbl U; [exact U|].
  apply IH, merge_unique, U.
Qed.

End TableFacts.



Lemma first_desc_None {R : Type} (col : R -> Z) (rows : list R) :
  first_desc col rows = None -> rows = [].
Proof.
  destruct rows as [|x rows]; [reflexivity|]. simpl.
  destruct (first_desc col rows); [destruct (_ <? _)|]; discriminate.
Qed.

(** ** The monad: relations every step of a computation respects *)

Section Steady.
Variable R : State -> State -> Prop.
Hypothesis R_refl : forall s, R s s.
Hypothesis R_trans : forall a b c, R a b -> R b c -> R a c.

(** [m] moves every state to one related to it, whether it returns or
    raises. *)
Definition steady {A} (m : M A) : Prop := forall s, R s (snd (m s)).

Lemma steady_ret {A} (a : A) : steady (ret a).
Proof. intros s. apply R_refl. Qed.

Lemma steady_raise {A} (e : exn) : steady (@raise A e).
Proof. intros s. apply R_refl. Qed.

Lemma steady_lift {A} (r : result A) : steady (lift r).
Proof. intros s. apply R_refl. Qed.

Lemma steady_query {A} (q : Store -> A) : steady (query q).
Proof. intros s. apply R_refl. Qed.

Lemma steady_frame (df : option DataFrame) : steady (frame df).
Proof. destruct df; [apply steady_ret | apply steady_raise]. Qed.

Lemma steady_bind {A B} (m : M A) (k : A -> M B) :
  steady m -> (forall a, steady (k a)) -> steady (bind m k).
Proof.
  intros Hm Hk s. unfold bind. specialize (Hm s).
  destruct (m s) as [[a|e] s']; simpl in *; [|exact Hm].
  eapply R_trans; [exact Hm | apply Hk].
Qed.

Lemma steady_try_except {A} (m : M A) (h : exn -> M A) :
  steady m -> (forall e, steady (h e)) -> steady (try_except m h).
Proof.
  intros Hm Hh s. unfold try_except. specialize (Hm s).
  destruct (m s) as [[a|e] s']; simpl in *; [exact Hm|].
  eapply R_trans; [exact Hm | apply Hh].
Qed.

Lemma steady_for_fold {A B} (l : list A) (body : B -> A -> M B) :
  (forall acc x, steady (body acc x)) -> forall acc, steady (for_fold l acc body).
Proof.
  intros Hb. induction l as [|x l IH]; intros acc; simpl.
  - apply steady_ret.
  - apply steady_bind; [apply Hb | exact IH].
Qed.

Lemma steady_for_each {A} (l : list A) (body : A -> M unit) :
  (forall x, steady (body x)) -> steady (for_each l body).
Proof. intros Hb. apply steady_for_fold. intros _ x. apply Hb. Qed.

Lemma steady_existing_unless_full {A} (full_update : bool) (q : Store -> option A) :
  steady (StockDataLoader.existing_unless_full full_update q).
Proof.
  unfold StockDataLoader.existing_unless_full.
  destruct full_update; [apply steady_ret | apply steady_query].
Qed.

Hypothesis R_emit : forall ev, steady (emit ev).

Lemma steady_call (api : string) (r : Fetched) : steady (call api r).
Proof.
  unfold call. apply steady_bind; [apply R_emit | intros; apply steady_lift].
Qed.

Lemma steady_share_hold_change env symbol (m : M DataFrame) :
  StockDataLoader.call_share_hold_change env symbol = Some m -> steady m.
Proof.
  unfold StockDataLoader.call_share_hold_change.
  destruct (StockDataLoader.share_hold_change env symbol); intros [= <-].
  apply steady_bind; [apply steady_call | intros; apply steady_frame].
Qed.
End Steady.

(** A computation that returns, whatever the state. *)
Definition returns {A} (m : M A) : Prop := forall s, exists a, fst (m s) = Ok a.

Lemma returns_ret {A} (a : A) : returns (ret a).
Proof. intros s. now exists a. Qed.

Lemma returns_emit (ev : Event) : returns (emit ev).
Proof. intros s. now exists tt. Qed.

Lemma returns_rollback : returns rollback.
Proof. intros s. now exists tt. Qed.

Lemma returns_bind {A B} (m : M A) (k : A -> M B) :
  returns m -> (forall a, returns (k a)) -> returns (bind m k).
Proof.
  intros Hm Hk s. unfold bind. destruct (Hm s) as [a Ha].
  destruct (m s) as [[a'|e] s']; simpl in Ha; [|discriminate].
  apply Hk.
Qed.

(** A handler that returns makes the whole [try] return. *)
Lemma returns_try_except {A} (m : M A) (h : exn -> M A) :
  (forall e, returns (h e)) -> returns (try_except m h).
Proof.
  intros Hh s. unfold try_except.
  destruct (m s) as [[a|e] s']; [now exists a | apply Hh].
Qed.

(** The trace only grows. *)
Definition grows (s s' : State) : Prop := exists l, trace s' = trace s ++ l.

Lemma grows_refl s : grows s s.
Proof. exists []. now rewrite app_nil_r. Qed.

Lemma grows_trans a b c : grows a b -> grows b c -> grows a c.
Proof.
  intros [l1 H1] [l2 H2]. exists (l1 ++ l2). now rewrite H2, H1, app_assoc.
Qed.

Lemma grows_emit ev : steady grows (emit ev).
Proof. intros s. now exists [ev]. Qed.

Lemma grows_modify f : steady grows (modify f).
Proof. intros s. exists []. simpl. now rewrite app_nil_r. Qed.

Lemma grows_commit env e : steady grows (commit env e).
Proof.
  intros s. unfold commit. exists [].
  destruct (commit_fails env e); simpl; now rewrite app_nil_r.
Qed.

Lemma grows_rollback : steady grows rollback.
Proof. intros s. exists []. simpl. now rewrite app_nil_r. Qed.

(** A table that no pending change touches stays as it is, committed
    and pending, whatever the computation does to the others. [P] reads
    the table off a store. *)
Definition keeps {X : Type} (P : Store -> X) (s s' : State) : Prop :=
  P (cur s) = P (db s) -> P (db s') = P (db s) /\ P (cur s') = P (db s).

Lemma keeps_refl {X} (P : Store -> X) s : keeps P s s.
Proof. intros H. now split. Qed.

Lemma keeps_trans {X} (P : Store -> X) a b c :
  keeps P a b -> keeps P b c -> keeps P a c.
Proof.
  intros H1 H2 Ha. destruct (H1 Ha) as [Hd Hc].
  destruct H2 as [Hd' Hc']; [congruence|]. split; congruence.
Qed.

Lemma keeps_emit {X} (P : Store -> X) ev : steady (keeps P) (emit ev).
Proof. intros s H. now split. Qed.

Lemma keeps_modify {X} (P : Store -> X) f :
  (forall st, P (f st) = P st) -> steady (keeps P) (modify f).
Proof. intros Hf s H. simpl. rewrite Hf. now split. Qed.

Lemma keeps_commit {X} (P : Store -> X) env e : steady (keeps P) (commit env e).
Proof.
  intros s H. unfold commit. destruct (commit_fails env e); simpl; now split.
Qed.

Lemma keeps_rollback {X} (P : Store -> X) : steady (keeps P) rollback.
Proof. intros s H. now split. Qed.

Create HintDb steady.
#[export] Hint Resolve grows_refl grows_trans grows_emit grows_modify
  grows_commit grows_rollback : steady.
#[export] Hint Resolve keeps_refl keeps_trans keeps_emit keeps_commit
  keeps_rollback : steady.
#[export] Hint Extern 1 (steady (keeps _) (modify _)) =>
  apply keeps_modify; intros; first [reflexivity | solve [auto]] : steady.

(** Walks a computation down to its primitive steps. *)
Ltac steady_step :=
  lazymatch goal with
  | |- steady _ (bind _ _) => apply steady_bind; [eauto with steady | | intros]
  | |- steady _ (try_except _ _) =>
      apply steady_try_except; [eauto with steady | | intros]
  | |- steady _ (for_fold _ _ _) =>
      apply steady_for_fold; [eauto with steady | eauto with steady | intros]
  | |- steady _ (for_each _ _) =>
      apply steady_for_each; [eauto with steady | eauto with steady | intros]
  | |- steady _ (ret _) => apply steady_ret; eauto with steady
  | |- steady _ (raise _) => apply steady_raise; eauto with steady
  | |- steady _ (lift _) => apply steady_lift; eauto with steady
  | |- steady _ (query _) => apply steady_query; eauto with steady
  | |- steady _ (frame _) => apply steady_frame; eauto with steady
  | |- steady _ (StockDataLoader.existing_unless_full _ _) =>
      apply steady_existing_unless_full; eauto with steady
  | |- steady _ (log _ _) => unfold log; eauto with steady
  | |- steady _ (call _ _) => apply steady_call; eauto with steady
  | |- steady ?R (match StockDataLoader.call_share_hold_change ?e ?y with
                  | _ => _ end) =>
      let H := fresh "Hfetch" in
      destruct (StockDataLoader.call_share_hold_change e y) eqn:H;
      [apply (steady_share_hold_change (R:=R)) in H;
       [ | eauto with steady ..] | ]
  | |- steady _ (merge_basic _) => unfold merge_basic; eauto with steady
  | |- steady _ (merge_price _) => unfold merge_price; eauto with steady
  | |- steady _ (merge_metrics _) => unfold merge_metrics; eauto with steady
  | |- steady _ (merge_trade _) => unfold merge_trade; eauto with steady
  | |- steady _ (merge_news _) => unfold merge_news; eauto with steady
  | |- steady _ (merge_valuation _) => unfold merge_valuation; eauto with steady
  | |- steady _ (StockDataLoader.delete_old_news _ _) =>
      unfold StockDataLoader.delete_old_news; eauto with steady
  | |- steady _ (StockDataLoader.delete_old_valuation _ _) =>
      unfold StockDataLoader.delete_old_valuation; eauto with steady
  | |- steady _ (StockDataLoader.financial_metrics_body _ _ _) =>
      unfold StockDataLoader.financial_metrics_body
  | |- steady _ (StockDataLoader.insider_trades_body _ _ _) =>
      unfold StockDataLoader.insider_trades_body
  | |- steady _ (StockDataLoader.stock_news_body _ _ _ _) =>
      unfold StockDataLoader.stock_news_body
  | |- steady _ (StockDataLoader.stock_price_body _ _ _) =>
      unfold StockDataLoader.stock_price_body
  | |- steady _ (StockDataLoader.daily_price_body _ _ _ _) =>
      unfold StockDataLoader.daily_price_body
  | |- steady _ (StockDataLoader.history_metrics_body _ _ _ _ _ _) =>
      unfold StockDataLoader.history_metrics_body
  | |- steady _ (StockDataLoader.history_trades_body _ _ _ _ _ _) =>
      unfold StockDataLoader.history_trades_body
  | |- steady _ (StockDataLoader.history_news_body _ _ _ _ _ _ _) =>
      unfold StockDataLoader.history_news_body
  | |- steady _ (StockDataLoader.daily_news_body _ _ _) =>
      unfold StockDataLoader.daily_news_body
  | |- steady _ (StockDataLoader.valuation_field _ _ _ _) =>
      unfold StockDataLoader.valuation_field
  | |- steady _ (if ?b then _ else _) => destruct b
  | |- steady _ (match ?x with _ => _ end) => destruct x
  | |- steady _ _ => solve [eauto with steady]
  end.

Ltac steady_tac := cbv zeta; repeat (steady_step; cbv zeta).

(** ** Loops that convert a row and merge the object

    Every loop of the loader has one shape: a row raises, is passed
    over, or yields an object that is merged. [plan] lists the objects a
    batch yields, or the first exception. *)

Section Loops.
Context {Row R B : Type}.
Variable put : R -> Store -> Store.
Variable mark : B -> B.
Variable step : Row -> result (option R).

Fixpoint plan (rows : list Row) : result (list R) :=
  match rows with
  | [] => Ok []
  | row :: rows' =>
      let? o := step row in
      let? rs := plan rows' in
      Ok match o with
         | Some r => r :: rs
         | None => rs
         end
  end.

Definition canon (acc : B) (row : Row) : M B :=
  match step row with
  | Raise e => raise e
  | Ok None => ret acc
  | Ok (Some r) => modify (put r) ;; ret (mark acc)
  end.

Lemma for_fold_ext {A} (body1 body2 : B -> A -> M B) :
  (forall acc x s, body1 acc x s = body2 acc x s) ->
  forall l acc s, for_fold l acc body1 s = for_fold l acc body2 s.
Proof.
  intros E. induction l as [|x l IH]; intros acc s; simpl; [reflexivity|].
  unfold bind. rewrite E. destruct (body2 acc x s) as [[a|e] s']; [apply IH | reflexivity].
Qed.

Lemma loop_ok (rows : list Row) (rs : list R) :
  plan rows = Ok rs ->
  forall acc s,
    for_fold rows acc canon s =
    (Ok (fold_left (fun a _ => mark a) rs acc),
     mkState (db s) (fold_left (fun st r => put r st) rs (cur s)) (trace s)).
Proof.
  revert rs. induction rows as [|row rows IH]; simpl; intros rs H acc s.
  - injection H as <-. simpl. now destruct s.
  - unfold bind, canon. destruct (step row) as [o|e]; simpl in H; [|discriminate].
    destruct (plan rows) as [rs'|e]; simpl in H; [|discriminate].
    injection H as <-. destruct o as [r|]; simpl.
    + rewrite (IH rs' eq_refl). reflexivity.
    + apply (IH rs' eq_refl).
Qed.

Lemma loop_raise (rows : list Row) (e : exn) :
  plan rows = Raise e ->
  forall acc s, exists st,
    for_fold rows acc canon s = (Raise e, mkState (db s) st (trace s)).
Proof.
  induction rows as [|row rows IH]; simpl; intros H acc s; [discriminate|].
  unfold bind, canon. destruct (step row) as [o|e']; simpl in H.
  - destruct (plan rows) as [rs'|e'] eqn:P; simpl in H; [discriminate|].
    injection H as ->. destruct o as [r|]; simpl.
    + destruct (IH eq_refl (mark acc) (mkState (db s) (put r (cur s)) (trace s)))
        as [st Hst].
      exists st. exact Hst.
    + apply (IH eq_refl).
  - injection H as ->. exists (cur s). now destruct s.
Qed.

(** What a batch yields comes from its rows. *)
Lemma plan_sound (rows : list Row) (rs : list R) :
  plan rows = Ok rs ->
  forall r, In r rs -> exists row, In row rows /\ step row = Ok (Some r).
Proof.
  revert rs. induction rows as [|row rows IH]; simpl; intros rs H r Hr.
  - injection H as <-. contradiction.
  - destruct (step row) as [o|e] eqn:S; simpl in H; [|discriminate].
    destruct (plan rows) as [rs'|e]; simpl in H; [|discriminate].
    injection H as <-.
    destruct o as [r'|].
    + destruct Hr as [<-|Hr]; [exists row; split; [now left | exact S]|].
      destruct (IH rs' eq_refl r Hr) as [row' [Hin Hs]].
      exists row'. split; [now right | exact Hs].
    + destruct (IH rs' eq_refl r Hr) as [row' [Hin Hs]].
      exists row'. split; [now right | exact Hs].
Qed.

(** One row that raises makes the batch raise. *)
Lemma plan_raises (rows : list Row) (row : Row) (e : exn) :
  In row rows -> step row = Raise e -> exists e', plan rows = Raise e'.
Proof.
  induction rows as [|x rows IH]; simpl; [contradiction|].
  intros [->|Hin] S.
  - rewrite S. simpl. now exists e.
  - destruct (step x) as [o|e'']; simpl; [|now exists e''].
    destruct (IH Hin S) as [e' ->]. simpl. now exists e'.
Qed.
End Loops.

(** [data_updated] after a loop: whether it merged anything. *)
Lemma fold_mark_true {R : Type} (rs : list R) (acc : bool) :
  fold_left (fun (a : bool) (_ : R) => true) rs acc =
  match rs with
  | [] => acc
  | _ => true
  end.
Proof.
  destruct rs as [|r rs]; [reflexivity|]. simpl. clear r acc.
  induction rs as [|r rs IH]; [reflexivity | exact IH].
Qed.

Lemma fold_mark_tt {R : Type} (rs : list R) (acc : unit) :
  fold_left (fun (a : unit) (_ : R) => a) rs acc = tt.
Proof. destruct acc. induction rs; simpl; auto. Qed.

(** ** Running a computation on a state *)

Lemma run_bind {A B} (m : M A) (k : A -> M B) (s : State) :
  bind m k s = match m s with
               | (Ok a, s') => k a s'
               | (Raise e, s') => (Raise e, s')
               end.
Proof. reflexivity. Qed.

Lemma run_try {A} (m : M A) (h : exn -> M A) (s : State) :
  try_except m h s = match m s with
                     | (Ok a, s') => (Ok a, s')
                     | (Raise e, s') => h e s'
                     end.
Proof. reflexivity. Qed.

Lemma run_ret {A} (a : A) (s : State) : ret a s = (Ok a, s).
Proof. reflexivity. Qed.

Lemma run_raise {A} (e : exn) (s : State) : @raise A e s = (Raise e, s).
Proof. reflexivity. Qed.

Lemma run_lift {A} (r : result A) (s : State) : lift r s = (r, s).
Proof. reflexivity. Qed.

Lemma run_log (l : level) (msg : string) (s : State) :
  log l msg s = (Ok tt, mkState (db s) (cur s) (trace s ++ [Log l msg])).
Proof. reflexivity. Qed.

Lemma run_call (api : string) (r : Fetched) (s : State) :
  call api r s = (r, mkState (db s) (cur s) (trace s ++ [Call api])).
Proof. unfold call. rewrite run_bind. simpl. now destruct r. Qed.

Lemma run_frame_some (d : DataFrame) (s : State) : frame (Some d) s = (Ok d, s).
Proof. reflexivity. Qed.

Lemma run_frame_none (s : State) : frame None s = (Raise AttributeError, s).
Proof. reflexivity. Qed.

Lemma run_query {A} (q : Store -> A) (s : State) : query q s = (Ok (q (cur s)), s).
Proof. reflexivity. Qed.

Lemma run_modify (f : Store -> Store) (s : State) :
  modify f s = (Ok tt, mkState (db s) (f (cur s)) (trace s)).
Proof. reflexivity. Qed.

Lemma run_rollback (s : State) :
  rollback s = (Ok tt, mkState (db s) (db s) (trace s)).
Proof. reflexivity. Qed.

Lemma run_commit_ok (env : Env) (e : Entity) (s : State) :
  commit_fails env e = false ->
  commit env e s = (Ok tt, mkState (cur s) (cur s) (trace s)).
Proof. intros H. unfold commit. now rewrite H. Qed.

Lemma run_commit_fail (env : Env) (e : Entity) (s : State) :
  commit_fails env e = true -> commit env e s = (Raise StoreError, s).
Proof. intros H. unfold commit. now rewrite H. Qed.

Lemma run_existing_unless_full {A} (full_update : bool)
  (q : Store -> option A) (s : State) :
  StockDataLoader.existing_unless_full full_update q s =
  (Ok (if full_update then None else q (cur s)), s).
Proof. now destruct full_update. Qed.

Ltac mrun_step :=
  first
    [ rewrite run_bind
    | rewrite run_try
    | rewrite run_ret
    | rewrite run_raise
    | rewrite run_lift
    | rewrite run_log
    | rewrite run_call
    | rewrite run_frame_some
    | rewrite run_frame_none
    | rewrite run_query
    | rewrite run_modify
    | rewrite run_rollback
    | rewrite run_existing_unless_full
    | rewrite run_commit_ok by assumption
    | rewrite run_commit_fail by assumption ].

(** Runs the computation of the goal as far as its primitive steps go. *)
Ltac mrun :=
  cbn [db cur trace fst snd negb];
  repeat (mrun_step; cbn [db cur trace fst snd negb]).

(** A frame that counts as empty has no rows, or rows without cells. *)
Lemma empty_rows (d : DataFrame) :
  empty d = true ->
  iterrows d = [] \/ exists rows, iterrows d = [] :: rows.
Proof.
  unfold empty, iterrows. destruct d as [cols rows]. simpl.
  destruct cols as [|c cols].
  - intros _. destruct rows as [|r rows]; [now left | right].
    simpl. eauto.
  - destruct rows; [now left | discriminate].
Qed.

Lemma plan_empty_frame {R : Type} (step : Series -> result (option R))
  (d : DataFrame) (rs : list R) :
  empty d = true ->
  (exists e, step [] = Raise e) ->
  plan step (iterrows d) = Ok rs -> rs = [].
Proof.
  intros He [e Hs] Hp. destruct (empty_rows d He) as [E|[rows E]];
    rewrite E in Hp; simpl in Hp.
  - now injection Hp.
  - rewrite Hs in Hp. discriminate.
Qed.

(** A batch of merges into one table of a store. *)
Section Lens.
Context {T R : Type}.
Variable get_tbl : Store -> T.
Variable set_tbl : T -> Store -> Store.
Variable f : R -> T -> T.
Hypothesis get_set : forall v st, get_tbl (set_tbl v st) = v.
Hypothesis set_set : forall v w st, set_tbl v (set_tbl w st) = set_tbl v st.
Hypothesis set_get : forall st, set_tbl (get_tbl st) st = st.

Lemma fold_put (rs : list R) (st : Store) :
  fold_left (fun st r => set_tbl (f r (get_tbl st)) st) rs st =
  set_tbl (fold_left (fun t r => f r t) rs (get_tbl st)) st.
Proof.
  revert st. induction rs as [|r rs IH]; simpl; intros st.
  - now rewrite set_get.
  - now rewrite IH, get_set, set_set.
Qed.
End Lens.

Lemma set_get_metrics st :
  set_stock_financial_metrics (stock_financial_metrics st) st = st.
Proof. now destruct st. Qed.

Lemma set_get_trades st :
  set_stock_insider_trades (stock_insider_trades st) st = st.
Proof. now destruct st. Qed.

Lemma set_get_news st : set_stock_news (stock_news st) st = st.
Proof. now destruct st. Qed.

Abbreviation merge_metrics_tbl :=
  (merge StockFinancialMetrics.pk key2_eq_dec).
Abbreviation merge_trades_tbl := (merge StockInsiderTrades.pk key3_eq_dec).
Abbreviation merge_news_tbl := (merge StockNews.pk key3_eq_dec).

Definition put_metrics (r : StockFinancialMetrics.t) (st : Store) : Store :=
  set_stock_financial_metrics
    (merge_metrics_tbl r (stock_financial_metrics st)) st.

Definition put_trade (r : StockInsiderTrades.t) (st : Store) : Store :=
  set_stock_insider_trades (merge_trades_tbl r (stock_insider_trades st)) st.

Definition put_news (r : StockNews.t) (st : Store) : Store :=
  set_stock_news (merge_news_tbl r (stock_news st)) st.

Lemma fold_put_metrics rs st :
  fold_left (fun st r => put_metrics r st) rs st =
  set_stock_financial_metrics
    (fold_left (fun t r => merge_metrics_tbl r t) rs (stock_financial_metrics st)) st.
Proof.
  apply (fold_put stock_financial_metrics set_stock_financial_metrics);
    auto using set_get_metrics.
Qed.

Lemma fold_put_trades rs st :
  fold_left (fun st r => put_trade r st) rs st =
  set_stock_insider_trades
    (fold_left (fun t r => merge_trades_tbl r t) rs (stock_insider_trades st)) st.
Proof.
  apply (fold_put stock_insider_trades set_stock_insider_trades);
    auto using set_get_trades.
Qed.

Lemma fold_put_news rs st :
  fold_left (fun st r => put_news r st) rs st =
  set_stock_news
    (fold_left (fun t r => merge_news_tbl r t) rs (stock_news st)) st.
Proof.
  apply (fold_put stock_news set_stock_news); auto using set_get_news.
Qed.


(** ** Step 1 of [update_stock_history]: financial metrics *)

Section HistoryMetrics.
Variable env : Env.
Variable symbol : string.
Variable full_update : bool.

(** What the loop of step 1 does with one row, given the stored latest
    row the step found. *)
Definition history_metrics_row (existing : option StockFinancialMetrics.t)
  (row : Series) : result (option StockFinancialMetrics.t) :=
  let? cell := getitem row "报告期" in
  let? report_date := to_datetime env cell in
  if StockDataLoader.already_have StockFinancialMetrics.report_date existing
       full_update report_date
  then Ok None
  else
    let? m := StockDataLoader.metrics_of_row env symbol row report_date (now env) in
    Ok (Some m).

Lemma history_metrics_body_canon existing acc row s :
  StockDataLoader.history_metrics_body env symbol full_update existing acc row s =
  canon put_metrics (fun _ => true) (history_metrics_row existing) acc row s.
Proof.
  unfold StockDataLoader.history_metrics_body, canon, history_metrics_row.
  mrun. destruct (getitem row "报告期") as [cell|e]; cbn [rbind]; [|reflexivity].
  mrun. destruct (to_datetime env cell) as [t|e]; cbn [rbind]; [|reflexivity].
  destruct (StockDataLoader.already_have _ _ _ _); [reflexivity|].
  mrun. destruct (StockDataLoader.metrics_of_row _ _ _ _ _); cbn [rbind]; reflexivity.
Qed.

(** The stored latest row the step compares with. *)
Definition metrics_seen (st : Store) : option StockFinancialMetrics.t :=
  if full_update then None else StockDataLoader.latest_metrics symbol st.

(** The step when its batch goes through: the objects of the batch are
    merged and committed. *)
Lemma history_metrics_commits (s : State) (d : DataFrame)
  (rs : list StockFinancialMetrics.t) :
  stock_financial_analysis_indicator (ak env) symbol = Ok (Some d) ->
  plan (history_metrics_row (metrics_seen (cur s))) (iterrows d) = Ok rs ->
  commit_fails env FinancialMetric = false ->
  cur s = db s ->
  exists tr,
    StockDataLoader.history_financial_metrics env symbol full_update s =
    (Ok tt,
     let st := set_stock_financial_metrics
                 (fold_left (fun t m => merge_metrics_tbl m t) rs
                            (stock_financial_metrics (db s))) (db s) in
     mkState st st tr).
Proof.
  intros Hfetch Hplan Hcommit Hclean.
  unfold StockDataLoader.history_financial_metrics. mrun.
  rewrite Hfetch. mrun.
  fold (metrics_seen (cur s)).
  destruct (empty d) eqn:Hempty; mrun.
  - apply plan_empty_frame in Hplan; [subst rs | exact Hempty | now exists KeyError].
    simpl. rewrite set_get_metrics, <- Hclean. destruct s. simpl. eauto.
  - rewrite (for_fold_ext _ _ (history_metrics_body_canon (metrics_seen (cur s)))).
    rewrite (loop_ok _ _ _ _ Hplan). rewrite fold_mark_true.
    rewrite fold_put_metrics, Hclean.
    destruct rs as [|r rs]; mrun; simpl; eauto.
    rewrite set_get_metrics. eauto.
Qed.
(** The step in every case: it returns, the session is left with
    nothing pending, and what is committed is the store as it was or
    the store with the batch merged. *)
Lemma history_metrics_cases (s : State) :
  cur s = db s ->
  exists tr st,
    StockDataLoader.history_financial_metrics env symbol full_update s =
    (Ok tt, mkState st st tr) /\
    (st = db s \/
     exists d rs,
       stock_financial_analysis_indicator (ak env) symbol = Ok (Some d) /\
       plan (history_metrics_row (metrics_seen (db s))) (iterrows d) = Ok rs /\
       st = set_stock_financial_metrics
              (fold_left (fun t m => merge_metrics_tbl m t) rs
                         (stock_financial_metrics (db s))) (db s)).
Proof.
  intros Hclean.
  destruct (stock_financial_analysis_indicator (ak env) symbol)
    as [[d|]|e] eqn:Hfetch.
  - destruct (plan (history_metrics_row (metrics_seen (cur s))) (iterrows d))
      as [rs|e] eqn:Hplan.
    + destruct (commit_fails env FinancialMetric) eqn:Hcommit.
      * unfold StockDataLoader.history_financial_metrics. mrun.
        rewrite Hfetch. mrun. fold (metrics_seen (cur s)).
        destruct (empty d) eqn:Hempty; mrun.
        { rewrite Hclean. eauto. }
        rewrite (for_fold_ext _ _ (history_metrics_body_canon (metrics_seen (cur s)))).
        rewrite (loop_ok _ _ _ _ Hplan), fold_mark_true.
        destruct rs as [|r rs]; mrun; [rewrite Hclean|]; eauto.
      * destruct (history_metrics_commits s Hfetch Hplan Hcommit Hclean) as [tr H].
        rewrite H. do 2 eexists. split; [reflexivity|]. right.
        exists d, rs. rewrite <- Hclean at 1. auto.
    + unfold StockDataLoader.history_financial_metrics. mrun.
      rewrite Hfetch. mrun. fold (metrics_seen (cur s)).
      destruct (empty d) eqn:Hempty; mrun.
      { rewrite Hclean. eauto. }
      rewrite (for_fold_ext _ _ (history_metrics_body_canon (metrics_seen (cur s)))).
      destruct (loop_raise put_metrics (fun _ => true) _ _ Hplan false
                  (mkState (db s) (cur s)
                     ((trace s ++ [Log INFO "1. 获取历史财务指标..."]) ++
                      [Call "stock_financial_analysis_indicator"]))) as [st' H].
      rewrite H. mrun. eauto.
  - unfold StockDataLoader.history_financial_metrics. mrun.
    rewrite Hfetch. mrun. eauto.
  - unfold StockDataLoader.history_financial_metrics. mrun.
    rewrite Hfetch. mrun. eauto.
Qed.



End HistoryMetrics.

(** ** Step 2 of [update_stock_history]: insider trades *)

Section HistoryTrades.
Variable env : Env.
Variable symbol : string.
Variable full_update : bool.

Definition history_trades_row (existing : option StockInsiderTrades.t)
  (row : Series) : result (option StockInsiderTrades.t) :=
  let? change_date := StockDataLoader.change_date_of env row in
  if StockDataLoader.already_have StockInsiderTrades.change_date existing
       full_update change_date
  then Ok None
  else
    let? t := StockDataLoader.trade_of_row env symbol row (Ok change_date)
                (now env) in
    Ok (Some t).

Lemma history_trades_body_canon existing acc row s :
  StockDataLoader.history_trades_body env symbol full_update existing acc row s =
  canon put_trade (fun _ => true) (history_trades_row existing) acc row s.
Proof.
  unfold StockDataLoader.history_trades_body, canon, history_trades_row.
  mrun. destruct (StockDataLoader.change_date_of env row) as [t|e];
    cbn [rbind]; [|reflexivity].
  destruct (StockDataLoader.already_have _ _ _ _); [reflexivity|].
  mrun. destruct (StockDataLoader.trade_of_row _ _ _ _ _); cbn [rbind]; reflexivity.
Qed.

Definition trades_seen (st : Store) : option StockInsiderTrades.t :=
  if full_update then None else StockDataLoader.latest_trade symbol st.

Lemma history_trades_commits (s : State) (api : string) (d : DataFrame)
  (rs : list StockInsiderTrades.t) :
  StockDataLoader.share_hold_change env symbol = Some (api, Ok (Some d)) ->
  plan (history_trades_row (trades_seen (cur s))) (iterrows d) = Ok rs ->
  commit_fails env InsiderTrade = false ->
  cur s = db s ->
  exists tr,
    StockDataLoader.history_insider_trades env symbol full_update s =
    (Ok tt,
     let st := set_stock_insider_trades
                 (fold_left (fun t m => merge_trades_tbl m t) rs
                            (stock_insider_trades (db s))) (db s) in
     mkState st st tr).
Proof.
  intros Hfetch Hplan Hcommit Hclean.
  unfold StockDataLoader.history_insider_trades,
    StockDataLoader.call_share_hold_change.
  rewrite Hfetch. cbn [option_map fst snd]. mrun.
  fold (trades_seen (cur s)).
  destruct (empty d) eqn:Hempty; mrun.
  - apply plan_empty_frame in Hplan;
      [subst rs | exact Hempty | now exists TypeError].
    simpl. rewrite set_get_trades, <- Hclean. destruct s. simpl. eauto.
  - rewrite (for_fold_ext _ _ (history_trades_body_canon (trades_seen (cur s)))).
    rewrite (loop_ok _ _ _ _ Hplan). rewrite fold_mark_true.
    rewrite fold_put_trades, Hclean.
    destruct rs as [|r rs]; mrun; simpl; eauto.
    rewrite set_get_trades. eauto.
Qed.

Lemma history_trades_cases (s : State) :
  cur s = db s ->
  exists tr st,
    StockDataLoader.history_insider_trades env symbol full_update s =
    (Ok tt, mkState st st tr) /\
    (st = db s \/
     exists api d rs,
       StockDataLoader.share_hold_change env symbol = Some (api, Ok (Some d)) /\
       plan (history_trades_row (trades_seen (db s))) (iterrows d) = Ok rs /\
       st = set_stock_insider_trades
              (fold_left (fun t m => merge_trades_tbl m t) rs
                         (stock_insider_trades (db s))) (db s)).
Proof.
  intros Hclean.
  destruct (StockDataLoader.share_hold_change env symbol)
    as [[api [[d|]|e]]|] eqn:Hfetch.
  - destruct (plan (history_trades_row (trades_seen (cur s))) (iterrows d))
      as [rs|e] eqn:Hplan.
    + destruct (commit_fails env InsiderTrade) eqn:Hcommit.
      * unfold StockDataLoader.history_insider_trades,
          StockDataLoader.call_share_hold_change.
        rewrite Hfetch. cbn [option_map fst snd]. mrun.
        fold (trades_seen (cur s)).
        destruct (empty d) eqn:Hempty; mrun.
        { rewrite Hclean. eauto. }
        rewrite (for_fold_ext _ _ (history_trades_body_canon (trades_seen (cur s)))).
        rewrite (loop_ok _ _ _ _ Hplan), fold_mark_true.
        destruct rs as [|r rs]; mrun; [rewrite Hclean|]; eauto.
      * destruct (history_trades_commits s Hfetch Hplan Hcommit Hclean) as [tr H].
        rewrite H. do 2 eexists. split; [reflexivity|]. right.
        exists api, d, rs. rewrite <- Hclean at 1. auto.
    + unfold StockDataLoader.history_insider_trades,
        StockDataLoader.call_share_hold_change.
      rewrite Hfetch. cbn [option_map fst snd]. mrun.
      fold (trades_seen (cur s)).
      destruct (empty d) eqn:Hempty; mrun.
      { rewrite Hclean. eauto. }
      rewrite (for_fold_ext _ _ (history_trades_body_canon (trades_seen (cur s)))).
      destruct (loop_raise put_trade (fun _ => true) _ _ Hplan false
                  (mkState (db s) (cur s)
                     ((trace s ++ [Log INFO "2. 获取历史内部交易..."]) ++
                      [Call api]))) as [st' H].
      rewrite H. mrun. eauto.
  - unfold StockDataLoader.history_insider_trades,
      StockDataLoader.call_share_hold_change.
    rewrite Hfetch. cbn [option_map fst snd]. mrun. eauto.
  - unfold StockDataLoader.history_insider_trades,
      StockDataLoader.call_share_hold_change.
    rewrite Hfetch. cbn [option_map fst snd]. mrun. eauto.
  - unfold StockDataLoader.history_insider_trades,
      StockDataLoader.call_share_hold_change.
    rewrite Hfetch. cbn [option_map fst snd]. mrun. rewrite Hclean. eauto.
Qed.

Lemma trade_of_row_fields (row : Series) (d u : Z) (t : StockInsiderTrades.t) :
  StockDataLoader.trade_of_row env symbol row (Ok d) u = Ok t ->
  StockInsiderTrades.symbol t = symbol /\
  StockInsiderTrades.change_date t = d /\
  StockInsiderTrades.update_date t = u.
Proof.
  unfold StockDataLoader.trade_of_row.
  destruct (if notna _ then _ else _); cbn [rbind]; [|discriminate].
  destruct (if notna _ then _ else _); cbn [rbind]; [|discriminate].
  intros [= <-]. auto.
Qed.



End HistoryTrades.

(** ** The four steps in sequence *)

(** The state a computation leaves. *)
Definition exec {A} (m : M A) (s : State) : State := snd (m s).

Lemma returns_unit (m : M unit) : returns m -> forall s, m s = (Ok tt, exec m s).
Proof.
  intros H s. unfold exec. destruct (H s) as [[] Ha].
  destruct (m s) as [r s']. simpl in *. now subst r.
Qed.

Lemma keeps_exec {A X} (P : Store -> X) (m : M A) (s : State) :
  steady (keeps P) m -> P (cur s) = P (db s) ->
  P (db (exec m s)) = P (db s) /\ P (cur (exec m s)) = P (db s).
Proof. intros H. apply H. Qed.

Section HistorySteps.
Variable env : Env.
Variable symbol : string.
Variable full_update : bool.

Lemma handler_returns (msg : string) : returns (log ERROR msg ;; rollback).
Proof.
  apply returns_bind; [apply returns_emit | intros; apply returns_rollback].
Qed.

Lemma history_financial_metrics_returns :
  returns (StockDataLoader.history_financial_metrics env symbol full_update).
Proof. apply returns_try_except. intros; apply handler_returns. Qed.

Lemma history_insider_trades_returns :
  returns (StockDataLoader.history_insider_trades env symbol full_update).
Proof. apply returns_try_except. intros; apply handler_returns. Qed.

Lemma history_news_returns :
  returns (StockDataLoader.history_news env symbol full_update).
Proof. apply returns_try_except. intros; apply handler_returns. Qed.

Lemma history_valuation_returns :
  returns (StockDataLoader.history_valuation env symbol full_update).
Proof. apply returns_try_except. intros; apply handler_returns. Qed.

(** Each step leaves the tables of the other entities alone. *)
Lemma history_financial_metrics_keeps {X} (P : Store -> X) :
  (forall v st, P (set_stock_financial_metrics v st) = P st) ->
  steady (keeps P) (StockDataLoader.history_financial_metrics env symbol full_update).
Proof.
  intros HP. unfold StockDataLoader.history_financial_metrics. steady_tac.
Qed.

Lemma history_insider_trades_keeps {X} (P : Store -> X) :
  (forall v st, P (set_stock_insider_trades v st) = P st) ->
  steady (keeps P) (StockDataLoader.history_insider_trades env symbol full_update).
Proof.
  intros HP. unfold StockDataLoader.history_insider_trades. steady_tac.
Qed.

Lemma history_news_keeps {X} (P : Store -> X) :
  (forall v st, P (set_stock_news v st) = P st) ->
  steady (keeps P) (StockDataLoader.history_news env symbol full_update).
Proof.
  intros HP. unfold StockDataLoader.history_news. steady_tac.
Qed.

Lemma history_valuation_keeps {X} (P : Store -> X) :
  (forall v st, P (set_stock_valuation_info v st) = P st) ->
  steady (keeps P) (StockDataLoader.history_valuation env symbol full_update).
Proof.
  intros HP. unfold StockDataLoader.history_valuation. steady_tac.
Qed.

(** The state in which step 1 starts. *)
Definition history_start (s : State) : State :=
  mkState (db s) (cur s)
    (trace s ++
     [Log INFO "开始获取股票 {self.symbol} 的历史数据... full_update={full_update}"]).

Definition after_metrics (s : State) : State :=
  exec (StockDataLoader.history_financial_metrics env symbol full_update)
       (history_start s).

Definition after_trades (s : State) : State :=
  exec (StockDataLoader.history_insider_trades env symbol full_update)
       (after_metrics s).

Definition after_news (s : State) : State :=
  exec (StockDataLoader.history_news env symbol full_update) (after_trades s).

Definition after_valuation (s : State) : State :=
  exec (StockDataLoader.history_valuation env symbol full_update) (after_news s).

(** The run is its four steps, one after the other, whatever happens
    in each. *)
Lemma update_stock_history_run (s : State) :
  StockDataLoader.update_stock_history env symbol full_update s =
  (Ok tt,
   mkState (db (after_valuation s)) (cur (after_valuation s))
     (trace (after_valuation s) ++
      [Log INFO "股票 {self.symbol} 的历史数据获取完成"])).
Proof.
  unfold StockDataLoader.update_stock_history. mrun.
  fold (history_start s).
  rewrite (returns_unit history_financial_metrics_returns). fold (after_metrics s).
  mrun. rewrite (returns_unit history_insider_trades_returns). fold (after_trades s).
  mrun. rewrite (returns_unit history_news_returns). fold (after_news s).
  mrun. rewrite (returns_unit history_valuation_returns). fold (after_valuation s).
  mrun. reflexivity.
Qed.
End HistorySteps.

Section HistoryRun.
Variable env : Env.
Variable symbol : string.
Variable full_update : bool.

Lemma exec_update_stock_history (s : State) :
  db (exec (StockDataLoader.update_stock_history env symbol full_update) s) =
  db (after_valuation env symbol full_update s).
Proof. unfold exec. now rewrite update_stock_history_run. Qed.

(** Step 1 leaves a session with nothing pending. *)
Lemma after_metrics_clean (s : State) :
  cur s = db s ->
  cur (after_metrics env symbol full_update s) =
  db (after_metrics env symbol full_update s).
Proof.
  intros Hclean. unfold after_metrics, exec.
  destruct (history_metrics_cases env symbol full_update (history_start s) Hclean)
    as (tr & st & -> & _).
  reflexivity.
Qed.

Lemma after_trades_clean (s : State) :
  cur s = db s ->
  cur (after_trades env symbol full_update s) =
  db (after_trades env symbol full_update s).
Proof.
  intros Hclean. unfold after_trades, exec.
  destruct (history_trades_cases env symbol full_update
              (after_metrics env symbol full_update s)
              (after_metrics_clean s Hclean))
    as (tr & st & -> & _).
  reflexivity.
Qed.

(** A table that steps 3 and 4 do not write, and that is not pending
    after step 2, is at the end of the run what step 2 left. *)
Lemma final_table {X} (P : Store -> X) (s : State) :
  (forall v st, P (set_stock_news v st) = P st) ->
  (forall v st, P (set_stock_valuation_info v st) = P st) ->
  cur s = db s ->
  P (db (after_valuation env symbol full_update s)) =
  P (db (after_trades env symbol full_update s)).
Proof.
  intros HPn HPv Hclean.
  pose proof (f_equal P (after_trades_clean s Hclean)) as H2.
  destruct (history_news_keeps env symbol full_update P HPn
              (after_trades env symbol full_update s) H2) as [D3 C3].
  fold (exec (StockDataLoader.history_news env symbol full_update)
             (after_trades env symbol full_update s)) in D3, C3.
  fold (after_news env symbol full_update s) in D3, C3.
  destruct (history_valuation_keeps env symbol full_update P HPv
              (after_news env symbol full_update s)) as [D4 C4];
    [congruence|].
  fold (exec (StockDataLoader.history_valuation env symbol full_update)
             (after_news env symbol full_update s)) in D4.
  fold (after_valuation env symbol full_update s) in D4.
  congruence.
Qed.


(** Step 1 leaves the insider trades as they were. *)
Lemma after_metrics_trades (s : State) :
  cur s = db s ->
  stock_insider_trades (db (after_metrics env symbol full_update s)) =
  stock_insider_trades (db s).
Proof.
  intros Hclean.
  destruct (history_financial_metrics_keeps env symbol full_update
              stock_insider_trades (fun _ _ => eq_refl)
              (history_start s)) as [D1 _]; [simpl; now rewrite Hclean|].
  exact D1.
Qed.

(** The insider trades the run leaves are those step 2 left. *)
Lemma final_trades (s : State) :
  cur s = db s ->
  stock_insider_trades (db (after_valuation env symbol full_update s)) =
  stock_insider_trades (db (after_trades env symbol full_update s)).
Proof.
  intros Hclean.
  exact (final_table stock_insider_trades s
           (fun _ _ => eq_refl) (fun _ _ => eq_refl) Hclean).
Qed.
End HistoryRun.

(** ** The monotonic entities *)

Abbreviation metrics_after env symbol full s :=
  (stock_financial_metrics
     (db (exec (StockDataLoader.update_stock_history env symbol full) s))).

Abbreviation trades_after env symbol full s :=
  (stock_insider_trades
     (db (exec (StockDataLoader.update_stock_history env symbol full) s))).






(** ** Merging one row twice *)

(** The five classes that carry their primary key: a second merge of a
    key overwrites the first, and the key is stored once. *)
Lemma keyed_merge_idempotent {R K : Type} (pk : R -> K)
  (K_eq_dec : forall a b : K, {a = b} + {a <> b}) (r1 r2 : R) (tbl : list R) :
  unique_pk pk tbl -> pk r1 = pk r2 ->
  let tbl' := merge pk K_eq_dec r2 (merge pk K_eq_dec r1 tbl) in
  unique_pk pk tbl' /\
  count_pk pk K_eq_dec (pk r2) tbl' = 1%nat /\
  find_pk pk K_eq_dec (pk r2) tbl' = Some r2.
Proof.
  intros U E tbl'. subst tbl'. rewrite (merge_twice pk K_eq_dec _ _ _ E).
  split; [now apply merge_unique | now apply merge_overwrites].
Qed.

Lemma count_pk_app {R K : Type} (pk : R -> K)
  (K_eq_dec : forall a b : K, {a = b} + {a <> b}) (k : K) (l1 l2 : list R) :
  count_pk pk K_eq_dec k (l1 ++ l2) =
  (count_pk pk K_eq_dec k l1 + count_pk pk K_eq_dec k l2)%nat.
Proof. unfold count_pk. now rewrite filter_app, length_app. Qed.

Lemma count_pk_single {R K : Type} (pk : R -> K)
  (K_eq_dec : forall a b : K, {a = b} + {a <> b}) (k : K) (x : R) :
  pk x = k -> count_pk pk K_eq_dec k [x] = 1%nat.
Proof.
  intros E. unfold count_pk. cbn [filter].
  destruct (K_eq_dec (pk x) k); [reflexivity | contradiction].
Qed.

(** [StockDaily] carries no key of its own: each merge of a price
    object adds a row, and a second merge of a day leaves the day
    stored twice. *)
Lemma merge_daily_duplicates (tbl : list StockDaily.t) (symbol : string)
  (trade_date : Z) (o h l c v a o' h' l' c' v' a' : pyfloat) :
  let r1 := StockDaily.mk None symbol trade_date o h l c v a in
  let r2 := StockDaily.mk None symbol trade_date o' h' l' c' v' a' in
  count_pk StockDaily.key key2_eq_dec (symbol, trade_date)
    (merge_daily r2 (merge_daily r1 tbl)) =
  (2 + count_pk StockDaily.key key2_eq_dec (symbol, trade_date) tbl)%nat.
Proof.
  intros r1 r2. unfold merge_daily. cbn [StockDaily.id r1 r2].
  rewrite !count_pk_app, !count_pk_single by reflexivity. lia.
Qed.

(** C1, at the input where the code departs from it: two runs of
    [update_stock_price] against a provider that answers both times
    with the same single trading day leave two [StockDaily] rows of the
    same [(symbol, trade_date)], told apart by their [id] only. *)
Theorem C1_daily_price_stored_twice :
  let s0 := open_session empty_store [] in
  let s1 := exec (StockDataLoader.update_stock_price
                    Examples.price_env Examples.symbol) s0 in
  let s2 := exec (StockDataLoader.update_stock_price
                    Examples.price_env Examples.symbol) s1 in
  stock_daily (db s2) = [Examples.stored_price 1; Examples.stored_price 2] /\
  count_pk StockDaily.key key2_eq_dec
    (Examples.symbol, Examples.d_2024_06_30) (stock_daily (db s2)) = 2%nat.
Proof. vm_compute. split; reflexivity. Qed.

(** ** Step 3 of [update_stock_history]: news *)

Section HistoryNews.
Variable env : Env.
Variable symbol : string.
Variable full_update : bool.

Definition cutoff : Z := thirty_days_before (now env).

Definition history_news_row (existing : option StockNews.t) (row : Series)
  : result (option StockNews.t) :=
  let date_str := StockDataLoader.date_str_of row in
  if negb (truthy date_str) then Ok None
  else
    let? news_date := to_datetime env date_str in
    if news_date <? cutoff then Ok None
    else if StockDataLoader.already_have StockNews.date existing full_update
              news_date
    then Ok None
    else Ok (Some (StockDataLoader.news_of_row symbol row news_date (now env))).

Lemma history_news_body_canon existing acc row s :
  StockDataLoader.history_news_body env symbol full_update cutoff existing
    acc row s =
  canon put_news (fun _ => true) (history_news_row existing) acc row s.
Proof.
  unfold StockDataLoader.history_news_body, canon, history_news_row.
  cbv zeta.
  destruct (negb (truthy (StockDataLoader.date_str_of row))); [reflexivity|].
  mrun. destruct (to_datetime env (StockDataLoader.date_str_of row)) as [t|e];
    cbn [rbind]; [|reflexivity].
  destruct (t <? cutoff); [reflexivity|].
  destruct (StockDataLoader.already_have _ _ _ _); reflexivity.
Qed.

Definition news_seen (st : Store) : option StockNews.t :=
  if full_update then None else StockDataLoader.recent_news symbol cutoff st.

(** The rows the prune removes: those of the symbol dated before the
    cutoff. *)
Definition old_news (r : StockNews.t) : bool :=
  StockDataLoader.of_symbol symbol StockNews.symbol r
  && (StockNews.date r <? cutoff).

Lemma run_delete_old_news (s : State) :
  StockDataLoader.delete_old_news symbol cutoff s =
  (Ok tt,
   mkState (db s)
     (set_stock_news (delete_where old_news (stock_news (cur s))) (cur s))
     (trace s)).
Proof. reflexivity. Qed.

Lemma set_set_news v w st : set_stock_news v (set_stock_news w st) = set_stock_news v st.
Proof. reflexivity. Qed.

(** The step when the provider answers with rows and the batch goes
    through: the batch is merged, then the old rows are pruned. *)
Lemma history_news_commits (s : State) (d : DataFrame) (rs : list StockNews.t) :
  stock_news_em (ak env) symbol = Ok (Some d) ->
  empty d = false ->
  plan (history_news_row (news_seen (cur s))) (iterrows d) = Ok rs ->
  commit_fails env NewsItem = false ->
  cur s = db s ->
  exists tr,
    StockDataLoader.history_news env symbol full_update s =
    (Ok tt,
     let st := set_stock_news
                 (delete_where old_news
                    (fold_left (fun t m => merge_news_tbl m t) rs
                               (stock_news (db s)))) (db s) in
     mkState st st tr).
Proof.
  intros Hfetch Hempty Hplan Hcommit Hclean.
  unfold StockDataLoader.history_news. cbv zeta. fold cutoff. mrun.
  rewrite Hfetch. mrun. fold (news_seen (cur s)). rewrite Hempty. mrun.
  rewrite (for_fold_ext _ _ (history_news_body_canon (news_seen (cur s)))).
  rewrite (loop_ok _ _ _ _ Hplan), fold_mark_true, fold_put_news, Hclean.
  destruct rs as [|r rs]; mrun; rewrite run_delete_old_news; mrun;
    cbn [stock_news set_stock_news]; rewrite ?set_set_news; eauto.
Qed.

(** The step in every case returns and leaves nothing pending. *)
Lemma history_news_cases (s : State) :
  cur s = db s ->
  exists tr st,
    StockDataLoader.history_news env symbol full_update s =
    (Ok tt, mkState st st tr).
Proof.
  intros Hclean.
  destruct (stock_news_em (ak env) symbol) as [[d|]|e] eqn:Hfetch.
  - destruct (empty d) eqn:Hempty.
    { unfold StockDataLoader.history_news. cbv zeta. mrun.
      rewrite Hfetch. mrun. rewrite Hempty. mrun. rewrite Hclean. eauto. }
    destruct (plan (history_news_row (news_seen (cur s))) (iterrows d))
      as [rs|e] eqn:Hplan.
    + destruct (commit_fails env NewsItem) eqn:Hcommit.
      * unfold StockDataLoader.history_news. cbv zeta. fold cutoff. mrun.
        rewrite Hfetch. mrun. fold (news_seen (cur s)). rewrite Hempty. mrun.
        rewrite (for_fold_ext _ _ (history_news_body_canon (news_seen (cur s)))).
        rewrite (loop_ok _ _ _ _ Hplan), fold_mark_true.
        destruct rs as [|r rs]; mrun; [|eauto].
        rewrite run_delete_old_news. mrun. eauto.
      * destruct (history_news_commits s Hfetch Hempty Hplan Hcommit Hclean)
          as [tr H].
        rewrite H. eauto.
    + unfold StockDataLoader.history_news. cbv zeta. fold cutoff. mrun.
      rewrite Hfetch. mrun. fold (news_seen (cur s)). rewrite Hempty. mrun.
      rewrite (for_fold_ext _ _ (history_news_body_canon (news_seen (cur s)))).
      destruct (loop_raise put_news (fun _ => true) _ _ Hplan false
                  (mkState (db s) (cur s)
                     ((trace s ++ [Log INFO "3. 获取新闻数据..."]) ++
                      [Call "stock_news_em"]))) as [st' H].
      rewrite H. mrun. eauto.
  - unfold StockDataLoader.history_news. cbv zeta. mrun.
    rewrite Hfetch. mrun. eauto.
  - unfold StockDataLoader.history_news. cbv zeta. mrun.
    rewrite Hfetch. mrun. eauto.
Qed.



(** A merged news object is of the symbol and dated within the window. *)
Lemma history_news_row_recent existing row r :
  history_news_row existing row = Ok (Some r) ->
  StockNews.symbol r = symbol /\ cutoff <= StockNews.date r.
Proof.
  unfold history_news_row.
  destruct (negb _); [discriminate|].
  destruct (to_datetime env _) as [t|]; cbn [rbind]; [|discriminate].
  destruct (t <? cutoff) eqn:L; [discriminate|].
  destruct (StockDataLoader.already_have _ _ _ _); [discriminate|].
  intros [= <-]. simpl. split; [reflexivity | now apply Z.ltb_ge in L].
Qed.
End HistoryNews.

(** ** Step 4 of [update_stock_history]: valuation *)

Abbreviation merge_valuation_tbl := (merge StockValuationInfo.pk string_dec).


Section HistoryValuation.
Variable env : Env.
Variable symbol : string.
Variable full_update : bool.

Definition valuation_seen (st : Store) : option StockValuationInfo.t :=
  if full_update then None
  else StockDataLoader.recent_valuation symbol (cutoff env) st.

Definition old_valuation (r : StockValuationInfo.t) : bool :=
  StockDataLoader.of_symbol symbol StockValuationInfo.symbol r
  && (StockValuationInfo.update_date r <? cutoff env).

Lemma run_delete_old_valuation (s : State) :
  StockDataLoader.delete_old_valuation symbol (cutoff env) s =
  (Ok tt,
   mkState (db s)
     (set_stock_valuation_info
        (delete_where old_valuation (stock_valuation_info (cur s))) (cur s))
     (trace s)).
Proof. reflexivity. Qed.

Lemma run_merge_valuation (v : StockValuationInfo.t) (s : State) :
  merge_valuation v s =
  (Ok tt,
   mkState (db s)
     (set_stock_valuation_info
        (merge_valuation_tbl v (stock_valuation_info (cur s))) (cur s))
     (trace s)).
Proof. reflexivity. Qed.


(** The step in every case returns and leaves nothing pending. *)
Lemma history_valuation_cases (s : State) :
  cur s = db s ->
  exists tr st,
    StockDataLoader.history_valuation env symbol full_update s =
    (Ok tt, mkState st st tr).
Proof.
  intros Hclean.
  unfold StockDataLoader.history_valuation. cbv zeta.
  fold (cutoff env). mrun. fold (valuation_seen (cur s)).
  destruct (negb match valuation_seen (cur s) with
                 | Some _ => true
                 | None => false
                 end || full_update); mrun; [|rewrite Hclean; eauto].
  destruct (stock_individual_info_em (ak env) symbol) as [[d|]|e]; mrun;
    [|eauto|eauto].
  destruct (empty d); mrun; [rewrite Hclean; eauto|].
  destruct (set_index_item_value d) as [info|e]; mrun; [|eauto].
  destruct (StockDataLoader.valuation_of_info env symbol info (now env))
    as [v|e]; mrun; [|eauto].
  rewrite run_merge_valuation. mrun.
  destruct (commit_fails env ValuationSnapshot) eqn:Hcommit; mrun; [eauto|].
  rewrite run_delete_old_valuation. mrun. eauto.
Qed.
End HistoryValuation.

(** ** The rolling-window entities *)

Abbreviation news_after env symbol full s :=
  (stock_news
     (db (exec (StockDataLoader.update_stock_history env symbol full) s))).

Abbreviation valuation_after env symbol full s :=
  (stock_valuation_info
     (db (exec (StockDataLoader.update_stock_history env symbol full) s))).

Section Window.
Variable env : Env.
Variable symbol : string.
Variable full_update : bool.

(** Steps 1 and 2 leave a table they do not write as it was. *)
Lemma after_trades_table {X} (P : Store -> X) (s : State) :
  (forall v st, P (set_stock_financial_metrics v st) = P st) ->
  (forall v st, P (set_stock_insider_trades v st) = P st) ->
  cur s = db s ->
  P (db (after_trades env symbol full_update s)) = P (db s).
Proof.
  intros HPm HPt Hclean.
  destruct (history_financial_metrics_keeps env symbol full_update P HPm
              (history_start s)) as [D1 C1]; [simpl; now rewrite Hclean|].
  fold (exec (StockDataLoader.history_financial_metrics env symbol full_update)
             (history_start s)) in D1, C1.
  fold (after_metrics env symbol full_update s) in D1, C1.
  destruct (history_insider_trades_keeps env symbol full_update P HPt
              (after_metrics env symbol full_update s)) as [D2 _];
    [simpl in *; congruence|].
  fold (exec (StockDataLoader.history_insider_trades env symbol full_update)
             (after_metrics env symbol full_update s)) in D2.
  fold (after_trades env symbol full_update s) in D2.
  simpl in *. congruence.
Qed.

Lemma after_news_clean (s : State) :
  cur s = db s ->
  cur (after_news env symbol full_update s) =
  db (after_news env symbol full_update s).
Proof.
  intros Hclean. unfold after_news, exec.
  destruct (history_news_cases env symbol full_update
              (after_trades env symbol full_update s)
              (after_trades_clean env symbol full_update s Hclean))
    as (tr & st & -> ).
  reflexivity.
Qed.

(** The news the run leaves are those step 3 left. *)
Lemma final_news (s : State) :
  cur s = db s ->
  news_after env symbol full_update s =
  stock_news (db (after_news env symbol full_update s)).
Proof.
  intros Hclean. rewrite exec_update_stock_history.
  pose proof (f_equal stock_news (after_news_clean s Hclean)) as H3.
  destruct (history_valuation_keeps env symbol full_update stock_news
              (fun _ _ => eq_refl) (after_news env symbol full_update s) H3)
    as [D4 _].
  exact D4.
Qed.

(** Steps 1 to 3 leave the valuation table as it was. *)
Lemma after_news_valuation (s : State) :
  cur s = db s ->
  stock_valuation_info (db (after_news env symbol full_update s)) =
  stock_valuation_info (db s).
Proof.
  intros Hclean.
  pose proof (f_equal stock_valuation_info
                (after_trades_clean env symbol full_update s Hclean)) as H2.
  destruct (history_news_keeps env symbol full_update stock_valuation_info
              (fun _ _ => eq_refl) (after_trades env symbol full_update s) H2)
    as [D3 _].
  fold (exec (StockDataLoader.history_news env symbol full_update)
             (after_trades env symbol full_update s)) in D3.
  fold (after_news env symbol full_update s) in D3.
  rewrite D3.
  apply (after_trades_table stock_valuation_info s
           (fun _ _ => eq_refl) (fun _ _ => eq_refl) Hclean).
Qed.
End Window.






Example busy_run_tables :
  let s := open_session Examples.store_with_old_rows [] in
  news_after Examples.busy_env Examples.symbol false s =
    [Examples.recent_news; Examples.fresh_news] /\
  valuation_after Examples.busy_env Examples.symbol false s =
    [Examples.fresh_valuation].
Proof. vm_compute. split; reflexivity. Qed.

(** ** Steps 3 and 4 as functions of the committed store *)

Section StepFunctions.
Variable env : Env.
Variable symbol : string.
Variable full_update : bool.

(** What step 3 commits, from what was committed before it. *)
Definition news_step (st : Store) : Store :=
  match stock_news_em (ak env) symbol with
  | Ok (Some d) =>
      if empty d then st
      else
        match plan (history_news_row env symbol full_update
                      (news_seen env symbol full_update st)) (iterrows d) with
        | Ok rs =>
            if commit_fails env NewsItem then st
            else set_stock_news
                   (delete_where (old_news env symbol)
                      (fold_left (fun t m => merge_news_tbl m t) rs
                                 (stock_news st))) st
        | Raise _ => st
        end
  | _ => st
  end.


Lemma history_news_step (s : State) :
  cur s = db s ->
  exists tr,
    StockDataLoader.history_news env symbol full_update s =
    (Ok tt, mkState (news_step (db s)) (news_step (db s)) tr).
Proof.
  intros Hclean. rewrite <- Hclean. unfold news_step.
  destruct (stock_news_em (ak env) symbol) as [[d|]|e] eqn:Hfetch.
  - destruct (empty d) eqn:Hempty.
    { unfold StockDataLoader.history_news. cbv zeta. mrun.
      rewrite Hfetch. mrun. rewrite Hempty. mrun. rewrite Hclean. eauto. }
    destruct (plan (history_news_row env symbol full_update
                      (news_seen env symbol full_update (cur s))) (iterrows d))
      as [rs|e] eqn:Hplan.
    + destruct (commit_fails env NewsItem) eqn:Hcommit.
      * unfold StockDataLoader.history_news. cbv zeta. fold (cutoff env). mrun.
        rewrite Hfetch. mrun. fold (news_seen env symbol full_update (cur s)).
        rewrite Hempty. mrun.
        rewrite (for_fold_ext _ _
                   (history_news_body_canon env symbol full_update
                      (news_seen env symbol full_update (cur s)))).
        rewrite (loop_ok _ _ _ _ Hplan), fold_mark_true.
        destruct rs as [|r rs]; mrun; [|rewrite Hclean; eauto].
        rewrite run_delete_old_news. mrun. rewrite Hclean. eauto.
      * destruct (history_news_commits env symbol full_update s
                    Hfetch Hempty Hplan Hcommit Hclean) as [tr H].
        rewrite H. cbv zeta. rewrite Hclean. eauto.
    + unfold StockDataLoader.history_news. cbv zeta. fold (cutoff env). mrun.
      rewrite Hfetch. mrun. fold (news_seen env symbol full_update (cur s)).
      rewrite Hempty. mrun.
      rewrite (for_fold_ext _ _
                 (history_news_body_canon env symbol full_update
                    (news_seen env symbol full_update (cur s)))).
      destruct (loop_raise put_news (fun _ => true) _ _ Hplan false
                  (mkState (db s) (cur s)
                     ((trace s ++ [Log INFO "3. 获取新闻数据..."]) ++
                      [Call "stock_news_em"]))) as [st' H].
      rewrite H. mrun. rewrite Hclean. eauto.
  - unfold StockDataLoader.history_news. cbv zeta. mrun.
    rewrite Hfetch. mrun. rewrite Hclean. eauto.
  - unfold StockDataLoader.history_news. cbv zeta. mrun.
    rewrite Hfetch. mrun. rewrite Hclean. eauto.
Qed.


(** Step 3 reads and writes the news table only. *)
Lemma news_step_local (st1 st2 : Store) :
  stock_news st1 = stock_news st2 ->
  stock_news (news_step st1) = stock_news (news_step st2).
Proof.
  intros H. unfold news_step, news_seen, StockDataLoader.recent_news.
  rewrite H.
  destruct (stock_news_em (ak env) symbol) as [[d|]|e]; try exact H.
  destruct (empty d); [exact H|].
  destruct (plan _ (iterrows d)); [|exact H].
  destruct (commit_fails env NewsItem); [exact H | reflexivity].
Qed.

End StepFunctions.

(** ** The run as a whole *)

Section RunTables.
Variable env : Env.
Variable symbol : string.
Variable full_update : bool.

(** The news and the valuation the run leaves depend on the news and
    the valuation stored before, and on nothing the steps before
    them did. *)
Lemma news_after_step (s : State) :
  cur s = db s ->
  news_after env symbol full_update s =
  stock_news (news_step env symbol full_update (db s)).
Proof.
  intros Hclean. rewrite final_news by exact Hclean.
  unfold after_news, exec.
  destruct (history_news_step env symbol full_update
              (after_trades env symbol full_update s)
              (after_trades_clean env symbol full_update s Hclean)) as [tr ->].
  simpl. apply news_step_local.
  apply (after_trades_table env symbol full_update stock_news s
           (fun _ _ => eq_refl) (fun _ _ => eq_refl) Hclean).
Qed.


(** A step that starts by logging its marker leaves the marker in the
    trace, whatever follows. *)
Lemma step_trace (marker : string) (rest : M unit) (h : exn -> M unit) :
  steady grows rest -> (forall e, steady grows (h e)) ->
  forall s, exists l,
    trace (exec (try_except (log INFO marker ;; rest) h) s) =
    trace s ++ Log INFO marker :: l.
Proof.
  intros Hrest Hh s.
  assert (Hstep : steady grows (try_except rest h)).
  { apply steady_try_except; eauto with steady. }
  destruct (Hstep (mkState (db s) (cur s) (trace s ++ [Log INFO marker])))
    as [l Hl].
  exists l. unfold exec. rewrite run_try, run_bind, run_log.
  unfold try_except in Hl. cbn [trace] in Hl.
  destruct (rest _) as [[[]|e] s']; cbn [snd] in *;
    rewrite Hl, <- app_assoc; reflexivity.
Qed.





End RunTables.

Section InsiderFailure.
Variable env : Env.
Variable symbol : string.
Variable full_update : bool.




End InsiderFailure.

(** ** [update_all_data] *)

Section AllData.
Variable env : Env.
Variable symbol : string.



Lemma update_daily_price_returns :
  returns (StockDataLoader.update_daily_price env symbol).
Proof. apply returns_try_except. intros; apply handler_returns. Qed.







Lemma update_daily_price_trace (s : State) :
  exists l,
    trace (exec (StockDataLoader.update_daily_price env symbol) s) =
    trace s ++ Log INFO "获取股票 {self.symbol} 的每日价格数据..." :: l.
Proof.
  unfold StockDataLoader.update_daily_price.
  apply step_trace; intros; steady_tac.
Qed.





End AllData.



(** ** The daily run and its gate *)

Section Daily.
Variable env : Env.
Variable symbol : string.

Lemma daily_financial_metrics_returns :
  returns (StockDataLoader.daily_financial_metrics env symbol).
Proof. apply returns_try_except. intros; apply handler_returns. Qed.

Lemma daily_insider_trades_returns :
  returns (StockDataLoader.daily_insider_trades env symbol).
Proof. apply returns_try_except. intros; apply handler_returns. Qed.

Lemma daily_news_returns : returns (StockDataLoader.daily_news env symbol).
Proof. apply returns_try_except. intros; apply handler_returns. Qed.

Lemma daily_valuation_returns :
  returns (StockDataLoader.daily_valuation env symbol).
Proof. apply returns_try_except. intros; apply handler_returns. Qed.

Lemma update_daily_price_keeps {X} (P : Store -> X) :
  (forall v st, P (set_stock_daily v st) = P st) ->
  steady (keeps P) (StockDataLoader.update_daily_price env symbol).
Proof. intros HP. unfold StockDataLoader.update_daily_price. steady_tac. Qed.

Lemma daily_insider_trades_keeps {X} (P : Store -> X) :
  (forall v st, P (set_stock_insider_trades v st) = P st) ->
  steady (keeps P) (StockDataLoader.daily_insider_trades env symbol).
Proof.
  intros HP. unfold StockDataLoader.daily_insider_trades,
    StockDataLoader.daily_insider_frame.
  steady_tac.
Qed.

Lemma daily_news_keeps {X} (P : Store -> X) :
  (forall v st, P (set_stock_news v st) = P st) ->
  steady (keeps P) (StockDataLoader.daily_news env symbol).
Proof. intros HP. unfold StockDataLoader.daily_news. steady_tac. Qed.

Lemma daily_valuation_keeps {X} (P : Store -> X) :
  (forall v st, P (set_stock_valuation_info v st) = P st) ->
  steady (keeps P) (StockDataLoader.daily_valuation env symbol).
Proof. intros HP. unfold StockDataLoader.daily_valuation. steady_tac. Qed.

(** The gate closed: the run logs that it skips and does nothing else. *)
Lemma update_daily_data_skips (s : State) :
  StockDataLoader.updated_today env symbol (cur s) = true ->
  StockDataLoader.update_daily_data env symbol s =
  (Ok tt,
   mkState (db s) (cur s)
     (trace s ++
      [Log INFO "开始更新股票 {self.symbol} 的每日数据...";
       Log INFO "股票 {self.symbol} 今日已更新，跳过更新"])).
Proof.
  intros Hgate. unfold StockDataLoader.update_daily_data. mrun.
  rewrite Hgate. mrun. now rewrite <- app_assoc.
Qed.

(** The state in which the first step of an open run starts. *)
Definition daily_start (s : State) : State :=
  mkState (db s) (cur s)
    (trace s ++ [Log INFO "开始更新股票 {self.symbol} 的每日数据..."]).

Definition after_daily_price (s : State) : State :=
  exec (StockDataLoader.update_daily_price env symbol) (daily_start s).

Definition after_daily_metrics (s : State) : State :=
  exec (StockDataLoader.daily_financial_metrics env symbol) (after_daily_price s).

Definition after_daily_trades (s : State) : State :=
  exec (StockDataLoader.daily_insider_trades env symbol) (after_daily_metrics s).

Definition after_daily_news (s : State) : State :=
  exec (StockDataLoader.daily_news env symbol) (after_daily_trades s).

Definition after_daily_valuation (s : State) : State :=
  exec (StockDataLoader.daily_valuation env symbol) (after_daily_news s).

(** The gate open: the five steps run one after the other. *)
Lemma update_daily_data_runs (s : State) :
  StockDataLoader.updated_today env symbol (cur s) = false ->
  StockDataLoader.update_daily_data env symbol s =
  (Ok tt,
   mkState (db (after_daily_valuation s)) (cur (after_daily_valuation s))
     (trace (after_daily_valuation s) ++
      [Log INFO "股票 {self.symbol} 的每日数据更新完成"])).
Proof.
  intros Hgate. unfold StockDataLoader.update_daily_data. mrun.
  rewrite Hgate. fold (daily_start s).
  mrun. rewrite (returns_unit (update_daily_price_returns env symbol)).
  fold (after_daily_price s).
  mrun. rewrite (returns_unit daily_financial_metrics_returns).
  fold (after_daily_metrics s).
  mrun. rewrite (returns_unit daily_insider_trades_returns).
  fold (after_daily_trades s).
  mrun. rewrite (returns_unit daily_news_returns).
  fold (after_daily_news s).
  mrun. rewrite (returns_unit daily_valuation_returns).
  fold (after_daily_valuation s).
  mrun. reflexivity.
Qed.

(** The valuation snapshots of the symbol, under a primary key, after
    a merge: the merged one alone. *)
Lemma merged_valuation_alone (v : StockValuationInfo.t)
  (tbl : list StockValuationInfo.t) :
  unique_pk StockValuationInfo.pk tbl ->
  filter (fun r => String.eqb (StockValuationInfo.symbol r)
                               (StockValuationInfo.symbol v))
         (merge_valuation_tbl v tbl) = [v].
Proof.
  unfold unique_pk. induction tbl as [|x tbl IH]; simpl; intros U.
  - now rewrite String.eqb_refl.
  - inversion U as [|? ? Hx U']; subst.
    destruct (string_dec (StockValuationInfo.pk x) (StockValuationInfo.pk v))
      as [E|N]; simpl.
    + rewrite String.eqb_refl. f_equal.
      unfold StockValuationInfo.pk in *.
      clear IH U U'. induction tbl as [|y tbl IH]; simpl; [reflexivity|].
      destruct (String.eqb_spec (StockValuationInfo.symbol y)
                                (StockValuationInfo.symbol v)) as [E'|N'].
      * exfalso. apply Hx. left. simpl. congruence.
      * apply IH. intros H. apply Hx. now right.
    + destruct (String.eqb_spec (StockValuationInfo.symbol x)
                                (StockValuationInfo.symbol v)) as [E'|N'];
        [contradiction | now apply IH].
Qed.
End Daily.

(** C5 as stated fails, both ways. With metrics written earlier today
    and no valuation snapshot, the latest update of FinancialMetric
    falls on today, yet the gate is open and the daily run fetches the
    metrics again; with a valuation snapshot written earlier today and
    metrics last written yesterday, the latest update of
    FinancialMetric does not fall on today, yet the gate is closed and
    the run does nothing. *)
Lemma C5_counterexample :
  let s1 := open_session Examples.store_metrics_today [] in
  let s2 := open_session Examples.store_valuation_today [] in
  let run := StockDataLoader.update_daily_data Examples.daily_env
               Examples.symbol in
  (on_today Examples.daily_env
     (latest_update Examples.symbol FinancialMetric (db s1)) = true /\
   StockDataLoader.updated_today Examples.daily_env Examples.symbol (db s1)
     = false /\
   In (Call "stock_financial_analysis_indicator") (trace (exec run s1))) /\
  (on_today Examples.daily_env
     (latest_update Examples.symbol FinancialMetric (db s2)) = false /\
   StockDataLoader.updated_today Examples.daily_env Examples.symbol (db s2)
     = true /\
   trace (exec run s2) =
     [Log INFO "开始更新股票 {self.symbol} 的每日数据...";
      Log INFO "股票 {self.symbol} 今日已更新，跳过更新"]).
Proof. vm_compute. repeat split; auto 20. Qed.

Lemma daily_run_starts env symbol (s : State) :
  StockDataLoader.updated_today env symbol (cur s) = false ->
  In (Log INFO "获取股票 {self.symbol} 的每日价格数据...")
     (trace (exec (StockDataLoader.update_daily_data env symbol) s)).
Proof.
  intros Hgate. unfold exec. rewrite update_daily_data_runs by exact Hgate.
  cbn [snd trace].
  assert (G : forall m : M unit, steady grows m ->
            forall s0 ev, In ev (trace s0) -> In ev (trace (exec m s0))).
  { intros m Hm s0 ev Hin. destruct (Hm s0) as [l Hl]. unfold exec.
    rewrite Hl. apply in_or_app. now left. }
  apply in_or_app. left.
  unfold after_daily_valuation, after_daily_news, after_daily_trades,
    after_daily_metrics.
  apply G; [unfold StockDataLoader.daily_valuation; steady_tac|].
  apply G; [unfold StockDataLoader.daily_news; steady_tac|].
  apply G; [unfold StockDataLoader.daily_insider_trades,
              StockDataLoader.daily_insider_frame; steady_tac|].
  apply G; [unfold StockDataLoader.daily_financial_metrics; steady_tac|].
  unfold after_daily_price.
  destruct (update_daily_price_trace env symbol (daily_start s)) as [l ->].
  apply in_or_app. right. now left.
Qed.

(** C5, amended. The freshness check of the daily run is one gate for
    the security, read off the valuation snapshots alone: it is closed
    exactly when the latest stored update timestamp of
    ValuationSnapshot falls on the calendar day of the clock. A closed
    gate makes the method and the function [update_daily_data] log that
    they skip and do nothing else; an open gate lets the run start its
    first step. On one calendar day the gate is open while no snapshot
    of the symbol is stored, and closed once a merge has stored the
    snapshot of the symbol with the clock as its update timestamp. *)
Theorem C5_daily_gate (env : Env) (symbol : string) :
  (forall st,
     StockDataLoader.updated_today env symbol st =
     on_today env (latest_update symbol ValuationSnapshot st)) /\
  (forall s,
     StockDataLoader.updated_today env symbol (cur s) = true ->
     StockDataLoader.update_daily_data env symbol s =
     (Ok tt,
      mkState (db s) (cur s)
        (trace s ++
         [Log INFO "开始更新股票 {self.symbol} 的每日数据...";
          Log INFO "股票 {self.symbol} 今日已更新，跳过更新"]))) /\
  (forall fs tr st,
     fs symbol = Some st ->
     StockDataLoader.updated_today env symbol st = true ->
     update_daily_data env symbol fs tr =
     (fs, tr ++ [Log INFO "股票 {symbol} 今日已更新，跳过更新"])) /\
  (forall s,
     StockDataLoader.updated_today env symbol (cur s) = false ->
     In (Log INFO "获取股票 {self.symbol} 的每日价格数据...")
        (trace (exec (StockDataLoader.update_daily_data env symbol) s))) /\
  (forall st,
     latest_update symbol ValuationSnapshot st = None ->
     StockDataLoader.updated_today env symbol st = false) /\
  (forall st v,
     unique_pk StockValuationInfo.pk (stock_valuation_info st) ->
     StockValuationInfo.symbol v = symbol ->
     StockValuationInfo.update_date v = now env ->
     StockDataLoader.updated_today env symbol
       (set_stock_valuation_info
          (merge_valuation_tbl v (stock_valuation_info st)) st) = true).
Proof.
  repeat split.
  - intros s. apply update_daily_data_skips.
  - intros fs tr st Hfile Hgate. unfold update_daily_data.
    now rewrite Hfile, Hgate.
  - intros s. apply daily_run_starts.
  - intros st Hnone.
    unfold StockDataLoader.updated_today, StockDataLoader.last_update.
    unfold latest_update in Hnone. unfold StockDataLoader.of_symbol.
    now rewrite Hnone.
  - intros st v U Hsym Hdate.
    unfold StockDataLoader.updated_today, StockDataLoader.last_update,
      StockDataLoader.of_symbol.
    cbn [stock_valuation_info set_stock_valuation_info].
    rewrite <- Hsym, merged_valuation_alone by exact U.
    cbn [first_desc option_map]. rewrite Hdate. apply Z.eqb_refl.
Qed.

(** On 2 July no snapshot is stored and the gate is open; the snapshot
    merged at the clock closes it, and the daily run then skips. *)
Lemma C5_daily_gate_witness :
  let env := Examples.busy_env in
  let before := Examples.store_with_history in
  let after :=
    set_stock_valuation_info
      (merge_valuation_tbl Examples.fresh_valuation
         (stock_valuation_info before)) before in
  StockDataLoader.updated_today env Examples.symbol before = false /\
  StockDataLoader.updated_today env Examples.symbol after = true /\
  exec (StockDataLoader.update_daily_data env Examples.symbol)
       (open_session after []) =
  mkState after after
    [Log INFO "开始更新股票 {self.symbol} 的每日数据...";
     Log INFO "股票 {self.symbol} 今日已更新，跳过更新"] /\
  In (Log INFO "获取股票 {self.symbol} 的每日价格数据...")
     (trace (exec (StockDataLoader.update_daily_data env Examples.symbol)
                  (open_session before []))).
Proof.
  intros env before after.
  destruct (C5_daily_gate env Examples.symbol)
    as (_ & Hskip & _ & Hstart & Hnone & Hmerged).
  assert (Hafter : StockDataLoader.updated_today env Examples.symbol after = true).
  { apply Hmerged; [constructor | reflexivity | reflexivity]. }
  split; [apply Hnone; reflexivity|]. split; [exact Hafter|]. split.
  - unfold exec. rewrite (Hskip (open_session after []) Hafter). reflexivity.
  - apply Hstart. apply Hnone. reflexivity.
Defined.

(** ** The new report of the daily run *)

Abbreviation daily_metrics_after env symbol s :=
  (stock_financial_metrics
     (db (exec (StockDataLoader.update_daily_data env symbol) s))).


Section DailyMetrics.
Variable env : Env.
Variable symbol : string.


End DailyMetrics.



(** ** A row of the batch that does not map *)

Section Batch.
Variable env : Env.
Variable symbol : string.

Definition financial_metrics_row (row : Series)
  : result (option StockFinancialMetrics.t) :=
  let? m := StockDataLoader.metrics_of_dated_row env symbol row (now env) in
  Ok (Some m).

Lemma financial_metrics_body_canon (acc : unit) (row : Series) (s : State) :
  StockDataLoader.financial_metrics_body env symbol row s =
  canon put_metrics (fun a => a) financial_metrics_row acc row s.
Proof.
  destruct acc.
  unfold StockDataLoader.financial_metrics_body, canon, financial_metrics_row.
  mrun.
  destruct (StockDataLoader.metrics_of_dated_row env symbol row (now env));
    cbn [rbind]; reflexivity.
Qed.

(** [update_financial_metrics] on a batch with a row that raises: the
    exception is caught by the handler of the step, which logs it and
    rolls the session back. *)
Lemma update_financial_metrics_bad_row (s : State) (d : DataFrame)
  (row : Series) (e : exn) :
  stock_financial_analysis_indicator (ak env) symbol = Ok (Some d) ->
  In row (iterrows d) ->
  StockDataLoader.metrics_of_dated_row env symbol row (now env) = Raise e ->
  StockDataLoader.update_financial_metrics env symbol s =
  (Ok tt,
   mkState (db s) (db s)
     (trace s ++
      [Log INFO "正在获取股票 {self.symbol} 的财务指标...";
       Call "stock_financial_analysis_indicator";
       Log ERROR "更新财务指标时发生错误: {str(e)}"])).
Proof.
  intros Hfetch Hin Hrow.
  destruct (plan_raises financial_metrics_row (iterrows d) row (e := e) Hin)
    as [e' Hplan].
  { unfold financial_metrics_row. now rewrite Hrow. }
  unfold StockDataLoader.update_financial_metrics. mrun.
  rewrite Hfetch. mrun. unfold for_each.
  rewrite (for_fold_ext _ _ financial_metrics_body_canon).
  destruct (loop_raise put_metrics (fun a => a) _ _ Hplan tt
              (mkState (db s) (cur s)
                 ((trace s ++ [Log INFO "正在获取股票 {self.symbol} 的财务指标..."]) ++
                  [Call "stock_financial_analysis_indicator"]))) as [st' H].
  rewrite H. mrun. now rewrite <- !app_assoc.
Qed.
End Batch.

(** C7 as stated fails: of three fetched reports the second does not
    map (its return on equity is the text of two dashes), the first and
    the third do, and after [update_financial_metrics] none of the
    three is stored: the bad row was not dropped with the rest going
    on, the batch was. *)
Lemma C7_counterexample :
  let env := Examples.mixed_env in
  let run := StockDataLoader.update_financial_metrics env Examples.symbol in
  map (fun row => StockDataLoader.metrics_of_dated_row env Examples.symbol row
                    (now env))
      (iterrows Examples.mixed_frame) =
    [Ok (Examples.fetched_metrics Examples.d_2024_03_31 1);
     Raise ValueError;
     Ok (Examples.fetched_metrics Examples.d_2024_06_30 2)] /\
  stock_financial_metrics (db (exec run (open_session empty_store []))) = [].
Proof. vm_compute. split; reflexivity. Qed.

(** C7, amended. A mapping failure on one row of a batch never raises
    out of [update_financial_metrics]: the handler of the step catches
    it, logs the error and rolls the session back, so that the run
    returns with the store as it was committed before, none of the rows
    of the batch being written. *)
Theorem C7_bad_row_discards_batch (env : Env) (symbol : string) (s : State)
  (d : DataFrame) (row : Series) (e : exn) :
  stock_financial_analysis_indicator (ak env) symbol = Ok (Some d) ->
  In row (iterrows d) ->
  StockDataLoader.metrics_of_dated_row env symbol row (now env) = Raise e ->
  let run := StockDataLoader.update_financial_metrics env symbol in
  fst (run s) = Ok tt /\
  db (exec run s) = db s /\
  cur (exec run s) = db s /\
  In (Log ERROR "更新财务指标时发生错误: {str(e)}") (trace (exec run s)).
Proof.
  intros Hfetch Hin Hrow run. subst run. unfold exec.
  rewrite (@update_financial_metrics_bad_row env symbol s d row e Hfetch Hin Hrow).
  cbn [fst snd db cur trace]. repeat split.
  apply in_or_app. right. simpl. auto.
Qed.

Lemma C7_bad_row_discards_batch_witness :
  let run := StockDataLoader.update_financial_metrics Examples.mixed_env
               Examples.symbol in
  let s := open_session Examples.store_with_history [] in
  fst (run s) = Ok tt /\
  db (exec run s) = Examples.store_with_history /\
  cur (exec run s) = Examples.store_with_history /\
  In (Log ERROR "更新财务指标时发生错误: {str(e)}") (trace (exec run s)).
Proof.
  intros run s.
  apply (@C7_bad_row_discards_batch Examples.mixed_env Examples.symbol s
           Examples.mixed_frame
           (combine Examples.metrics_columns
              [PyDate Examples.d_2024_05_31; PyStr "--"; Examples.num 20;
               Examples.num 30; Examples.num 40; Examples.num 50;
               Examples.num 60])
           ValueError).
  - vm_compute. reflexivity.
  - vm_compute. auto.
  - vm_compute. reflexivity.
Defined.

(** Step 4 of [main] on the same batch: the [try] that was meant for
    one row encloses the loop, so the bad row ends the loop, the
    warning about one skipped record is logged and nothing is stored;
    and on a batch that maps, only the last row is stored, the merge
    standing after the loop. *)
Example main_financial_metrics_slip :
  let with_abstract frame :=
    Examples.environment
      (mkAkshare (fun _ => Examples.failing) (fun _ => Ok (Some frame))
                 (fun _ => Examples.failing) (fun _ => Examples.failing)
                 (fun _ => Examples.failing) (fun _ => Examples.failing)
                 Examples.failing (fun _ _ => Examples.failing)) in
  exec (main_financial_metrics (with_abstract Examples.mixed_frame)
          Examples.symbol) (open_session empty_store []) =
    mkState empty_store empty_store
      [Call "stock_financial_abstract";
       Log WARNING "跳过一条异常财务指标记录: {row_err}";
       Log INFO "财务指标数据获取完成，共 {len(df)} 条记录"] /\
  stock_financial_metrics
    (db (exec (main_financial_metrics (with_abstract Examples.metrics_frame)
                 Examples.symbol) (open_session empty_store []))) =
    [Examples.fetched_metrics Examples.d_2024_06_30 2].
Proof. vm_compute. split; reflexivity. Qed.

(** ** Fields that are absent or no number *)


Section ValuationFields.
Variable env : Env.

(** The value [update_valuation_info] gives a field. *)
Definition field_value (info_dict : Series) (label : string) : pyfloat :=
  match (let? text := py_replace_commas (get info_dict label (PyStr "0")) in
         py_float env (PyStr text)) with
  | Ok f => f
  | Raise _ => zero
  end.


Lemma run_valuation_field (info_dict : Series) (label msg : string) (s : State) :
  exists l,
    StockDataLoader.valuation_field env info_dict label msg s =
    (Ok (field_value info_dict label),
     mkState (db s) (cur s) (trace s ++ l)).
Proof.
  unfold StockDataLoader.valuation_field, field_value. mrun.
  destruct (let? text := py_replace_commas (get info_dict label (PyStr "0")) in
            py_float env (PyStr text)) as [f|e]; mrun.
  - exists []. rewrite app_nil_r. now destruct s.
  - now exists [Log WARNING msg].
Qed.

End ValuationFields.



Example partial_valuation_stored :
  stock_valuation_info
    (db (exec (StockDataLoader.update_valuation_info Examples.partial_info_env
                 Examples.symbol) (open_session empty_store []))) =
  [StockValuationInfo.mk Examples.symbol (Fnum 1000) (Fnum 0) (Fnum 90)
     (Fnum 0) (Fnum 0) Examples.clock].
Proof. vm_compute. reflexivity. Qed.

(** ** Full mode *)


Lemma grows_In {A} (m : M A) (s : State) (ev : Event) :
  steady grows m -> In ev (trace s) -> In ev (trace (exec m s)).
Proof.
  intros Hm Hin. destruct (Hm s) as [l Hl]. unfold exec. rewrite Hl.
  apply in_or_app. now left.
Qed.


Section FullMode.
Variable env : Env.
Variable symbol : string.






End FullMode.



(** ** The accessors of [Cache] on a missing database *)

Section MissingFile.

Variables Price FinancialMetrics InsiderTrade CompanyNews : Type.
Variable mkPrice :
  pyfloat -> pyfloat -> pyfloat -> pyfloat -> Z -> Z -> result Price.
Variable mkFinancialMetrics :
  string -> Z -> pyfloat -> pyfloat -> pyfloat -> pyfloat ->
  option pyfloat -> option pyfloat -> option pyfloat -> result FinancialMetrics.
Variable mkInsiderTrade :
  string -> pyval -> Z -> Z -> pyfloat -> Z -> option pyfloat ->
  result InsiderTrade.
Variable mkCompanyNews :
  string -> pyval -> Z -> string -> pyval -> result CompanyNews.
Variable files : Files.
Variable ticker : string.
Hypothesis missing : files ticker = None.

Lemma get_db_session_missing (A : Type) (body : Store -> result A) :
  DataFetcher.get_db_session files ticker body = Raise FileNotFoundError.
Proof. unfold DataFetcher.get_db_session. now rewrite missing. Qed.

Lemma get_price_response_missing :
  DataFetcher.get_price_response mkPrice files ticker = Raise FileNotFoundError.
Proof. apply get_db_session_missing. Qed.

Lemma get_financial_metrics_response_missing :
  DataFetcher.get_financial_metrics_response mkFinancialMetrics files ticker =
  Raise FileNotFoundError.
Proof. apply get_db_session_missing. Qed.

Lemma get_insider_trade_response_missing :
  DataFetcher.get_insider_trade_response mkInsiderTrade files ticker =
  Raise FileNotFoundError.
Proof. apply get_db_session_missing. Qed.

Lemma get_company_news_response_missing :
  DataFetcher.get_company_news_response mkCompanyNews files ticker =
  Raise FileNotFoundError.
Proof. apply get_db_session_missing. Qed.

End MissingFile.

(** C10. For a ticker whose database file does not exist, the session
    factory [get_db_session] raises [FileNotFoundError] before the body
    of its user runs, and each of the four accessors [get_prices],
    [get_financial_metrics], [get_insider_trades] and [get_company_news]
    catches it: the accessor returns [None], raises nothing and prints
    nothing, whatever the response classes do. *)
Theorem C10_missing_store_answers_none
  (Price FinancialMetrics InsiderTrade CompanyNews : Type)
  (mkPrice : pyfloat -> pyfloat -> pyfloat -> pyfloat -> Z -> Z -> result Price)
  (mkFinancialMetrics :
     string -> Z -> pyfloat -> pyfloat -> pyfloat -> pyfloat ->
     option pyfloat -> option pyfloat -> option pyfloat ->
     result FinancialMetrics)
  (mkInsiderTrade :
     string -> pyval -> Z -> Z -> pyfloat -> Z -> option pyfloat ->
     result InsiderTrade)
  (mkCompanyNews :
     string -> pyval -> Z -> string -> pyval -> result CompanyNews)
  (dump_price : Price -> Series)
  (dump_metric : FinancialMetrics -> Series)
  (dump_trade : InsiderTrade -> Series)
  (dump_news : CompanyNews -> Series)
  (files : Files) (ticker : string) :
  files ticker = None ->
  (forall (A : Type) (body : Store -> result A),
     DataFetcher.get_db_session files ticker body = Raise FileNotFoundError) /\
  DataFetcher.get_prices mkPrice files dump_price ticker = (None, []) /\
  DataFetcher.get_financial_metrics mkFinancialMetrics files dump_metric ticker
    = (None, []) /\
  DataFetcher.get_insider_trades mkInsiderTrade files dump_trade ticker
    = (None, []) /\
  DataFetcher.get_company_news mkCompanyNews files dump_news ticker
    = (None, []).
Proof.
  intros missing.
  split; [intros A body; now apply get_db_session_missing|].
  unfold DataFetcher.get_prices, DataFetcher.get_financial_metrics,
    DataFetcher.get_insider_trades, DataFetcher.get_company_news.
  rewrite get_price_response_missing, get_financial_metrics_response_missing,
    get_insider_trade_response_missing, get_company_news_response_missing
    by exact missing.
  repeat split.
Qed.

(** Response classes that accept every row, and a directory that holds
    the database of 600000 only. *)
Definition plain_price (o c h l : pyfloat) (v t : Z) : result (pyfloat * Z) :=
  Ok (c, t).

Definition plain_metrics (ticker : string) (period : Z)
  (eps roe npr gpr : pyfloat) (cap pe pb : option pyfloat)
  : result (string * Z) :=
  Ok (ticker, period).

Definition plain_trade (ticker : string) (name : pyval) (d shares : Z)
  (price : pyfloat) (filed : Z) (value : option pyfloat)
  : result (string * Z) :=
  Ok (ticker, d).

Definition plain_news (ticker : string) (title : pyval) (d : Z)
  (source : string) (url : pyval) : result (string * Z) :=
  Ok (ticker, d).

Definition one_database : Files :=
  fun symbol =>
    if String.eqb symbol Examples.symbol
    then Some Examples.store_with_history else None.

Definition no_series {A : Type} (_ : A) : Series := [].

Lemma C10_missing_store_answers_none_witness :
  one_database "000001" = None /\
  DataFetcher.get_prices plain_price one_database no_series "000001" = (None, []) /\
  DataFetcher.get_financial_metrics plain_metrics one_database no_series "000001"
    = (None, []) /\
  DataFetcher.get_insider_trades plain_trade one_database no_series "000001"
    = (None, []) /\
  DataFetcher.get_company_news plain_news one_database no_series "000001"
    = (None, []).
Proof.
  split; [vm_compute; reflexivity|].
  apply (C10_missing_store_answers_none plain_price plain_metrics plain_trade
           plain_news no_series no_series no_series no_series one_database
           "000001").
  vm_compute; reflexivity.
Defined.

(** The same accessors on the database that exists answer a list. *)
Example existing_store_answers :
  fst (DataFetcher.get_financial_metrics plain_metrics one_database no_series
         Examples.symbol) = Some [[]] /\
  fst (DataFetcher.get_insider_trades plain_trade one_database no_series
         Examples.symbol) = Some [[]] /\
  fst (DataFetcher.get_company_news plain_news one_database no_series
         Examples.symbol) = Some [].
Proof. vm_compute. repeat split. Qed.

(** ** Insider trades without a share count or a price *)

(** A row of [update_insider_trades] that has neither the share count
    nor the price maps, with [0] for both; a share count that is a text
    and no number makes the row raise, as a field of a report does. *)
Lemma trade_of_row_defaults (env : Env) (symbol : string) (row : Series)
  (d now : Z) :
  lookup row "变动股份数量" = None ->
  lookup row "成交均价" = None ->
  exists t,
    StockDataLoader.trade_of_row env symbol row (Ok d) now = Ok t /\
    StockInsiderTrades.shares_changed t = 0 /\
    StockInsiderTrades.price t = zero.
Proof.
  intros Hshares Hprice. unfold StockDataLoader.trade_of_row, get.
  rewrite Hshares, Hprice. vm_compute notna. cbn.
  eexists. split; [reflexivity|]. split; reflexivity.
Qed.

Example trade_of_row_text_raises :
  StockDataLoader.trade_of_row Examples.history_env Examples.symbol
    [("董监高姓名", PyStr "张三"); ("变动股份数量", PyStr "--")]
    (Ok Examples.d_2024_06_30) Examples.clock = Raise ValueError.
Proof. vm_compute. reflexivity. Qed.
(** * Further properties of the loader and of the query cache *)

(** ** What a run adds to a table, and what it leaves in it *)

Section AddsOnly.
Context {R : Type}.
Variable tbl : Store -> list R.
Variable P : R -> Prop.

(** Every row of the table after, committed or pending, was in the
    table before, committed or pending, or satisfies [P]. *)
Definition adds_only (s s' : State) : Prop :=
  forall r, In r (tbl (db s')) \/ In r (tbl (cur s')) ->
            In r (tbl (db s)) \/ In r (tbl (cur s)) \/ P r.

Lemma adds_only_refl s : adds_only s s.
Proof. intros r [H|H]; tauto. Qed.

Lemma adds_only_trans a b c : adds_only a b -> adds_only b c -> adds_only a c.
Proof.
  intros H1 H2 r Hr. destruct (H2 r Hr) as [H|[H|H]]; [| |tauto];
    apply H1; tauto.
Qed.

Lemma adds_only_emit ev : steady adds_only (emit ev).
Proof. intros s r [H|H]; simpl in H; tauto. Qed.

Lemma adds_only_commit env e : steady adds_only (commit env e).
Proof.
  intros s r. unfold commit. destruct (commit_fails env e); simpl; tauto.
Qed.

Lemma adds_only_rollback : steady adds_only rollback.
Proof. intros s r. simpl. tauto. Qed.

Lemma adds_only_modify f :
  (forall st r, In r (tbl (f st)) -> In r (tbl st) \/ P r) ->
  steady adds_only (modify f).
Proof.
  intros Hf s r. simpl. intros [H|H]; [tauto|].
  destruct (Hf _ _ H); tauto.
Qed.

Lemma adds_only_exec {A} (m : M A) (s : State) :
  steady adds_only m -> cur s = db s ->
  forall r, In r (tbl (db (exec m s))) -> In r (tbl (db s)) \/ P r.
Proof.
  intros Hm Hclean r Hr. destruct (Hm s r) as [H|[H|H]]; [now left | | | ].
  - now left.
  - rewrite Hclean in H. now left.
  - now right.
Qed.
End AddsOnly.

#[export] Hint Resolve adds_only_refl adds_only_trans adds_only_emit
  adds_only_commit adds_only_rollback : steady.

(** A change of another table adds nothing to this one. *)
#[export] Hint Extern 2 (steady (adds_only _ _) (modify _)) =>
  apply adds_only_modify; intros ? ? ?; left; assumption : steady.

(** As [steady_step], remembering which way each test went. *)
Ltac steady_step_eq :=
  lazymatch goal with
  | |- steady _ (if ?b then _ else _) => destruct b eqn:?
  | |- steady _ (match ?x with _ => _ end) => destruct x eqn:?
  | |- _ => steady_step
  end.

Ltac steady_tac_eq := cbv zeta; repeat (steady_step_eq; cbv zeta).

(** ** [update_stock_news]: the window of thirty days *)

Section NewsWindow.
Variable env : Env.
Variable symbol : string.

(** A news item as [update_stock_news] writes it. *)
Definition fresh_news_item (r : StockNews.t) : Prop :=
  StockNews.symbol r = symbol /\
  thirty_days_before (now env) <= StockNews.date r /\
  StockNews.source r = "东方财富" /\
  StockNews.update_date r = now env.

Lemma merge_news_adds (r : StockNews.t) :
  fresh_news_item r ->
  steady (adds_only stock_news fresh_news_item) (merge_news r).
Proof.
  intros Hr. unfold merge_news. apply adds_only_modify. intros st x Hx.
  cbn [stock_news set_stock_news] in Hx.
  destruct (In_merge _ _ _ _ _ Hx) as [->|H]; [now right | now left].
Qed.

Lemma update_stock_news_adds :
  steady (adds_only stock_news fresh_news_item)
         (StockDataLoader.update_stock_news env symbol).
Proof.
  unfold StockDataLoader.update_stock_news. steady_tac_eq.
  apply merge_news_adds. unfold fresh_news_item.
  cbn [StockDataLoader.news_of_row StockNews.symbol StockNews.date
       StockNews.source StockNews.update_date].
  repeat split. now apply Z.ltb_ge.
Qed.
End NewsWindow.

(** X1. Whatever [update_stock_news] meets (an exception of the provider, a
    date that does not convert, a commit that fails), every news item
    found in the store after it was there before, or is an item of the
    loader's symbol dated within the last thirty days, with the source
    the loader names and the clock as its timestamp. *)
Theorem update_stock_news_window (env : Env) (symbol : string) (st : Store)
  (tr : list Event) (r : StockNews.t) :
  In r (stock_news (db (exec (StockDataLoader.update_stock_news env symbol)
                          (open_session st tr)))) ->
  In r (stock_news st) \/ fresh_news_item env symbol r.
Proof.
  intros Hr.
  apply (adds_only_exec (tbl := stock_news) (open_session st tr)
           (update_stock_news_adds env symbol)); [reflexivity | exact Hr].
Qed.

Lemma update_stock_news_window_witness :
  let s := open_session Examples.store_with_old_rows [] in
  In Examples.fresh_news
     (stock_news (db (exec (StockDataLoader.update_stock_news Examples.busy_env
                              Examples.symbol) s))) /\
  (In Examples.fresh_news (stock_news Examples.store_with_old_rows) \/
   fresh_news_item Examples.busy_env Examples.symbol Examples.fresh_news).
Proof.
  intros s.
  assert (H : In Examples.fresh_news
     (stock_news (db (exec (StockDataLoader.update_stock_news Examples.busy_env
                              Examples.symbol) s)))).
  { vm_compute. auto. }
  split; [exact H|].
  exact (@update_stock_news_window Examples.busy_env Examples.symbol
           Examples.store_with_old_rows [] Examples.fresh_news H).
Defined.

(** ** Keys that stay stored *)

Section KeysKept.
Context {R K : Type}.
Variable tbl : Store -> list R.
Variable pk : R -> K.

Local Abbreviation keys st := (map pk (tbl st)).

(** With the committed keys among the pending ones before, the
    committed keys stay committed, and the keys committed after are
    among the pending ones. *)
Definition keys_kept (s s' : State) : Prop :=
  incl (keys (db s)) (keys (cur s)) ->
  incl (keys (db s)) (keys (db s')) /\ incl (keys (db s')) (keys (cur s')).

Lemma keys_kept_refl s : keys_kept s s.
Proof. intros H. split; [apply incl_refl | exact H]. Qed.

Lemma keys_kept_trans a b c : keys_kept a b -> keys_kept b c -> keys_kept a c.
Proof.
  intros H1 H2 Ha. destruct (H1 Ha) as [Hd Hc]. destruct (H2 Hc) as [Hd' Hc'].
  split; [eapply incl_tran; eassumption | exact Hc'].
Qed.

Lemma keys_kept_emit ev : steady keys_kept (emit ev).
Proof. intros s H. simpl. split; [apply incl_refl | exact H]. Qed.

Lemma keys_kept_commit env e : steady keys_kept (commit env e).
Proof.
  intros s H. unfold commit. destruct (commit_fails env e); simpl.
  - split; [apply incl_refl | exact H].
  - split; [exact H | apply incl_refl].
Qed.

Lemma keys_kept_rollback : steady keys_kept rollback.
Proof. intros s H. simpl. split; apply incl_refl. Qed.

Lemma keys_kept_modify f :
  (forall st, incl (keys st) (keys (f st))) -> steady keys_kept (modify f).
Proof.
  intros Hf s H. simpl. split; [apply incl_refl|].
  eapply incl_tran; [exact H | apply Hf].
Qed.

Lemma keys_kept_exec {A} (m : M A) (st : Store) (tr : list Event) :
  steady keys_kept m ->
  incl (keys st) (keys (db (exec m (open_session st tr)))).
Proof. intros Hm. apply (Hm (open_session st tr)). apply incl_refl. Qed.
End KeysKept.

#[export] Hint Resolve keys_kept_refl keys_kept_trans keys_kept_emit
  keys_kept_commit keys_kept_rollback : steady.

Lemma merge_keeps_keys {R K : Type} (pk : R -> K)
  (K_eq_dec : forall a b : K, {a = b} + {a <> b}) (r : R) (tbl : list R) :
  incl (map pk tbl) (map pk (merge pk K_eq_dec r tbl)).
Proof. intros k. apply merge_keeps_key. Qed.

Lemma merge_daily_keeps_ids (r : StockDaily.t) (tbl : list StockDaily.t) :
  incl (map StockDaily.id tbl) (map StockDaily.id (merge_daily r tbl)).
Proof.
  unfold merge_daily. destruct (StockDaily.id r).
  - apply merge_keeps_keys.
  - rewrite map_app. apply incl_appl, incl_refl.
Qed.

(** A merge into a table keeps its keys, and a change of another table
    keeps them as they are. *)
#[export] Hint Extern 2 (steady (keys_kept _ _) (modify _)) =>
  apply keys_kept_modify; intros ?;
  first [ apply incl_refl | apply merge_keeps_keys | apply merge_daily_keeps_ids ]
  : steady.

Ltac unfold_all_data :=
  unfold StockDataLoader.update_all_data, StockDataLoader.update_stock_basic,
    StockDataLoader.update_stock_price, StockDataLoader.update_daily_price,
    StockDataLoader.update_financial_metrics,
    StockDataLoader.update_insider_trades, StockDataLoader.update_stock_news,
    StockDataLoader.update_valuation_info.

Ltac unfold_daily_data :=
  unfold StockDataLoader.update_daily_data, StockDataLoader.update_daily_price,
    StockDataLoader.daily_financial_metrics,
    StockDataLoader.daily_insider_trades, StockDataLoader.daily_insider_frame,
    StockDataLoader.daily_news, StockDataLoader.daily_valuation.

(** The keys of the six tables, each under its primary key. *)
Definition keys_within (st st' : Store) : Prop :=
  incl (map StockBasic.pk (stock_basic st))
       (map StockBasic.pk (stock_basic st')) /\
  incl (map StockDaily.id (stock_daily st))
       (map StockDaily.id (stock_daily st')) /\
  incl (map StockFinancialMetrics.pk (stock_financial_metrics st))
       (map StockFinancialMetrics.pk (stock_financial_metrics st')) /\
  incl (map StockInsiderTrades.pk (stock_insider_trades st))
       (map StockInsiderTrades.pk (stock_insider_trades st')) /\
  incl (map StockNews.pk (stock_news st))
       (map StockNews.pk (stock_news st')) /\
  incl (map StockValuationInfo.pk (stock_valuation_info st))
       (map StockValuationInfo.pk (stock_valuation_info st')).

Lemma keys_within_refl (st : Store) : keys_within st st.
Proof. unfold keys_within. repeat split; apply incl_refl. Qed.

Lemma update_all_data_keys (env : Env) (symbol : string) (st : Store)
  (tr : list Event) :
  keys_within st
    (db (exec (StockDataLoader.update_all_data env symbol) (open_session st tr))).
Proof.
  unfold keys_within.
  repeat split; apply keys_kept_exec; unfold_all_data; steady_tac.
Qed.

(** X2. Whatever a run of [update_all_data] meets, it removes no row: every
    primary key stored before the run, in each of the six tables, is
    stored after it. *)
Theorem update_all_data_removes_nothing (env : Env) (symbol : string)
  (st : Store) (tr : list Event) :
  keys_within st
    (db (exec (StockDataLoader.update_all_data env symbol) (open_session st tr))).
Proof.
  unfold keys_within.
  repeat split; apply keys_kept_exec; unfold_all_data; steady_tac.
Qed.

(** X3. The daily run removes no row either: it has no step that prunes. *)
Theorem update_daily_data_removes_nothing (env : Env) (symbol : string)
  (st : Store) (tr : list Event) :
  keys_within st
    (db (exec (StockDataLoader.update_daily_data env symbol) (open_session st tr))).
Proof.
  unfold keys_within.
  repeat split; apply keys_kept_exec; unfold_daily_data; steady_tac.
Qed.

(** ** [update_stock_price] and [update_daily_price] *)

Lemma plan_all {Row R : Type} (f : Row -> result R) (rows : list Row) :
  plan (fun row => let? r := f row in Ok (Some r)) rows = comprehension f rows.
Proof.
  induction rows as [|row rows IH]; simpl; [reflexivity|].
  destruct (f row) as [r|e]; simpl; [|reflexivity].
  rewrite IH. now destruct (comprehension f rows).
Qed.

Lemma set_get_daily st : set_stock_daily (stock_daily st) st = st.
Proof. now destruct st. Qed.

Definition put_price (r : StockDaily.t) (st : Store) : Store :=
  set_stock_daily (merge_daily r (stock_daily st)) st.

Lemma fold_put_price rs st :
  fold_left (fun st r => put_price r st) rs st =
  set_stock_daily
    (fold_left (fun t r => merge_daily r t) rs (stock_daily st)) st.
Proof.
  apply (fold_put stock_daily set_stock_daily); auto using set_get_daily.
Qed.

(** The rows a batch of price objects becomes: each with the next free
    [id], in order. *)
Fixpoint with_ids (i : Z) (ps : list StockDaily.t) : list StockDaily.t :=
  match ps with
  | [] => []
  | p :: ps' => StockDaily.with_id i p :: with_ids (i + 1) ps'
  end.

Definition greatest_id (tbl : list StockDaily.t) : Z :=
  fold_right (fun r m => match StockDaily.id r with
                         | Some i => Z.max i m
                         | None => m
                         end) 0 tbl.

Lemma greatest_id_nonneg tbl : 0 <= greatest_id tbl.
Proof.
  induction tbl as [|r tbl IH]; simpl; [lia|].
  destruct (StockDaily.id r); lia.
Qed.

Lemma greatest_id_app tbl x :
  greatest_id (tbl ++ [x]) = Z.max (greatest_id tbl) (greatest_id [x]).
Proof.
  induction tbl as [|r tbl IH]; simpl.
  - destruct (StockDaily.id x); lia.
  - fold (greatest_id (tbl ++ [x])). fold (greatest_id tbl). rewrite IH.
    simpl. destruct (StockDaily.id r), (StockDaily.id x); lia.
Qed.

Lemma next_id_greatest tbl : next_id tbl = 1 + greatest_id tbl.
Proof. reflexivity. Qed.

Lemma next_id_app (tbl : list StockDaily.t) (r : StockDaily.t) :
  next_id (tbl ++ [StockDaily.with_id (next_id tbl) r]) = next_id tbl + 1.
Proof.
  rewrite !next_id_greatest, greatest_id_app.
  cbn [greatest_id fold_right StockDaily.id StockDaily.with_id].
  pose proof (greatest_id_nonneg tbl). lia.
Qed.

Lemma fold_merge_daily (ps : list StockDaily.t) (tbl : list StockDaily.t) :
  Forall (fun p => StockDaily.id p = None) ps ->
  fold_left (fun t r => merge_daily r t) ps tbl = tbl ++ with_ids (next_id tbl) ps.
Proof.
  intros H. revert tbl. induction H as [|p ps Hp _ IH]; intros tbl; simpl.
  - now rewrite app_nil_r.
  - unfold merge_daily at 2. rewrite Hp. rewrite IH, next_id_app.
    now rewrite <- app_assoc.
Qed.

Section Prices.
Variable env : Env.
Variable symbol : string.

Lemma price_of_row_fields (row : Series) (t : Z) (p : StockDaily.t) :
  StockDataLoader.price_of_row env symbol row t = Ok p ->
  StockDaily.id p = None /\ StockDaily.symbol p = symbol /\
  StockDaily.trade_date p = t.
Proof.
  unfold StockDataLoader.price_of_row.
  repeat (match goal with
          | |- context [StockDataLoader.float_at ?e ?r ?l] =>
              destruct (StockDataLoader.float_at e r l); cbn [rbind];
              [|discriminate]
          end).
  intros [= <-]. now repeat split.
Qed.

Lemma price_of_dated_row_id (row : Series) (p : StockDaily.t) :
  StockDataLoader.price_of_dated_row env symbol row = Ok p ->
  StockDaily.id p = None.
Proof.
  unfold StockDataLoader.price_of_dated_row.
  destruct (getitem row "日期") as [cell|]; cbn [rbind]; [|discriminate].
  destruct (to_datetime env cell) as [t|]; cbn [rbind]; [|discriminate].
  intros H. now apply price_of_row_fields in H.
Qed.

Lemma comprehension_all {A B : Type} (f : A -> result B) (P : B -> Prop)
  (l : list A) (rs : list B) :
  (forall x r, f x = Ok r -> P r) -> comprehension f l = Ok rs -> Forall P rs.
Proof.
  intros Hf. revert rs. induction l as [|x l IH]; simpl; intros rs H.
  - injection H as <-. constructor.
  - destruct (f x) as [r|] eqn:E; cbn [rbind] in H; [|discriminate].
    destruct (comprehension f l) as [rs'|]; cbn [rbind] in H; [|discriminate].
    injection H as <-. constructor; [now apply (Hf x) | now apply IH].
Qed.

Definition stock_price_row (row : Series) : result (option StockDaily.t) :=
  let? p := StockDataLoader.price_of_dated_row env symbol row in Ok (Some p).

Lemma stock_price_body_canon (acc : unit) (row : Series) (s : State) :
  StockDataLoader.stock_price_body env symbol row s =
  canon put_price (fun a => a) stock_price_row acc row s.
Proof.
  destruct acc.
  unfold StockDataLoader.stock_price_body, canon, stock_price_row. mrun.
  destruct (StockDataLoader.price_of_dated_row env symbol row);
    cbn [rbind]; reflexivity.
Qed.

Lemma update_stock_price_commits (s : State) (d : DataFrame)
  (ps : list StockDaily.t) :
  stock_zh_a_hist (ak env) symbol None = Ok (Some d) ->
  empty d = false ->
  comprehension (StockDataLoader.price_of_dated_row env symbol) (iterrows d)
    = Ok ps ->
  commit_fails env DailyPrice = false ->
  stock_daily (db (exec (StockDataLoader.update_stock_price env symbol) s)) =
  stock_daily (cur s) ++ with_ids (next_id (stock_daily (cur s))) ps.
Proof.
  intros Hfetch Hempty Hmap Hcommit.
  unfold exec, StockDataLoader.update_stock_price. mrun.
  rewrite Hfetch. mrun. rewrite Hempty. mrun. unfold for_each.
  rewrite (for_fold_ext _ _ stock_price_body_canon).
  rewrite (loop_ok put_price (fun a => a) stock_price_row (iterrows d)
             (rs := ps)) by (unfold stock_price_row; now rewrite plan_all).
  mrun. rewrite fold_put_price. cbn [stock_daily set_stock_daily].
  apply fold_merge_daily.
  apply (comprehension_all _ _ _ price_of_dated_row_id Hmap).
Qed.
End Prices.

(** X4. [update_stock_price], when the provider answers with rows that all
    map and the commit goes through: the rows stored before stay as
    they are, and one row per fetched row is added after them, in
    order, under the next free [id]s. Nothing is overwritten, whatever
    dates are stored already. *)
Theorem update_stock_price_appends (env : Env) (symbol : string) (st : Store)
  (tr : list Event) (d : DataFrame) (ps : list StockDaily.t) :
  stock_zh_a_hist (ak env) symbol None = Ok (Some d) ->
  empty d = false ->
  comprehension (StockDataLoader.price_of_dated_row env symbol) (iterrows d)
    = Ok ps ->
  commit_fails env DailyPrice = false ->
  stock_daily (db (exec (StockDataLoader.update_stock_price env symbol)
                     (open_session st tr))) =
  stock_daily st ++ with_ids (next_id (stock_daily st)) ps.
Proof.
  intros Hfetch Hempty Hmap Hcommit.
  exact (update_stock_price_commits env symbol (open_session st tr)
           Hfetch Hempty Hmap Hcommit).
Qed.

Lemma update_stock_price_appends_witness :
  let st := set_stock_daily [Examples.stored_price 7] empty_store in
  stock_daily (db (exec (StockDataLoader.update_stock_price Examples.price_env
                           Examples.symbol) (open_session st []))) =
  [Examples.stored_price 7; Examples.stored_price 8].
Proof.
  intros st.
  rewrite (@update_stock_price_appends Examples.price_env Examples.symbol st []
             Examples.price_frame
             [StockDaily.mk None Examples.symbol Examples.d_2024_06_30
                (Fnum 10) (Fnum 12) (Fnum 9) (Fnum 11) (Fnum 1000) (Fnum 11000)]);
    vm_compute; reflexivity.
Defined.

Section DailyPrices.
Variable env : Env.
Variable symbol : string.













End DailyPrices.



(** ** [update_financial_metrics]: every fetched report is merged *)

Section AllReports.
Variable env : Env.
Variable symbol : string.


End AllReports.






(** ** Step 4 of [main]: only the last report is stored *)

Section MainMetrics.
Variable env : Env.
Variable symbol : string.



End MainMetrics.



(** ** [update_stock_basic]: the industry lookup cannot fail the step *)

Section Basic.
Variable env : Env.
Variable self_symbol : string.
Variable symbol : string.

(** The industry the step stores: the board of the symbol when the
    lookup finds one, the text for unknown when it finds none or
    fails. *)
Definition industry_stored : pyval :=
  match stock_board_industry_name_em (ak env) with
  | Ok (Some idf) =>
      match StockDataLoader.industry_of idf symbol with
      | Ok v => v
      | Raise _ => PyStr "未知"
      end
  | _ => PyStr "未知"
  end.

Lemma update_stock_basic_commits (s : State) (d : DataFrame) (info : Series) :
  stock_individual_info_em (ak env) symbol = Ok (Some d) ->
  empty d = false ->
  set_index_item_value d = Ok info ->
  commit_fails env BasicInfo = false ->
  exists tr,
    StockDataLoader.update_stock_basic env self_symbol symbol s =
    (Ok tt,
     let st :=
       set_stock_basic
         (merge StockBasic.pk string_dec
            (StockBasic.mk self_symbol (get info "股票简称" (PyStr ""))
               industry_stored (get info "地区" (PyStr ""))
               (if startswith self_symbol "6" then "上证" else "深证")
               (get info "上市时间" (PyStr "")) (now env))
            (stock_basic (cur s))) (cur s) in
     mkState st st tr).
Proof.
  intros Hfetch Hempty Hinfo Hcommit.
  assert (Hcols : has_column d "item" && has_column d "value" = true).
  { unfold set_index_item_value in Hinfo.
    destruct (has_column d "item" && has_column d "value");
      [reflexivity | discriminate]. }
  apply andb_true_iff in Hcols. destruct Hcols as [Hi Hv].
  unfold StockDataLoader.update_stock_basic, industry_stored. mrun.
  rewrite Hfetch. mrun. rewrite Hempty, Hi, Hv. cbn [negb orb].
  rewrite Hinfo. mrun.
  destruct (stock_board_industry_name_em (ak env)) as [[idf|]|e]; mrun.
  - destruct (StockDataLoader.industry_of idf symbol) as [v|e]; mrun;
      unfold merge_basic; mrun; eauto.
  - unfold merge_basic. mrun. eauto.
  - unfold merge_basic. mrun. eauto.
Qed.
End Basic.

(** X8. [update_stock_basic], when the provider answers the information of
    the symbol and the commit goes through: the row of the loader's
    symbol is stored, with the name, the area and the listing date of
    the answer and the clock as its timestamp, whatever the industry
    lookup meets; when that lookup raises, answers nothing or finds no
    board for the symbol, the industry stored is the text for unknown.
    The market is Shanghai for a symbol that starts with 6 and Shenzhen
    for every other. *)
Theorem update_stock_basic_stores (env : Env) (self_symbol symbol : string)
  (st : Store) (tr : list Event) (d : DataFrame) (info : Series) :
  stock_individual_info_em (ak env) symbol = Ok (Some d) ->
  empty d = false ->
  set_index_item_value d = Ok info ->
  commit_fails env BasicInfo = false ->
  let run := StockDataLoader.update_stock_basic env self_symbol symbol in
  fst (run (open_session st tr)) = Ok tt /\
  find_pk StockBasic.pk string_dec self_symbol
    (stock_basic (db (exec run (open_session st tr)))) =
  Some (StockBasic.mk self_symbol (get info "股票简称" (PyStr ""))
          (industry_stored env symbol) (get info "地区" (PyStr ""))
          (if startswith self_symbol "6" then "上证" else "深证")
          (get info "上市时间" (PyStr "")) (now env)) /\
  ((forall idf, stock_board_industry_name_em (ak env) <> Ok (Some idf)) ->
   industry_stored env symbol = PyStr "未知").
Proof.
  intros Hfetch Hempty Hinfo Hcommit run. subst run. unfold exec.
  destruct (update_stock_basic_commits env self_symbol symbol
              (open_session st tr) Hfetch Hempty Hinfo Hcommit) as [tr' ->].
  cbn [fst snd db stock_basic set_stock_basic].
  split; [reflexivity|]. split.
  - match goal with
    | |- context [merge StockBasic.pk string_dec ?r ?tbl] =>
        exact (find_merge_same StockBasic.pk string_dec r tbl)
    end.
  - intros Hno. unfold industry_stored.
    destruct (stock_board_industry_name_em (ak env)) as [[idf|]|e];
      [now destruct (Hno idf) | reflexivity | reflexivity].
Qed.

Lemma update_stock_basic_stores_witness :
  let env := Examples.busy_env in
  let run := StockDataLoader.update_stock_basic env Examples.symbol
               Examples.symbol in
  let s := open_session empty_store [] in
  fst (run s) = Ok tt /\
  stock_basic (db (exec run s)) =
  [StockBasic.mk Examples.symbol (PyStr "") (PyStr "未知") (PyStr "") "上证"
     (PyStr "") Examples.clock].
Proof.
  intros env run s.
  destruct (@update_stock_basic_stores env Examples.symbol Examples.symbol
              empty_store [] Examples.info_frame Examples.info_series)
    as (Hret & _ & _).
  1-4: vm_compute; reflexivity.
  split; [exact Hret | vm_compute; reflexivity].
Defined.

(** ** Provider functions a run does not call *)

(** The trace grows by events other than a call of [api]. *)
Definition avoids (api : string) (s s' : State) : Prop :=
  exists l, trace s' = trace s ++ l /\ ~ In (Call api) l.

Lemma avoids_refl api s : avoids api s s.
Proof. exists []. rewrite app_nil_r. split; [reflexivity | intros []]. Qed.

Lemma avoids_trans api a b c : avoids api a b -> avoids api b c -> avoids api a c.
Proof.
  intros (l1 & H1 & N1) (l2 & H2 & N2). exists (l1 ++ l2).
  split; [now rewrite H2, H1, app_assoc|].
  intros H. apply in_app_or in H. tauto.
Qed.

Lemma avoids_emit api ev : ev <> Call api -> steady (avoids api) (emit ev).
Proof.
  intros Hev s. exists [ev]. split; [reflexivity|].
  intros [H|[]]. now apply Hev.
Qed.

Lemma avoids_modify api f : steady (avoids api) (modify f).
Proof.
  intros s. exists []. simpl. rewrite app_nil_r. split; [reflexivity | intros []].
Qed.

Lemma avoids_commit api env e : steady (avoids api) (commit env e).
Proof.
  intros s. unfold commit. exists [].
  destruct (commit_fails env e); simpl; rewrite app_nil_r;
    (split; [reflexivity | intros []]).
Qed.

Lemma avoids_rollback api : steady (avoids api) rollback.
Proof.
  intros s. exists []. simpl. rewrite app_nil_r. split; [reflexivity | intros []].
Qed.

Lemma avoids_exec {A} api (m : M A) (s : State) :
  steady (avoids api) m ->
  exists l, trace (exec m s) = trace s ++ l /\ ~ In (Call api) l.
Proof. intros H. apply H. Qed.

#[export] Hint Resolve avoids_refl avoids_trans avoids_modify avoids_commit
  avoids_rollback : steady.
#[export] Hint Extern 1 (steady (avoids _) (emit _)) =>
  apply avoids_emit; discriminate : steady.

(** As [steady_step], for a relation that tells provider calls apart. *)
Ltac avoids_step :=
  lazymatch goal with
  | |- steady _ (call _ _) =>
      unfold call; apply steady_bind;
      [eauto with steady | | intros; apply steady_lift; eauto with steady]
  | |- steady _ (match StockDataLoader.call_share_hold_change ?e ?y with
                 | _ => _ end) =>
      unfold StockDataLoader.call_share_hold_change,
        StockDataLoader.share_hold_change;
      destruct (startswith y "6");
      [|destruct (startswith y "0" || startswith y "3")];
      cbn [option_map fst snd]
  | |- _ => steady_step
  end.

Ltac avoids_tac := cbv zeta; repeat (avoids_step; cbv zeta).

Section Unsupported.
Variable env : Env.
Variable symbol : string.

(** A symbol of neither exchange: it starts with none of 6, 0 and 3. *)
Definition no_exchange : Prop :=
  startswith symbol "6" = false /\ startswith symbol "0" = false /\
  startswith symbol "3" = false.

Lemma no_share_hold_change :
  no_exchange -> StockDataLoader.call_share_hold_change env symbol = None.
Proof.
  intros (H6 & H0 & H3).
  unfold StockDataLoader.call_share_hold_change,
    StockDataLoader.share_hold_change.
  now rewrite H6, H0, H3.
Qed.

Lemma history_metrics_avoids api full :
  api <> "stock_financial_analysis_indicator" ->
  steady (avoids api)
         (StockDataLoader.history_financial_metrics env symbol full).
Proof.
  intros Hapi. unfold StockDataLoader.history_financial_metrics. avoids_tac.
  apply avoids_emit. congruence.
Qed.
End Unsupported.

(** ** The valuation step of an incremental history run *)

Section ValuationSuppressed.
Variable env : Env.
Variable symbol : string.

Lemma history_valuation_skips (s : State) (v : StockValuationInfo.t) :
  StockDataLoader.recent_valuation symbol (thirty_days_before (now env)) (cur s)
    = Some v ->
  StockDataLoader.history_valuation env symbol false s =
  (Ok tt,
   mkState (db s) (cur s)
     (trace s ++ [Log INFO "4. 获取估值信息..."; Log INFO "估值信息无需更新"])).
Proof.
  intros Hseen. unfold StockDataLoader.history_valuation. cbv zeta. mrun.
  rewrite Hseen. cbn [negb orb]. mrun. now rewrite <- app_assoc.
Qed.

Lemma history_news_avoids_valuation full :
  steady (avoids "stock_individual_info_em")
         (StockDataLoader.history_news env symbol full).
Proof. unfold StockDataLoader.history_news. avoids_tac. Qed.

Lemma history_trades_avoids_valuation full :
  steady (avoids "stock_individual_info_em")
         (StockDataLoader.history_insider_trades env symbol full).
Proof. unfold StockDataLoader.history_insider_trades. avoids_tac. Qed.

Lemma recent_valuation_found (st : Store) (r : StockValuationInfo.t) :
  In r (stock_valuation_info st) ->
  StockValuationInfo.symbol r = symbol ->
  thirty_days_before (now env) <= StockValuationInfo.update_date r ->
  exists v,
    StockDataLoader.recent_valuation symbol (thirty_days_before (now env)) st
      = Some v.
Proof.
  intros Hin Hsym Hdate. unfold StockDataLoader.recent_valuation.
  destruct (first_desc _ _) as [v|] eqn:E; [now exists v|].
  apply first_desc_None in E.
  assert (H : In r (filter
                      (fun r => thirty_days_before (now env) <=?
                                StockValuationInfo.update_date r)
                      (filter (StockDataLoader.of_symbol symbol
                                 StockValuationInfo.symbol)
                              (stock_valuation_info st)))).
  { apply filter_In. split; [|now apply Z.leb_le].
    apply filter_In. split; [exact Hin|].
    unfold StockDataLoader.of_symbol. rewrite Hsym. apply String.eqb_refl. }
  rewrite E in H. contradiction.
Qed.
End ValuationSuppressed.

(** X9. An incremental run of [update_stock_history] on a store that holds
    a valuation snapshot of the symbol updated within the last thirty
    days: the valuation function of the provider is not called, and the
    valuation table is left as it is. The snapshot need not be of
    today. *)
Theorem history_valuation_suppressed (env : Env) (symbol : string) (st : Store)
  (tr : list Event) (r : StockValuationInfo.t) :
  In r (stock_valuation_info st) ->
  StockValuationInfo.symbol r = symbol ->
  thirty_days_before (now env) <= StockValuationInfo.update_date r ->
  let s' := exec (StockDataLoader.update_stock_history env symbol false)
                 (open_session st tr) in
  stock_valuation_info (db s') = stock_valuation_info st /\
  exists l, trace s' = tr ++ l /\ ~ In (Call "stock_individual_info_em") l.
Proof.
  intros Hin Hsym Hdate s'. subst s'.
  set (s := open_session st tr).
  assert (Hclean : cur s = db s) by reflexivity.
  pose proof (after_news_clean env symbol false s Hclean) as Hclean3.
  pose proof (after_news_valuation env symbol false s Hclean) as Htbl.
  destruct (@recent_valuation_found env symbol
              (cur (after_news env symbol false s)) r) as [v Hv];
    [rewrite Hclean3, Htbl; exact Hin | exact Hsym | exact Hdate |].
  unfold exec. rewrite update_stock_history_run. cbn [snd db trace].
  unfold after_valuation, exec. rewrite (@history_valuation_skips env symbol _ v Hv).
  cbn [snd db trace]. split; [exact Htbl|].
  destruct (@history_metrics_avoids env symbol "stock_individual_info_em"
              false ltac:(discriminate) (history_start s))
    as (l1 & H1 & N1).
  destruct (history_trades_avoids_valuation env symbol false
              (after_metrics env symbol false s)) as (l2 & H2 & N2).
  destruct (history_news_avoids_valuation env symbol false
              (after_trades env symbol false s)) as (l3 & H3 & N3).
  unfold after_news, exec. rewrite H3.
  unfold after_trades, exec. rewrite H2.
  unfold after_metrics, exec. rewrite H1.
  cbn [history_start trace s open_session].
  eexists. split; [repeat rewrite <- app_assoc; reflexivity|].
  intros H. repeat (apply in_app_or in H; destruct H as [H|H]);
    try tauto; simpl in H; repeat (destruct H as [H|H]; try discriminate H);
    try contradiction.
Qed.

Lemma history_valuation_suppressed_witness :
  let st := mkStore [] [] [] [] []
              [StockValuationInfo.mk Examples.symbol (Fnum 1000) (Fnum 100)
                 (Fnum 90) (Fnum 8) (Fnum 2) (Examples.clock - 29 * day)] in
  let s' := exec (StockDataLoader.update_stock_history Examples.busy_env
                    Examples.symbol false) (open_session st []) in
  stock_valuation_info (db s') = stock_valuation_info st /\
  exists l, trace s' = [] ++ l /\ ~ In (Call "stock_individual_info_em") l.
Proof.
  intros st s'.
  apply (@history_valuation_suppressed Examples.busy_env Examples.symbol st []
           (StockValuationInfo.mk Examples.symbol (Fnum 1000) (Fnum 100)
              (Fnum 90) (Fnum 8) (Fnum 2) (Examples.clock - 29 * day))).
  - vm_compute. auto.
  - reflexivity.
  - vm_compute. discriminate.
Defined.

(** ** A symbol of neither exchange *)

Ltac unfold_history :=
  unfold StockDataLoader.update_stock_history,
    StockDataLoader.history_financial_metrics,
    StockDataLoader.history_insider_trades, StockDataLoader.history_news,
    StockDataLoader.history_valuation.

Section NoExchange.
Variable env : Env.
Variable symbol : string.
Hypothesis unsupported : no_exchange symbol.

Lemma update_insider_trades_unsupported (s : State) :
  StockDataLoader.update_insider_trades env symbol s =
  (Ok tt,
   mkState (db s) (cur s)
     (trace s ++
      [Log INFO "正在获取股票 {self.symbol} 的内部交易信息...";
       Log WARNING "股票代码 {self.symbol} 不符合格式"])).
Proof.
  unfold StockDataLoader.update_insider_trades.
  rewrite (no_share_hold_change env unsupported). mrun.
  now rewrite <- app_assoc.
Qed.

Lemma history_insider_trades_unsupported (full : bool) (s : State) :
  StockDataLoader.history_insider_trades env symbol full s =
  (Ok tt,
   mkState (db s) (cur s) (trace s ++ [Log INFO "2. 获取历史内部交易..."])).
Proof.
  unfold StockDataLoader.history_insider_trades.
  rewrite (no_share_hold_change env unsupported). mrun. reflexivity.
Qed.

Lemma history_avoids_sse (full : bool) :
  steady (avoids "stock_share_hold_change_sse")
         (StockDataLoader.update_stock_history env symbol full).
Proof.
  unfold_history. rewrite (no_share_hold_change env unsupported). avoids_tac.
Qed.

Lemma history_avoids_szse (full : bool) :
  steady (avoids "stock_share_hold_change_szse")
         (StockDataLoader.update_stock_history env symbol full).
Proof.
  unfold_history. rewrite (no_share_hold_change env unsupported). avoids_tac.
Qed.

Lemma all_data_avoids_sse :
  steady (avoids "stock_share_hold_change_sse")
         (StockDataLoader.update_all_data env symbol).
Proof.
  unfold_all_data. rewrite (no_share_hold_change env unsupported). avoids_tac.
Qed.

Lemma all_data_avoids_szse :
  steady (avoids "stock_share_hold_change_szse")
         (StockDataLoader.update_all_data env symbol).
Proof.
  unfold_all_data. rewrite (no_share_hold_change env unsupported). avoids_tac.
Qed.
End NoExchange.

(** Two ways to split one trace from the same start agree. *)
Lemma avoids_both (api1 api2 : string) (t t' l1 l2 : list Event) :
  t' = t ++ l1 -> ~ In (Call api1) l1 ->
  t' = t ++ l2 -> ~ In (Call api2) l2 ->
  exists l, t' = t ++ l /\ ~ In (Call api1) l /\ ~ In (Call api2) l.
Proof.
  intros H1 N1 H2 N2. exists l1. rewrite H1 in H2.
  apply app_inv_head in H2. subst l2. now repeat split.
Qed.

(** X10. For a symbol that starts with none of 6, 0 and 3,
    [update_insider_trades] logs a warning and does nothing else, and
    neither a run of [update_stock_history], in either mode, nor a run
    of [update_all_data] calls one of the two insider-trade functions of
    the provider; the history run leaves the insider trades stored as
    they are. *)
Theorem unsupported_symbol_insider_trades (env : Env) (symbol : string)
  (st : Store) (tr : list Event) :
  no_exchange symbol ->
  exec (StockDataLoader.update_insider_trades env symbol) (open_session st tr) =
  mkState st st
    (tr ++ [Log INFO "正在获取股票 {self.symbol} 的内部交易信息...";
            Log WARNING "股票代码 {self.symbol} 不符合格式"]) /\
  (forall full,
     let s' := exec (StockDataLoader.update_stock_history env symbol full)
                    (open_session st tr) in
     stock_insider_trades (db s') = stock_insider_trades st /\
     exists l, trace s' = tr ++ l /\
               ~ In (Call "stock_share_hold_change_sse") l /\
               ~ In (Call "stock_share_hold_change_szse") l) /\
  (exists l,
     trace (exec (StockDataLoader.update_all_data env symbol)
                 (open_session st tr)) = tr ++ l /\
     ~ In (Call "stock_share_hold_change_sse") l /\
     ~ In (Call "stock_share_hold_change_szse") l).
Proof.
  intros Hno. split; [|split].
  - unfold exec. now rewrite update_insider_trades_unsupported.
  - intros full s'. subst s'. set (s := open_session st tr).
    assert (Hclean : cur s = db s) by reflexivity. split.
    + rewrite exec_update_stock_history, final_trades by exact Hclean.
      unfold after_trades, exec.
      rewrite history_insider_trades_unsupported by exact Hno.
      cbn [snd db]. now apply after_metrics_trades.
    + destruct (history_avoids_sse env Hno full s) as (l1 & H1 & N1).
      destruct (history_avoids_szse env Hno full s) as (l2 & H2 & N2).
      exact (@avoids_both _ _ _ _ _ _ H1 N1 H2 N2).
  - destruct (all_data_avoids_sse env Hno (open_session st tr)) as (l1 & H1 & N1).
    destruct (all_data_avoids_szse env Hno (open_session st tr)) as (l2 & H2 & N2).
    exact (@avoids_both _ _ _ _ _ _ H1 N1 H2 N2).
Qed.

Lemma unsupported_symbol_insider_trades_witness :
  let s' := exec (StockDataLoader.update_stock_history Examples.history_env
                    "900901" false)
                 (open_session Examples.store_with_history []) in
  stock_insider_trades (db s') = [Examples.stored_trade] /\
  exists l, trace s' = [] ++ l /\
            ~ In (Call "stock_share_hold_change_sse") l /\
            ~ In (Call "stock_share_hold_change_szse") l.
Proof.
  intros s'.
  destruct (@unsupported_symbol_insider_trades Examples.history_env "900901"
              Examples.store_with_history []) as (_ & H & _).
  - vm_compute. repeat split.
  - exact (H false).
Defined.

(** ** The daily run: frames that are not what a step expects *)

Section DailyFrames.
Variable env : Env.
Variable symbol : string.

Lemma daily_financial_metrics_keeps {X} (P : Store -> X) :
  (forall v st, P (set_stock_financial_metrics v st) = P st) ->
  steady (keeps P) (StockDataLoader.daily_financial_metrics env symbol).
Proof.
  intros HP. unfold StockDataLoader.daily_financial_metrics. steady_tac.
Qed.

(** A table that every step of the daily run leaves alone is left alone
    by the run. *)
Lemma daily_run_keeps {X} (P : Store -> X) :
  steady (keeps P) (StockDataLoader.update_daily_price env symbol) ->
  steady (keeps P) (StockDataLoader.daily_financial_metrics env symbol) ->
  steady (keeps P) (StockDataLoader.daily_insider_trades env symbol) ->
  steady (keeps P) (StockDataLoader.daily_news env symbol) ->
  steady (keeps P) (StockDataLoader.daily_valuation env symbol) ->
  steady (keeps P) (StockDataLoader.update_daily_data env symbol).
Proof.
  intros H1 H2 H3 H4 H5. unfold StockDataLoader.update_daily_data. steady_tac.
Qed.

Lemma daily_news_grows : steady grows (StockDataLoader.daily_news env symbol).
Proof. unfold StockDataLoader.daily_news. steady_tac. Qed.

Lemma daily_valuation_grows :
  steady grows (StockDataLoader.daily_valuation env symbol).
Proof. unfold StockDataLoader.daily_valuation. steady_tac. Qed.

(** What steps 3 and 4 log is in the trace of an open run. *)
Lemma daily_run_sees_trades (s : State) (ev : Event) :
  StockDataLoader.updated_today env symbol (cur s) = false ->
  In ev (trace (after_daily_trades env symbol s)) ->
  In ev (trace (exec (StockDataLoader.update_daily_data env symbol) s)).
Proof.
  intros Hgate Hin. unfold exec. rewrite update_daily_data_runs by exact Hgate.
  cbn [snd trace]. apply in_or_app. left.
  unfold after_daily_valuation, after_daily_news.
  apply grows_In; [apply daily_valuation_grows|].
  apply grows_In; [apply daily_news_grows | exact Hin].
Qed.

Lemma daily_run_sees_news (s : State) (ev : Event) :
  StockDataLoader.updated_today env symbol (cur s) = false ->
  In ev (trace (after_daily_news env symbol s)) ->
  In ev (trace (exec (StockDataLoader.update_daily_data env symbol) s)).
Proof.
  intros Hgate Hin. unfold exec. rewrite update_daily_data_runs by exact Hgate.
  cbn [snd trace]. apply in_or_app. left.
  unfold after_daily_valuation.
  apply grows_In; [apply daily_valuation_grows | exact Hin].
Qed.

(** Step 3 for a symbol of neither exchange: no insider-trade function
    is called, and the frame the step reads is the one step 2 left. *)
Lemma daily_insider_trades_stale (s : State) :
  no_exchange symbol ->
  (forall d, stock_financial_analysis_indicator (ak env) symbol = Ok (Some d) ->
             has_column d "变动日期" = false) ->
  exists st l,
    StockDataLoader.daily_insider_trades env symbol s =
    (Ok tt, mkState (db s) st (trace s ++ Log INFO "3. 更新内部交易..." :: l)) /\
    (st = cur s \/ st = db s) /\
    ((forall d, stock_financial_analysis_indicator (ak env) symbol = Ok (Some d) ->
                empty d = false) ->
     l = [Log ERROR "更新内部交易时发生错误: {str(e)}"]).
Proof.
  intros Hno Hcol.
  unfold StockDataLoader.daily_insider_trades,
    StockDataLoader.daily_insider_frame.
  rewrite (no_share_hold_change env Hno). mrun.
  destruct (stock_financial_analysis_indicator (ak env) symbol)
    as [[d|]|e]; mrun.
  - destruct (empty d) eqn:Hempty; mrun.
    + exists (cur s), []. split; [reflexivity|]. split; [now left|].
      intros H. specialize (H d eq_refl). congruence.
    + unfold StockDataLoader.dated_today. rewrite (Hcol d eq_refl). mrun.
      exists (db s), [Log ERROR "更新内部交易时发生错误: {str(e)}"].
      rewrite <- app_assoc. split; [reflexivity|]. split; [now right | reflexivity].
  - exists (db s), [Log ERROR "更新内部交易时发生错误: {str(e)}"].
    rewrite <- app_assoc. split; [reflexivity|]. split; [now right | reflexivity].
  - exists (db s), [Log ERROR "更新内部交易时发生错误: {str(e)}"].
    rewrite <- app_assoc. split; [reflexivity|]. split; [now right | reflexivity].
Qed.

Lemma daily_insider_trades_stale_keeps :
  no_exchange symbol ->
  (forall d, stock_financial_analysis_indicator (ak env) symbol = Ok (Some d) ->
             has_column d "变动日期" = false) ->
  steady (keeps stock_insider_trades)
         (StockDataLoader.daily_insider_trades env symbol).
Proof.
  intros Hno Hcol s Hc.
  destruct (daily_insider_trades_stale s Hno Hcol) as (st & l & -> & [->| ->] & _);
    cbn [snd db cur]; now split.
Qed.

Lemma daily_avoids_sse :
  no_exchange symbol ->
  steady (avoids "stock_share_hold_change_sse")
         (StockDataLoader.update_daily_data env symbol).
Proof.
  intros Hno. unfold_daily_data. rewrite (no_share_hold_change env Hno).
  avoids_tac.
Qed.

Lemma daily_avoids_szse :
  no_exchange symbol ->
  steady (avoids "stock_share_hold_change_szse")
         (StockDataLoader.update_daily_data env symbol).
Proof.
  intros Hno. unfold_daily_data. rewrite (no_share_hold_change env Hno).
  avoids_tac.
Qed.

(** Step 4 on a frame with rows and no column of the time. *)
Lemma daily_news_no_time (s : State) (d : DataFrame) :
  stock_news_em (ak env) symbol = Ok (Some d) ->
  empty d = false ->
  has_column d "时间" = false ->
  StockDataLoader.daily_news env symbol s =
  (Ok tt,
   mkState (db s) (db s)
     (trace s ++ [Log INFO "4. 更新今日新闻..."; Call "stock_news_em";
                  Log ERROR "更新今日新闻时发生错误: {str(e)}"])).
Proof.
  intros Hfetch Hempty Hcol. unfold StockDataLoader.daily_news. mrun.
  rewrite Hfetch. mrun. rewrite Hempty. mrun.
  unfold StockDataLoader.dated_today. rewrite Hcol. mrun.
  now rewrite <- !app_assoc.
Qed.
End DailyFrames.

(** X11. The daily run for a symbol that starts with none of 6, 0 and 3,
    when the provider's frame of financial metrics has no column of the
    change date: no insider-trade function of the provider is called
    and the insider trades stored stay as they are. Step 3 reads the
    frame that step 2 fetched: when that answer is an exception, or a
    frame with rows, an open run logs the error of step 3. *)
Theorem daily_unsupported_symbol (env : Env) (symbol : string) (st : Store)
  (tr : list Event) :
  no_exchange symbol ->
  (forall d, stock_financial_analysis_indicator (ak env) symbol = Ok (Some d) ->
             has_column d "变动日期" = false) ->
  let s' := exec (StockDataLoader.update_daily_data env symbol)
                 (open_session st tr) in
  stock_insider_trades (db s') = stock_insider_trades st /\
  (exists l, trace s' = tr ++ l /\
             ~ In (Call "stock_share_hold_change_sse") l /\
             ~ In (Call "stock_share_hold_change_szse") l) /\
  (StockDataLoader.updated_today env symbol st = false ->
   (forall d, stock_financial_analysis_indicator (ak env) symbol = Ok (Some d) ->
              empty d = false) ->
   In (Log ERROR "更新内部交易时发生错误: {str(e)}") (trace s')).
Proof.
  intros Hno Hcol s'. subst s'. set (s := open_session st tr). split; [|split].
  - apply (@keeps_exec _ _ stock_insider_trades
             (StockDataLoader.update_daily_data env symbol) s); [|reflexivity].
    apply daily_run_keeps.
    + apply update_daily_price_keeps. reflexivity.
    + apply daily_financial_metrics_keeps. reflexivity.
    + now apply daily_insider_trades_stale_keeps.
    + apply daily_news_keeps. reflexivity.
    + apply daily_valuation_keeps. reflexivity.
  - destruct (daily_avoids_sse env Hno s) as (l1 & H1 & N1).
    destruct (daily_avoids_szse env Hno s) as (l2 & H2 & N2).
    exact (@avoids_both _ _ _ _ _ _ H1 N1 H2 N2).
  - intros Hgate Hrows. apply daily_run_sees_trades; [exact Hgate|].
    unfold after_daily_trades, exec.
    destruct (daily_insider_trades_stale env (after_daily_metrics env symbol s)
                Hno Hcol) as (st' & l & -> & _ & Hl).
    rewrite (Hl Hrows). cbn [snd trace]. apply in_or_app. right.
    right. now left.
Qed.

Lemma daily_unsupported_symbol_witness :
  let s' := exec (StockDataLoader.update_daily_data Examples.daily_env "900901")
                 (open_session Examples.store_with_history []) in
  stock_insider_trades (db s') = [Examples.stored_trade] /\
  In (Log ERROR "更新内部交易时发生错误: {str(e)}") (trace s').
Proof.
  intros s'.
  destruct (@daily_unsupported_symbol Examples.daily_env "900901"
              Examples.store_with_history []) as (Htbl & _ & Hlog).
  - vm_compute. repeat split.
  - intros d [= <-]. vm_compute. reflexivity.
  - split; [exact Htbl|]. apply Hlog.
    + vm_compute. reflexivity.
    + intros d [= <-]. vm_compute. reflexivity.
Defined.

(** X12. The daily run on a news frame that has rows and no column of the
    time: the filter on that column raises before the loop, so that
    nothing of the frame is stored, also when it has the column of the
    date that the loop would fall back to; the news stay as they are
    and an open run logs the error. *)
Theorem daily_news_needs_time_column (env : Env) (symbol : string) (st : Store)
  (tr : list Event) (d : DataFrame) :
  stock_news_em (ak env) symbol = Ok (Some d) ->
  empty d = false ->
  has_column d "时间" = false ->
  let s' := exec (StockDataLoader.update_daily_data env symbol)
                 (open_session st tr) in
  stock_news (db s') = stock_news st /\
  (StockDataLoader.updated_today env symbol st = false ->
   In (Log ERROR "更新今日新闻时发生错误: {str(e)}") (trace s')).
Proof.
  intros Hfetch Hempty Hcol s'. subst s'. set (s := open_session st tr). split.
  - apply (@keeps_exec _ _ stock_news
             (StockDataLoader.update_daily_data env symbol) s); [|reflexivity].
    apply daily_run_keeps.
    + apply update_daily_price_keeps. reflexivity.
    + apply daily_financial_metrics_keeps. reflexivity.
    + apply daily_insider_trades_keeps. reflexivity.
    + intros s0 Hc. rewrite (daily_news_no_time env symbol s0 Hfetch Hempty Hcol).
      cbn [snd db cur]. now split.
    + apply daily_valuation_keeps. reflexivity.
  - intros Hgate. apply daily_run_sees_news; [exact Hgate|].
    unfold after_daily_news, exec.
    rewrite (daily_news_no_time env symbol _ Hfetch Hempty Hcol).
    cbn [snd trace]. apply in_or_app. right. right. right. now left.
Qed.

Lemma daily_news_needs_time_column_witness :
  let frame :=
    mkDataFrame ["日期"; "标题"; "链接"]
      [[PyDate Examples.clock; PyStr "headline"; PyStr "http://news"]] in
  let env :=
    Examples.environment
      (Examples.provider Examples.failing Examples.failing (Ok (Some frame))
         Examples.failing) in
  let s' := exec (StockDataLoader.update_daily_data env Examples.symbol)
                 (open_session empty_store []) in
  stock_news (db s') = [] /\
  In (Log ERROR "更新今日新闻时发生错误: {str(e)}") (trace s').
Proof.
  intros frame env s'.
  destruct (@daily_news_needs_time_column env Examples.symbol empty_store []
              frame) as [Htbl Hlog].
  1-3: vm_compute; reflexivity.
  split; [exact Htbl|]. apply Hlog. vm_compute. reflexivity.
Defined.

(** ** [update_valuation_info] on values that are numbers *)

Section ValuationNumbers.
Variable env : Env.
Variable symbol : string.

Lemma update_valuation_info_commits (s : State) (d : DataFrame) (info : Series) :
  stock_individual_info_em (ak env) (StockDataLoader.query_symbol symbol)
    = Ok (Some d) ->
  empty d = false ->
  has_column d "item" = true ->
  has_column d "value" = true ->
  info_dict_of (iterrows d) [] = Ok info ->
  commit_fails env ValuationSnapshot = false ->
  exists tr,
    StockDataLoader.update_valuation_info env symbol s =
    (Ok tt,
     let st :=
       set_stock_valuation_info
         (merge_valuation_tbl
            (StockValuationInfo.mk symbol
               (field_value env info "总市值") (field_value env info "总股本")
               (field_value env info "流通股本")
               (field_value env info "市盈率(动)")
               (field_value env info "市净率") (now env))
            (stock_valuation_info (cur s))) (cur s) in
     mkState st st tr).
Proof.
  intros Hfetch Hempty Hitem Hvalue Hinfo Hcommit.
  unfold StockDataLoader.update_valuation_info. mrun.
  rewrite Hfetch. mrun. rewrite Hempty. mrun. rewrite Hitem, Hvalue.
  cbn [negb orb]. rewrite Hinfo. mrun.
  repeat (match goal with
          | |- context [StockDataLoader.valuation_field env info ?l ?m ?st] =>
              let tr := fresh "l" in
              destruct (run_valuation_field env info l m st) as [tr ->]; mrun
          end).
  rewrite run_merge_valuation. mrun. eauto.
Qed.


End ValuationNumbers.



(** ** The responses of [data_fetcher.py] *)

From Stdlib Require Import Permutation Sorted.

Section Ordering.
Context {R : Type}.
Variable col : R -> Z.

(** Newest first. *)
Definition newer_first (a b : R) : Prop := col b <= col a.

Lemma insert_desc_perm (x : R) (l : list R) :
  Permutation (insert_desc col x l) (x :: l).
Proof.
  induction l as [|y l IH]; simpl; [reflexivity|].
  destruct (col y <=? col x); [reflexivity|].
  rewrite IH. apply perm_swap.
Qed.

Lemma order_by_desc_perm (l : list R) : Permutation (order_by_desc col l) l.
Proof.
  induction l as [|x l IH]; simpl; [reflexivity|].
  rewrite insert_desc_perm. now constructor.
Qed.

Lemma insert_desc_sorted (x : R) (l : list R) :
  StronglySorted newer_first l -> StronglySorted newer_first (insert_desc col x l).
Proof.
  induction l as [|y l IH]; simpl; intros H.
  - constructor; [constructor | constructor].
  - inversion H as [|? ? Hl Hy]; subst.
    destruct (col y <=? col x) eqn:E.
    + apply Z.leb_le in E. constructor; [exact H|].
      constructor; [exact E|].
      rewrite Forall_forall in *. intros z Hz. specialize (Hy z Hz).
      unfold newer_first in *. lia.
    + apply Z.leb_gt in E. constructor; [now apply IH|].
      rewrite Forall_forall in *. intros z Hz.
      apply (Permutation_in _ (insert_desc_perm x l)) in Hz.
      destruct Hz as [<-|Hz]; [unfold newer_first; lia | now apply Hy].
Qed.

Lemma order_by_desc_sorted (l : list R) :
  StronglySorted newer_first (order_by_desc col l).
Proof.
  induction l as [|x l IH]; simpl; [constructor | now apply insert_desc_sorted].
Qed.
End Ordering.

Lemma comprehension_length {A B : Type} (f : A -> result B) (l : list A)
  (rs : list B) :
  comprehension f l = Ok rs -> List.length rs = List.length l.
Proof.
  revert rs. induction l as [|x l IH]; simpl; intros rs H.
  - now injection H as <-.
  - destruct (f x); cbn [rbind] in H; [|discriminate].
    destruct (comprehension f l) as [rs'|]; cbn [rbind] in H; [|discriminate].
    injection H as <-. simpl. now rewrite (IH rs').
Qed.

Lemma comprehension_raises {A B : Type} (f : A -> result B) (l : list A)
  (x : A) (e : exn) :
  In x l -> f x = Raise e -> exists e', comprehension f l = Raise e'.
Proof.
  induction l as [|y l IH]; simpl; [contradiction|].
  intros [->|Hin] Hx.
  - rewrite Hx. now exists e.
  - destruct (f y); cbn [rbind]; [|eauto].
    destruct (IH Hin Hx) as [e' ->]. cbn [rbind]. eauto.
Qed.

Section Prices.
Variable Price : Type.
Variable mkPrice :
  pyfloat -> pyfloat -> pyfloat -> pyfloat -> Z -> Z -> result Price.
Variable dump_price : Price -> Series.
Variable files : Files.
Variable ticker : string.

(** The stored prices of the ticker. *)
Definition prices_of (st : Store) : list StockDaily.t :=
  filter (fun r => String.eqb (StockDaily.symbol r) ticker) (stock_daily st).

(** The [Price(...)] call of [get_price_response] on one row. *)
Definition price_of_stored (row : StockDaily.t) : result Price :=
  let? volume := py_int (StockDaily.volume row) in
  mkPrice (StockDaily.open row) (StockDaily.close row) (StockDaily.high row)
          (StockDaily.low row) volume (date_of (StockDaily.trade_date row)).

Lemma get_price_response_rows (st : Store) :
  files ticker = Some st ->
  DataFetcher.get_price_response mkPrice files ticker =
  let? prices :=
    comprehension price_of_stored
      (order_by_desc StockDaily.trade_date (prices_of st)) in
  Ok (ticker, prices).
Proof.
  intros Hfile. unfold DataFetcher.get_price_response, DataFetcher.get_db_session.
  now rewrite Hfile.
Qed.
End Prices.

(** X14. [Cache.get_prices] on a database that exists, when it answers a
    list: nothing is printed, and the list holds one dictionary per
    stored price of the ticker, built from the stored rows ordered by
    trade date, the newest first. *)
Theorem get_prices_newest_first (Price : Type)
  (mkPrice : pyfloat -> pyfloat -> pyfloat -> pyfloat -> Z -> Z -> result Price)
  (dump_price : Price -> Series) (files : Files) (ticker : string)
  (st : Store) (answer : list Series) (printed : list string) :
  files ticker = Some st ->
  DataFetcher.get_prices mkPrice files dump_price ticker = (Some answer, printed) ->
  printed = [] /\
  List.length answer = List.length (prices_of ticker st) /\
  exists rows prices,
    Permutation rows (prices_of ticker st) /\
    StronglySorted (newer_first StockDaily.trade_date) rows /\
    comprehension (price_of_stored mkPrice) rows = Ok prices /\
    answer = map dump_price prices.
Proof.
  intros Hfile. unfold DataFetcher.get_prices.
  rewrite (get_price_response_rows mkPrice files ticker Hfile).
  destruct (comprehension (price_of_stored mkPrice) _) as [prices|e] eqn:E;
    cbn [rbind snd].
  - intros [= <- <-]. split; [reflexivity|]. split.
    + rewrite length_map, (comprehension_length _ _ E).
      apply Permutation_length, order_by_desc_perm.
    + exists (order_by_desc StockDaily.trade_date (prices_of ticker st)), prices.
      split; [apply order_by_desc_perm|].
      split; [apply order_by_desc_sorted|]. now split.
  - destruct e; discriminate.
Qed.

Definition two_prices : Store :=
  set_stock_daily
    [StockDaily.mk (Some 1) Examples.symbol Examples.d_2024_06_15 (Fnum 9)
       (Fnum 11) (Fnum 8) (Fnum 10) (Fnum 900) (Fnum 9000);
     Examples.stored_price 2] empty_store.

Lemma get_prices_newest_first_witness :
  let files := fun _ : string => Some two_prices in
  let dump := fun p : pyfloat * Z => [("close", PyFloat (fst p)); ("time", PyDate (snd p))] in
  let answer := [dump (Fnum 11, date_of Examples.d_2024_06_30);
                 dump (Fnum 10, date_of Examples.d_2024_06_15)] in
  DataFetcher.get_prices plain_price files dump Examples.symbol = (Some answer, []) /\
  List.length answer = List.length (prices_of Examples.symbol two_prices).
Proof.
  intros files dump answer.
  assert (H : DataFetcher.get_prices plain_price files dump Examples.symbol
              = (Some answer, [])) by (vm_compute; reflexivity).
  split; [exact H|].
  destruct (@get_prices_newest_first _ plain_price dump files Examples.symbol
              two_prices answer [] eq_refl H) as (_ & Hlen & _).
  exact Hlen.
Defined.

(** X15. One stored price whose volume is NaN hides every price of the
    ticker: [int] of the volume raises while the response is built, and
    [Cache.get_prices] answers [None]. *)
Theorem nan_volume_hides_prices (Price : Type)
  (mkPrice : pyfloat -> pyfloat -> pyfloat -> pyfloat -> Z -> Z -> result Price)
  (dump_price : Price -> Series) (files : Files) (ticker : string)
  (st : Store) (r : StockDaily.t) :
  files ticker = Some st ->
  In r (stock_daily st) ->
  StockDaily.symbol r = ticker ->
  StockDaily.volume r = Fnan ->
  fst (DataFetcher.get_prices mkPrice files dump_price ticker) = None.
Proof.
  intros Hfile Hin Hsym Hvol. unfold DataFetcher.get_prices.
  rewrite (get_price_response_rows mkPrice files ticker Hfile).
  destruct (@comprehension_raises _ _ (price_of_stored mkPrice)
              (order_by_desc StockDaily.trade_date (prices_of ticker st))
              r ValueError) as [e ->].
  - apply (Permutation_in _ (Permutation_sym (order_by_desc_perm _ _))).
    apply filter_In. split; [exact Hin|]. rewrite Hsym. apply String.eqb_refl.
  - unfold price_of_stored. now rewrite Hvol.
  - cbn [rbind]. now destruct e.
Qed.

Lemma nan_volume_hides_prices_witness :
  let bad := StockDaily.mk (Some 3) Examples.symbol Examples.d_2024_06_01
               (Fnum 9) (Fnum 11) (Fnum 8) (Fnum 10) Fnan (Fnum 9000) in
  let st := set_stock_daily (stock_daily two_prices ++ [bad]) empty_store in
  fst (DataFetcher.get_prices plain_price (fun _ => Some st) no_series
         Examples.symbol) = None.
Proof.
  intros bad st.
  apply (@nan_volume_hides_prices _ plain_price no_series (fun _ => Some st)
           Examples.symbol st bad).
  - reflexivity.
  - vm_compute. auto.
  - reflexivity.
  - reflexivity.
Defined.

(** ** The value of an insider trade *)



(** ** [get_company_facts_response] and [load_all_data] *)

Module Loading.
Section Responses.

(** The response classes of [src/data/models.py], as in [DataFetcher];
    [CompanyFacts] takes the ticker, the name, the industry, the
    exchange, the listing date, the location, the market value and the
    weighted average shares. *)
Variables Price FinancialMetrics InsiderTrade CompanyNews CompanyFacts : Type.
Variable mkPrice :
  pyfloat -> pyfloat -> pyfloat -> pyfloat -> Z -> Z -> result Price.
Variable mkFinancialMetrics :
  string -> Z -> pyfloat -> pyfloat -> pyfloat -> pyfloat ->
  option pyfloat -> option pyfloat -> option pyfloat -> result FinancialMetrics.
Variable mkInsiderTrade :
  string -> pyval -> Z -> Z -> pyfloat -> Z -> option pyfloat ->
  result InsiderTrade.
Variable mkCompanyNews :
  string -> pyval -> Z -> string -> pyval -> result CompanyNews.
Variable mkCompanyFacts :
  string -> pyval -> pyval -> string -> pyval -> pyval ->
  option pyfloat -> option Z -> result CompanyFacts.
Variable files : Files.

(** [select(StockBasic).where(symbol == symbol)] then [.scalar()]: the
    first row, or [None]. *)
Definition basic_of (symbol : string) (session : Store) : option StockBasic.t :=
  hd_error (filter (fun r => String.eqb (StockBasic.symbol r) symbol)
                   (stock_basic session)).

(** [int(valuation.outstanding_shares) if valuation and
    valuation.outstanding_shares else None] *)
Definition weighted_average_shares (valuation : option StockValuationInfo.t)
  : result (option Z) :=
  match valuation with
  | Some v =>
      if truthy (PyFloat (StockValuationInfo.outstanding_shares v))
      then let? n := py_int (StockValuationInfo.outstanding_shares v) in
           Ok (Some n)
      else Ok None
  | None => Ok None
  end.

Definition get_company_facts_response (symbol : string) : result CompanyFacts :=
  DataFetcher.get_db_session files symbol (fun session =>
    let basic := basic_of symbol session in
    let valuation :=
      first_desc StockValuationInfo.update_date
        (filter (fun r => String.eqb (StockValuationInfo.symbol r) symbol)
                (stock_valuation_info session)) in
    match basic with
    | None => Raise ValueError
    | Some basic =>
        let market_cap := option_map StockValuationInfo.market_cap valuation in
        let? shares := weighted_average_shares valuation in
        mkCompanyFacts symbol (StockBasic.name basic) (StockBasic.industry basic)
          (StockBasic.market basic) (StockBasic.list_date basic)
          (StockBasic.area basic) market_cap shares
    end).

(** The dictionary [load_all_data] returns. *)
Record AllData : Type := mkAllData {
  prices : string * list Price;
  financial_metrics : list FinancialMetrics;
  insider_trades : list InsiderTrade;
  news : list CompanyNews;
  company_facts : CompanyFacts
}.

(** What [load_all_data] does: it returns the dictionary, or raises a
    plain [Exception] whose message quotes the exception it met. *)
Inductive loaded : Type :=
| Loaded (data : AllData)
| LoadingFailed (cause : exn).

Definition load_all_data (symbol : string) : loaded :=
  match (let? p := DataFetcher.get_price_response mkPrice files symbol in
         let? m := DataFetcher.get_financial_metrics_response
                     mkFinancialMetrics files symbol in
         let? t := DataFetcher.get_insider_trade_response
                     mkInsiderTrade files symbol in
         let? n := DataFetcher.get_company_news_response
                     mkCompanyNews files symbol in
         let? f := get_company_facts_response symbol in
         Ok (mkAllData p m t n f)) with
  | Ok data => Loaded data
  | Raise e => LoadingFailed e
  end.

End Responses.

Arguments Loaded {Price FinancialMetrics InsiderTrade CompanyNews CompanyFacts} data.
Arguments LoadingFailed
  {Price FinancialMetrics InsiderTrade CompanyNews CompanyFacts} cause.
End Loading.

(** X17. [load_all_data] needs the basic information of the symbol. On a
    database that has no [stock_basic] row of the symbol it raises,
    whatever the other tables hold and whatever the response classes
    accept, and the exception it raises quotes the missing basic
    information when the four other responses were built. On a symbol
    without a database file the [FileNotFoundError] of the session
    factory ends up quoted in a plain exception as well, where the
    accessors of [Cache] answer [None]. *)
Theorem load_all_data_needs_basic
  (Price FinancialMetrics InsiderTrade CompanyNews CompanyFacts : Type)
  (mkPrice : pyfloat -> pyfloat -> pyfloat -> pyfloat -> Z -> Z -> result Price)
  (mkFinancialMetrics :
     string -> Z -> pyfloat -> pyfloat -> pyfloat -> pyfloat ->
     option pyfloat -> option pyfloat -> option pyfloat ->
     result FinancialMetrics)
  (mkInsiderTrade :
     string -> pyval -> Z -> Z -> pyfloat -> Z -> option pyfloat ->
     result InsiderTrade)
  (mkCompanyNews :
     string -> pyval -> Z -> string -> pyval -> result CompanyNews)
  (mkCompanyFacts :
     string -> pyval -> pyval -> string -> pyval -> pyval ->
     option pyfloat -> option Z -> result CompanyFacts)
  (files : Files) (symbol : string) :
  let load := Loading.load_all_data mkPrice mkFinancialMetrics mkInsiderTrade
                mkCompanyNews mkCompanyFacts files symbol in
  (files symbol = None -> load = Loading.LoadingFailed FileNotFoundError) /\
  (forall st,
     files symbol = Some st ->
     (forall b, In b (stock_basic st) -> StockBasic.symbol b <> symbol) ->
     (exists e, load = Loading.LoadingFailed e) /\
     (forall p m t n,
        DataFetcher.get_price_response mkPrice files symbol = Ok p ->
        DataFetcher.get_financial_metrics_response mkFinancialMetrics files symbol
          = Ok m ->
        DataFetcher.get_insider_trade_response mkInsiderTrade files symbol = Ok t ->
        DataFetcher.get_company_news_response mkCompanyNews files symbol = Ok n ->
        load = Loading.LoadingFailed ValueError)).
Proof.
  intros load. subst load. split.
  - intros Hfile. unfold Loading.load_all_data.
    now rewrite get_price_response_missing.
  - intros st Hfile Hnone.
    assert (Hfacts : Loading.get_company_facts_response mkCompanyFacts files symbol
                     = Raise ValueError).
    { unfold Loading.get_company_facts_response, DataFetcher.get_db_session.
      rewrite Hfile. unfold Loading.basic_of.
      destruct (filter _ (stock_basic st)) as [|b l] eqn:E; [reflexivity|].
      assert (Hb : In b (filter (fun r => String.eqb (StockBasic.symbol r) symbol)
                                (stock_basic st))) by (rewrite E; now left).
      apply filter_In in Hb. destruct Hb as [Hin Hsym].
      apply String.eqb_eq in Hsym. now destruct (Hnone b Hin). }
    unfold Loading.load_all_data. rewrite Hfacts. split.
    + destruct (DataFetcher.get_price_response _ _ _); cbn [rbind]; [|eauto].
      destruct (DataFetcher.get_financial_metrics_response _ _ _); cbn [rbind];
        [|eauto].
      destruct (DataFetcher.get_insider_trade_response _ _ _); cbn [rbind];
        [|eauto].
      destruct (DataFetcher.get_company_news_response _ _ _); cbn [rbind]; eauto.
    + intros p m t n -> -> -> ->. reflexivity.
Qed.

Definition plain_facts (ticker : string) (name industry : pyval)
  (exchange : string) (listing_date location : pyval)
  (market_cap : option pyfloat) (shares : option Z) : result (string * pyval) :=
  Ok (ticker, name).

Lemma load_all_data_needs_basic_witness :
  Loading.load_all_data plain_price plain_metrics plain_trade plain_news
    plain_facts one_database Examples.symbol = Loading.LoadingFailed ValueError /\
  Loading.load_all_data plain_price plain_metrics plain_trade plain_news
    plain_facts one_database "000001" = Loading.LoadingFailed FileNotFoundError.
Proof.
  split.
  - destruct (@load_all_data_needs_basic _ _ _ _ _ plain_price plain_metrics
                plain_trade plain_news plain_facts one_database Examples.symbol)
      as [_ H].
    destruct (H Examples.store_with_history) as [_ H'].
    + vm_compute. reflexivity.
    + intros b [].
    + eapply H'; vm_compute; reflexivity.
  - destruct (@load_all_data_needs_basic _ _ _ _ _ plain_price plain_metrics
                plain_trade plain_news plain_facts one_database "000001")
      as [H _].
    apply H. vm_compute. reflexivity.
Defined.

(** ** [update_daily_data(symbol)] and the directory of databases *)

(** X18. The function [update_daily_data] on a directory of databases:
    after the call the symbol has a database, created when it was
    missing, which holds every primary key it held before; and the
    database of no other symbol is touched. *)
Theorem update_daily_data_files (env : Env) (symbol : string) (fs : Files)
  (tr : list Event) :
  let fs' := fst (update_daily_data env symbol fs tr) in
  (forall other, other <> symbol -> fs' other = fs other) /\
  exists st', fs' symbol = Some st' /\ keys_within (new_loader fs symbol) st'.
Proof.
  intros fs'. subst fs'. unfold update_daily_data.
  destruct (fs symbol) as [st|] eqn:Hfile.
  - destruct (StockDataLoader.updated_today env symbol st); cbn [fst].
    + split; [reflexivity|]. exists st. split; [exact Hfile|].
      unfold new_loader. rewrite Hfile. apply keys_within_refl.
    + split.
      * intros other Hother. unfold write_file.
        now destruct (String.eqb_spec other symbol).
      * eexists. split; [unfold write_file; now rewrite String.eqb_refl|].
        apply update_all_data_keys.
  - cbn [fst]. split.
    + intros other Hother. unfold write_file.
      now destruct (String.eqb_spec other symbol).
    + eexists. split; [unfold write_file; now rewrite String.eqb_refl|].
      apply update_all_data_keys.
Qed.

(** ** [update_stock_history]: what the prune leaves *)

Lemma steady_bind_lift (R : State -> State -> Prop) {A B}
  (r : result A) (k : A -> M B) :
  (forall s, R s s) ->
  (forall a, r = Ok a -> steady R (k a)) -> steady R (bind (lift r) k).
Proof.
  intros Hrefl Hk s. unfold bind, lift. destruct r as [a|e]; simpl.
  - now apply Hk.
  - apply Hrefl.
Qed.

Lemma steady_for_each_in (R : State -> State -> Prop) {A}
  (l : list A) (body : A -> M unit) :
  (forall s, R s s) -> (forall a b c, R a b -> R b c -> R a c) ->
  (forall x, In x l -> steady R (body x)) -> steady R (for_each l body).
Proof.
  intros Hrefl Htrans. unfold for_each.
  induction l as [|x l IH]; intros Hb; simpl.
  - now apply steady_ret.
  - apply steady_bind; [exact Htrans | apply Hb; now left |].
    intros []. apply IH. intros y Hy. apply Hb. now right.
Qed.

Lemma delete_where_merge_keys {R K : Type} (pk : R -> K)
  (K_eq_dec : forall a b : K, {a = b} + {a <> b}) (old : R -> bool)
  (r : R) (tbl : list R) :
  (forall x, In x tbl -> pk x = pk r -> old x = false -> old r = false) ->
  incl (map pk (delete_where old tbl))
       (map pk (delete_where old (merge pk K_eq_dec r tbl))).
Proof.
  intros Hold k Hk. apply in_map_iff in Hk. destruct Hk as (x & <- & Hx).
  apply filter_In in Hx. destruct Hx as [Hin Hkeep].
  apply negb_true_iff in Hkeep.
  destruct (K_eq_dec (pk x) (pk r)) as [E|N].
  - rewrite E. apply in_map. apply filter_In. split; [apply In_merge_self|].
    apply negb_true_iff. now apply (Hold x).
  - apply in_map. apply filter_In. split; [now apply In_merge_other|].
    now apply negb_true_iff.
Qed.

Lemma delete_where_twice {R : Type} (old : R -> bool) (tbl : list R) :
  delete_where old (delete_where old tbl) = delete_where old tbl.
Proof.
  unfold delete_where. induction tbl as [|x tbl IH]; simpl; [reflexivity|].
  destruct (old x) eqn:E; simpl; [exact IH|]. now rewrite E, IH.
Qed.

Lemma delete_where_keys {R K : Type} (pk : R -> K) (old : R -> bool)
  (tbl : list R) :
  incl (map pk (delete_where old tbl)) (map pk tbl).
Proof.
  intros k Hk. apply in_map_iff in Hk. destruct Hk as (x & <- & Hx).
  apply filter_In in Hx. now apply in_map.
Qed.

Section Prune.
Variable env : Env.
Variable symbol : string.

(** The news and the snapshots the prune leaves: those of another
    symbol, and those of the symbol that are not older than thirty
    days. *)
Definition news_left (st : Store) : list StockNews.t :=
  delete_where (old_news env symbol) (stock_news st).

Definition valuation_left (st : Store) : list StockValuationInfo.t :=
  delete_where (old_valuation env symbol) (stock_valuation_info st).

Lemma valuation_of_info_fields (info : Series) (u : Z) (v : StockValuationInfo.t) :
  StockDataLoader.valuation_of_info env symbol info u = Ok v ->
  StockValuationInfo.symbol v = symbol /\ StockValuationInfo.update_date v = u.
Proof.
  unfold StockDataLoader.valuation_of_info.
  repeat (match goal with
          | |- context [StockDataLoader.info_float ?e ?i ?l] =>
              destruct (StockDataLoader.info_float e i l); cbn [rbind];
              [|discriminate]
          end).
  intros [= <-]. now split.
Qed.

Lemma history_keeps_news_left (full : bool) :
  steady (keys_kept news_left StockNews.pk)
         (StockDataLoader.update_stock_history env symbol full).
Proof.
  unfold_history. steady_tac.
  - apply keys_kept_modify. intros st. unfold news_left.
    cbn [stock_news set_stock_news]. apply delete_where_merge_keys.
    intros x0 _ Hpk. unfold StockNews.pk in Hpk. injection Hpk as Hs _ Hd.
    unfold old_news, StockDataLoader.of_symbol. now rewrite Hs, Hd.
  - apply keys_kept_modify. intros st. unfold news_left.
    cbn [stock_news set_stock_news].
    fold (cutoff env). fold (old_news env symbol).
    rewrite delete_where_twice. apply incl_refl.
Qed.
End Prune.

(** As [steady_step], remembering what a pure step returned. *)
Ltac steady_step_lift :=
  lazymatch goal with
  | |- steady _ (bind (lift _) _) =>
      apply steady_bind_lift; [eauto with steady | intros ? ?]
  | |- _ => steady_step
  end.

Ltac steady_tac_lift := cbv zeta; repeat (steady_step_lift; cbv zeta).

Section PruneValuation.
Variable env : Env.
Variable symbol : string.

Lemma history_keeps_valuation_left (full : bool) :
  steady (keys_kept (valuation_left env symbol) StockValuationInfo.pk)
         (StockDataLoader.update_stock_history env symbol full).
Proof.
  unfold_history. steady_tac_lift.
  - apply keys_kept_modify. intros st. unfold valuation_left.
    cbn [stock_valuation_info set_stock_valuation_info].
    apply delete_where_merge_keys. intros x0 _ _ _.
    match goal with
    | H : StockDataLoader.valuation_of_info _ _ _ _ = Ok _ |- _ =>
        apply valuation_of_info_fields in H; destruct H as [_ Hdate]
    end.
    unfold old_valuation. rewrite Hdate.
    replace (now env <? cutoff env) with false; [apply andb_false_r|].
    symmetry. apply Z.ltb_ge. unfold cutoff, thirty_days_before, day. lia.
  - apply keys_kept_modify. intros st. unfold valuation_left.
    cbn [stock_valuation_info set_stock_valuation_info].
    fold (cutoff env). fold (old_valuation env symbol).
    rewrite delete_where_twice. apply incl_refl.
Qed.

Lemma history_keeps_table {X} (P : Store -> X) (full : bool) :
  (forall v st, P (set_stock_financial_metrics v st) = P st) ->
  (forall v st, P (set_stock_insider_trades v st) = P st) ->
  (forall v st, P (set_stock_news v st) = P st) ->
  (forall v st, P (set_stock_valuation_info v st) = P st) ->
  steady (keeps P) (StockDataLoader.update_stock_history env symbol full).
Proof. intros H1 H2 H3 H4. unfold_history. steady_tac. Qed.
End PruneValuation.

(** X19. Whatever a run of [update_stock_history] meets, in either mode: it
    leaves the basic information and the daily prices as they are; it
    removes no financial report and no insider trade; and of the news
    and of the valuation snapshots it removes none but those of its
    symbol that are older than thirty days: every key of a row of
    another symbol, or of a row not older than thirty days, is stored
    after the run. *)
Theorem update_stock_history_prunes_only_old (env : Env) (symbol : string)
  (full : bool) (st : Store) (tr : list Event) :
  let st' := db (exec (StockDataLoader.update_stock_history env symbol full)
                      (open_session st tr)) in
  stock_basic st' = stock_basic st /\
  stock_daily st' = stock_daily st /\
  incl (map StockFinancialMetrics.pk (stock_financial_metrics st))
       (map StockFinancialMetrics.pk (stock_financial_metrics st')) /\
  incl (map StockInsiderTrades.pk (stock_insider_trades st))
       (map StockInsiderTrades.pk (stock_insider_trades st')) /\
  incl (map StockNews.pk (news_left env symbol st))
       (map StockNews.pk (stock_news st')) /\
  incl (map StockValuationInfo.pk (valuation_left env symbol st))
       (map StockValuationInfo.pk (stock_valuation_info st')).
Proof.
  intros st'. subst st'. set (s := open_session st tr).
  split; [|split; [|split; [|split; [|split]]]].
  - apply (@keeps_exec _ _ stock_basic
             (StockDataLoader.update_stock_history env symbol full) s);
      [|reflexivity].
    apply history_keeps_table; reflexivity.
  - apply (@keeps_exec _ _ stock_daily
             (StockDataLoader.update_stock_history env symbol full) s);
      [|reflexivity].
    apply history_keeps_table; reflexivity.
  - apply keys_kept_exec. unfold_history. steady_tac.
  - apply keys_kept_exec. unfold_history. steady_tac.
  - eapply incl_tran;
      [apply (@keys_kept_exec _ _ (news_left env symbol) StockNews.pk _ _
                st tr (history_keeps_news_left env symbol full))|].
    apply delete_where_keys.
  - eapply incl_tran;
      [apply (@keys_kept_exec _ _ (valuation_left env symbol)
                StockValuationInfo.pk _ _ st tr
                (history_keeps_valuation_left env symbol full))|].
    apply delete_where_keys.
Qed.

(** ** The daily run stores the insider trades of today only *)

Ltac steady_step_in :=
  lazymatch goal with
  | |- steady _ (bind (lift _) _) =>
      apply steady_bind_lift; [eauto with steady | intros ? ?]
  | |- steady _ (for_each _ _) =>
      apply steady_for_each_in;
      [eauto with steady | eauto with steady | intros ? ?]
  | |- _ => steady_step
  end.

Ltac steady_tac_in := cbv zeta; repeat (steady_step_in; cbv zeta).

Section TradesOfToday.
Variable env : Env.
Variable symbol : string.

Lemma rows_of_today_sound (label : string) (today : Z) (rows l : list Series) :
  StockDataLoader.rows_of_today env label today rows = Ok l ->
  forall row, In row l ->
    exists cell t,
      getitem row label = Ok cell /\
      to_datetime_cell env cell = Ok (Some t) /\ date_of t = today.
Proof.
  revert l. induction rows as [|x rows IH]; simpl; intros l H row Hin.
  - injection H as <-. contradiction.
  - destruct (getitem x label) as [cell|] eqn:Hc; cbn [rbind] in H;
      [|discriminate].
    destruct (to_datetime_cell env cell) as [d|] eqn:Hd; cbn [rbind] in H;
      [|discriminate].
    destruct (StockDataLoader.rows_of_today env label today rows) as [rest|];
      cbn [rbind] in H; [|discriminate].
    destruct d as [t|]; [|injection H as <-; now apply (IH rest)].
    destruct (Z.eqb_spec (date_of t) today) as [E|N]; injection H as <-.
    + destruct Hin as [<-|Hin]; [|now apply (IH rest)].
      exists cell, t. now repeat split.
    + now apply (IH rest).
Qed.

(** An insider trade as the daily run writes it. *)
Definition trade_of_today (r : StockInsiderTrades.t) : Prop :=
  StockInsiderTrades.symbol r = symbol /\
  date_of (StockInsiderTrades.change_date r) = date_of (now env) /\
  StockInsiderTrades.update_date r = now env.

Lemma daily_run_adds_trades_of_today :
  steady (adds_only stock_insider_trades trade_of_today)
         (StockDataLoader.update_daily_data env symbol).
Proof.
  unfold_daily_data. steady_tac_in.
  match goal with
  | Hd : StockDataLoader.dated_today _ ?d _ = Ok ?l, Hin : In ?row ?l,
    Ht : StockDataLoader.trade_of_row _ _ ?row _ _ = Ok ?t |- _ =>
      rename Hd into Hdated; rename Hin into Hrow; rename Ht into Htrade;
      rename row into row0; rename d into d0; rename t into t0
  end.
  unfold StockDataLoader.dated_today in Hdated.
  destruct (has_column d0 "变动日期"); [|discriminate Hdated].
  destruct (rows_of_today_sound _ _ _ Hdated row0 Hrow)
    as (cell & t1 & Hcell & Hconv & Hday).
  unfold StockDataLoader.change_date_of, get, to_datetime in Htrade.
  unfold getitem in Hcell.
  destruct (lookup row0 "变动日期"); [|discriminate Hcell].
  injection Hcell as ->. rewrite Hconv in Htrade. cbn [rbind] in Htrade.
  apply trade_of_row_fields in Htrade. destruct Htrade as (Hs & Hc & Hu).
  apply adds_only_modify. intros st0 y Hy.
  cbn [stock_insider_trades set_stock_insider_trades] in Hy.
  destruct (In_merge _ _ _ _ _ Hy) as [->|Hold]; [right | now left].
  unfold trade_of_today. rewrite Hs, Hc, Hu. now repeat split.
Qed.
End TradesOfToday.

(** X20. Whatever a run of [update_daily_data] meets, every insider trade
    found in the store after it was there before, or is a trade of the
    loader's symbol whose change date falls on the calendar day of the
    clock, stamped with the clock. *)
Theorem daily_trades_of_today (env : Env) (symbol : string) (st : Store)
  (tr : list Event) (r : StockInsiderTrades.t) :
  In r (stock_insider_trades
          (db (exec (StockDataLoader.update_daily_data env symbol)
                    (open_session st tr)))) ->
  In r (stock_insider_trades st) \/ trade_of_today env symbol r.
Proof.
  intros Hr.
  apply (adds_only_exec (tbl := stock_insider_trades) (open_session st tr)
           (daily_run_adds_trades_of_today env symbol)); [reflexivity | exact Hr].
Qed.

Lemma daily_trades_of_today_witness :
  let today := StockInsiderTrades.mk Examples.symbol (PyStr "Zhao")
                 (Examples.clock - 3600) (PyStr "buy") 200 (Fnum 7)
                 Examples.clock in
  let frame :=
    mkDataFrame Examples.trades_columns
      [[PyStr "Zhao"; Examples.num 200; Examples.num 7;
        PyDate (Examples.clock - 3600); PyStr "buy"];
       [PyStr "Li"; Examples.num 500; Examples.num 9;
        PyDate Examples.d_2024_06_15; PyStr "sell"]] in
  let env :=
    Examples.environment
      (Examples.provider Examples.failing (Ok (Some frame)) Examples.failing
         Examples.failing) in
  stock_insider_trades
    (db (exec (StockDataLoader.update_daily_data env Examples.symbol)
              (open_session Examples.store_with_history []))) =
    [Examples.stored_trade; today] /\
  (In today (stock_insider_trades Examples.store_with_history) \/
   trade_of_today env Examples.symbol today).
Proof.
  intros today frame env. split; [vm_compute; reflexivity|].
  apply (@daily_trades_of_today env Examples.symbol Examples.store_with_history
           [] today).
  vm_compute. auto.
Defined.

(** ** The news of an incremental history run *)

Section NewsNewer.
Variable env : Env.
Variable symbol : string.

Lemma history_news_row_newer (e r : StockNews.t) (row : Series) :
  history_news_row env symbol false (Some e) row = Ok (Some r) ->
  StockNews.date e < StockNews.date r.
Proof.
  unfold history_news_row.
  destruct (negb _); [discriminate|].
  destruct (to_datetime env _) as [t|]; cbn [rbind]; [|discriminate].
  destruct (t <? cutoff env); [discriminate|].
  unfold StockDataLoader.already_have. cbn [negb andb].
  destruct (t <=? StockNews.date e) eqn:L; [discriminate|].
  intros [= <-]. simpl. now apply Z.leb_gt in L.
Qed.
End NewsNewer.

(** X21. An incremental run of [update_stock_history] passes the news
    through the filter of the monotonic entities as well: every news
    item found in the store after the run was there before, or is an
    item of the symbol dated within the last thirty days and strictly
    after the newest item of the symbol that was stored within those
    thirty days. *)
Theorem history_news_newer_only (env : Env) (symbol : string) (st : Store)
  (tr : list Event) (r : StockNews.t) :
  In r (news_after env symbol false (open_session st tr)) ->
  In r (stock_news st) \/
  (StockNews.symbol r = symbol /\
   thirty_days_before (now env) <= StockNews.date r /\
   forall e,
     StockDataLoader.recent_news symbol (thirty_days_before (now env)) st = Some e ->
     StockNews.date e < StockNews.date r).
Proof.
  rewrite news_after_step by reflexivity. cbn [db open_session].
  unfold news_step.
  destruct (stock_news_em (ak env) symbol) as [[d|]|e]; [|now left|now left].
  destruct (empty d); [now left|].
  destruct (plan _ (iterrows d)) as [rs|e] eqn:Hplan; [|now left].
  destruct (commit_fails env NewsItem); [now left|].
  cbn [stock_news set_stock_news]. intros Hr.
  apply filter_In in Hr. destruct Hr as [Hr _].
  apply In_fold_merge in Hr. destruct Hr as [Hr|Hr]; [right | now left].
  destruct (plan_sound _ _ Hplan r Hr) as (row & _ & Hrow).
  destruct (history_news_row_recent _ _ _ _ _ Hrow) as [Hsym Hdate].
  split; [exact Hsym|]. split; [exact Hdate|].
  intros e He. unfold news_seen in Hrow. cbv iota in Hrow.
  unfold cutoff in Hrow. rewrite He in Hrow.
  now apply history_news_row_newer in Hrow.
Qed.

Lemma history_news_newer_only_witness :
  let st := set_stock_news [Examples.recent_news] empty_store in
  news_after Examples.busy_env Examples.symbol false (open_session st []) =
    [Examples.recent_news; Examples.fresh_news] /\
  StockNews.date Examples.recent_news < StockNews.date Examples.fresh_news.
Proof.
  intros st.
  assert (H : news_after Examples.busy_env Examples.symbol false
                (open_session st []) =
              [Examples.recent_news; Examples.fresh_news])
    by (vm_compute; reflexivity).
  split; [exact H|].
  destruct (@history_news_newer_only Examples.busy_env Examples.symbol st []
              Examples.fresh_news) as [Hold|(_ & _ & Hnewer)].
  - rewrite H. right. now left.
  - vm_compute in Hold. destruct Hold as [Hold|[]]. discriminate Hold.
  - apply Hnewer. vm_compute. reflexivity.
Defined.

(** ** The symbol [update_valuation_info] asks the provider for *)

Lemma substring_all (s : string) : String.substring 0 (String.length s) s = s.
Proof. induction s as [|c s IH]; simpl; [reflexivity | now rewrite IH]. Qed.

Lemma startswith_append (p s : string) : startswith (String.append p s) p = true.
Proof.
  unfold startswith. induction p as [|c p IH]; simpl; [now destruct s|].
  destruct (ascii_dec c c); [exact IH | congruence].
Qed.

Lemma query_symbol_prefixed (c1 c2 : ascii) (rest : string) :
  startswith (String c1 (String c2 rest)) "sh"
  || startswith (String c1 (String c2 rest)) "sz" = true ->
  StockDataLoader.query_symbol (String c1 (String c2 rest)) = rest.
Proof.
  intros H. unfold StockDataLoader.query_symbol. rewrite H.
  cbn [String.length Nat.sub String.substring]. rewrite Nat.sub_0_r.
  apply substring_all.
Qed.

(** X22. [update_valuation_info] for a symbol written with the prefix of its
    exchange, [sh] or [sz]: the provider is asked for the symbol
    without the prefix, and when it answers and the commit goes
    through the snapshot is stored under the symbol with the prefix,
    stamped with the clock. *)
Theorem update_valuation_info_strips_prefix (env : Env) (prefix rest : string)
  (st : Store) (tr : list Event) (d : DataFrame) (info : Series) :
  prefix = "sh" \/ prefix = "sz" ->
  stock_individual_info_em (ak env) rest = Ok (Some d) ->
  empty d = false ->
  has_column d "item" = true ->
  has_column d "value" = true ->
  info_dict_of (iterrows d) [] = Ok info ->
  commit_fails env ValuationSnapshot = false ->
  let symbol := String.append prefix rest in
  StockDataLoader.query_symbol symbol = rest /\
  exists v,
    find_pk StockValuationInfo.pk string_dec symbol
      (stock_valuation_info
         (db (exec (StockDataLoader.update_valuation_info env symbol)
                   (open_session st tr)))) = Some v /\
    StockValuationInfo.symbol v = symbol /\
    StockValuationInfo.update_date v = now env.
Proof.
  intros Hprefix Hfetch Hempty Hitem Hvalue Hinfo Hcommit symbol.
  assert (Hq : StockDataLoader.query_symbol symbol = rest).
  { subst symbol. destruct Hprefix as [-> | ->].
    - apply (query_symbol_prefixed "s" "h" rest).
      pose proof (startswith_append "sh" rest) as H.
      cbn [String.append] in H. now rewrite H.
    - apply (query_symbol_prefixed "s" "z" rest).
      pose proof (startswith_append "sz" rest) as H.
      cbn [String.append] in H. rewrite H. apply orb_true_r. }
  split; [exact Hq|]. unfold exec.
  destruct (update_valuation_info_commits env symbol (open_session st tr)
              (d := d) (info := info)) as [tr' ->];
    [now rewrite Hq | assumption..|].
  cbn [snd db stock_valuation_info set_stock_valuation_info].
  eexists. split.
  - match goal with
    | |- context [merge_valuation_tbl ?v ?tbl] =>
        exact (find_merge_same StockValuationInfo.pk string_dec v tbl)
    end.
  - split; reflexivity.
Qed.

Lemma update_valuation_info_strips_prefix_witness :
  let symbol := "sh600000" in
  StockDataLoader.query_symbol symbol = "600000" /\
  exists v,
    find_pk StockValuationInfo.pk string_dec symbol
      (stock_valuation_info
         (db (exec (StockDataLoader.update_valuation_info
                      Examples.partial_info_env symbol)
                   (open_session empty_store [])))) = Some v /\
    StockValuationInfo.symbol v = symbol /\
    StockValuationInfo.update_date v = Examples.clock.
Proof.
  apply (@update_valuation_info_strips_prefix Examples.partial_info_env
           "sh" "600000" empty_store [] Examples.partial_info_frame
           [("总市值", PyStr "1,000"); ("总股本", PyStr "n/a");
            ("流通股本", PyStr "90")]).
  - now left.
  - vm_compute. reflexivity.
  - vm_compute. reflexivity.
  - vm_compute. reflexivity.
  - vm_compute. reflexivity.
  - vm_compute. reflexivity.
  - vm_compute. reflexivity.
Defined.

(** ** A database that holds nothing of the ticker *)

(** X23. On a database that exists and holds no row of the ticker in a
    table, the accessor of that table answers the empty list, not
    [None], and prints nothing: no response class is called. *)
Theorem empty_tables_answer_empty_lists
  (Price FinancialMetrics InsiderTrade CompanyNews : Type)
  (mkPrice : pyfloat -> pyfloat -> pyfloat -> pyfloat -> Z -> Z -> result Price)
  (mkFinancialMetrics :
     string -> Z -> pyfloat -> pyfloat -> pyfloat -> pyfloat ->
     option pyfloat -> option pyfloat -> option pyfloat ->
     result FinancialMetrics)
  (mkInsiderTrade :
     string -> pyval -> Z -> Z -> pyfloat -> Z -> option pyfloat ->
     result InsiderTrade)
  (mkCompanyNews :
     string -> pyval -> Z -> string -> pyval -> result CompanyNews)
  (dump_price : Price -> Series)
  (dump_metric : FinancialMetrics -> Series)
  (dump_trade : InsiderTrade -> Series)
  (dump_news : CompanyNews -> Series)
  (files : Files) (ticker : string) (st : Store) :
  files ticker = Some st ->
  ((forall r, In r (stock_daily st) -> StockDaily.symbol r <> ticker) ->
   DataFetcher.get_prices mkPrice files dump_price ticker = (Some [], [])) /\
  ((forall r, In r (stock_financial_metrics st) ->
              StockFinancialMetrics.symbol r <> ticker) ->
   DataFetcher.get_financial_metrics mkFinancialMetrics files dump_metric ticker
     = (Some [], [])) /\
  ((forall r, In r (stock_insider_trades st) ->
              StockInsiderTrades.symbol r <> ticker) ->
   DataFetcher.get_insider_trades mkInsiderTrade files dump_trade ticker
     = (Some [], [])) /\
  ((forall r, In r (stock_news st) -> StockNews.symbol r <> ticker) ->
   DataFetcher.get_company_news mkCompanyNews files dump_news ticker
     = (Some [], [])).
Proof.
  intros Hfile.
  assert (Hnone : forall (R : Type) (symbol_of : R -> string) (tbl : list R),
            (forall r, In r tbl -> symbol_of r <> ticker) ->
            filter (fun r => String.eqb (symbol_of r) ticker) tbl = []).
  { intros R symbol_of tbl H. induction tbl as [|x tbl IH]; [reflexivity|].
    simpl. destruct (String.eqb_spec (symbol_of x) ticker) as [E|N].
    - destruct (H x (or_introl eq_refl) E).
    - apply IH. intros r Hr. apply H. now right. }
  repeat split; intros Hrows.
  - unfold DataFetcher.get_prices, DataFetcher.get_price_response,
      DataFetcher.get_db_session.
    rewrite Hfile, (Hnone _ StockDaily.symbol _ Hrows). reflexivity.
  - unfold DataFetcher.get_financial_metrics,
      DataFetcher.get_financial_metrics_response, DataFetcher.get_db_session.
    rewrite Hfile, (Hnone _ StockFinancialMetrics.symbol _ Hrows). reflexivity.
  - unfold DataFetcher.get_insider_trades,
      DataFetcher.get_insider_trade_response, DataFetcher.get_db_session.
    rewrite Hfile, (Hnone _ StockInsiderTrades.symbol _ Hrows). reflexivity.
  - unfold DataFetcher.get_company_news,
      DataFetcher.get_company_news_response, DataFetcher.get_db_session.
    rewrite Hfile, (Hnone _ StockNews.symbol _ Hrows). reflexivity.
Qed.

Lemma empty_tables_answer_empty_lists_witness :
  DataFetcher.get_prices plain_price one_database no_series Examples.symbol
    = (Some [], []) /\
  DataFetcher.get_company_news plain_news one_database no_series Examples.symbol
    = (Some [], []).
Proof.
  destruct (@empty_tables_answer_empty_lists _ _ _ _ plain_price plain_metrics
              plain_trade plain_news no_series no_series no_series no_series
              one_database Examples.symbol Examples.store_with_history)
    as (Hp & _ & _ & Hn).
  - vm_compute. reflexivity.
  - split; [apply Hp | apply Hn]; intros r [].
Defined.

(** ** From the loader to the cache: prices *)

Lemma comprehension_total {A B : Type} (f : A -> result B) (l : list A) :
  (forall x, In x l -> exists y, f x = Ok y) ->
  exists rs, comprehension f l = Ok rs.
Proof.
  induction l as [|x l IH]; simpl; intros H; [now exists []|].
  destruct (H x (or_introl eq_refl)) as [y ->].
  destruct IH as [rs ->]; [intros z Hz; apply H; now right|].
  cbn [rbind]. eauto.
Qed.

Lemma with_ids_length (i : Z) (ps : list StockDaily.t) :
  List.length (with_ids i ps) = List.length ps.
Proof.
  revert i. induction ps as [|p ps IH]; simpl; intros i; [reflexivity|].
  now rewrite IH.
Qed.

Lemma in_with_ids_volume (i : Z) (ps : list StockDaily.t) (x : StockDaily.t) :
  In x (with_ids i ps) ->
  exists p, In p ps /\ StockDaily.symbol x = StockDaily.symbol p /\
            StockDaily.volume x = StockDaily.volume p.
Proof.
  revert i. induction ps as [|p ps IH]; simpl; intros i; [contradiction|].
  intros [<-|H].
  - exists p. split; [now left | now split].
  - destruct (IH _ H) as (q & Hq & E). exists q. split; [now right | exact E].
Qed.

Lemma filter_all {A : Type} (f : A -> bool) (l : list A) :
  (forall x, In x l -> f x = true) -> filter f l = l.
Proof.
  induction l as [|x l IH]; simpl; intros H; [reflexivity|].
  rewrite (H x (or_introl eq_refl)), IH; [reflexivity|].
  intros y Hy. apply H. now right.
Qed.

(** X24. What [update_stock_price] stores, [Cache.get_prices] serves: after
    a run whose rows all map and whose commit goes through, on a
    database whose volumes are numbers and with a response class that
    accepts every row, the accessor answers a list with one dictionary
    for each price of the symbol stored before and one for each row
    fetched. *)
Theorem stored_prices_are_served (Price : Type)
  (mkPrice : pyfloat -> pyfloat -> pyfloat -> pyfloat -> Z -> Z -> result Price)
  (dump_price : Price -> Series) (env : Env) (symbol : string) (fs : Files)
  (st : Store) (tr : list Event) (d : DataFrame) (ps : list StockDaily.t) :
  (forall o c h l v t, exists p, mkPrice o c h l v t = Ok p) ->
  stock_zh_a_hist (ak env) symbol None = Ok (Some d) ->
  empty d = false ->
  comprehension (StockDataLoader.price_of_dated_row env symbol) (iterrows d)
    = Ok ps ->
  commit_fails env DailyPrice = false ->
  (forall r, In r (stock_daily st) -> StockDaily.volume r <> Fnan) ->
  (forall p, In p ps -> StockDaily.volume p <> Fnan) ->
  let st' := db (exec (StockDataLoader.update_stock_price env symbol)
                      (open_session st tr)) in
  exists answer,
    DataFetcher.get_prices mkPrice (write_file fs symbol st') dump_price symbol
      = (Some answer, []) /\
    List.length answer =
      (List.length (prices_of symbol st) + List.length ps)%nat.
Proof.
  intros Htotal Hfetch Hempty Hmap Hcommit Hold Hnew st'.
  assert (Htbl : stock_daily st' =
                 stock_daily st ++ with_ids (next_id (stock_daily st)) ps).
  { exact (update_stock_price_commits env symbol (open_session st tr)
             Hfetch Hempty Hmap Hcommit). }
  assert (Hsym : forall p, In p ps -> StockDaily.symbol p = symbol).
  { intros p Hp.
    assert (H : Forall (fun p => StockDaily.symbol p = symbol) ps).
    { apply (comprehension_all
               (StockDataLoader.price_of_dated_row env symbol)
               (fun p => StockDaily.symbol p = symbol) (iterrows d));
        [|exact Hmap].
      intros row r. unfold StockDataLoader.price_of_dated_row.
      destruct (getitem row "日期") as [cell|]; cbn [rbind]; [|discriminate].
      destruct (to_datetime env cell) as [t|]; cbn [rbind]; [|discriminate].
      intros H. now apply price_of_row_fields in H. }
    rewrite Forall_forall in H. now apply H. }
  assert (Hfile : write_file fs symbol st' symbol = Some st').
  { unfold write_file. now rewrite String.eqb_refl. }
  unfold DataFetcher.get_prices.
  rewrite (get_price_response_rows mkPrice _ symbol Hfile).
  destruct (@comprehension_total _ _ (price_of_stored mkPrice)
              (order_by_desc StockDaily.trade_date (prices_of symbol st')))
    as [prices Hprices].
  { intros r Hr.
    apply (Permutation_in _ (order_by_desc_perm _ _)) in Hr.
    apply filter_In in Hr. destruct Hr as [Hr _]. rewrite Htbl in Hr.
    assert (Hvol : StockDaily.volume r <> Fnan).
    { apply in_app_or in Hr. destruct Hr as [Hr|Hr]; [now apply Hold|].
      destruct (in_with_ids_volume _ _ _ Hr) as (p & Hp & _ & ->).
      now apply Hnew. }
    unfold price_of_stored. destruct (StockDaily.volume r) as [|v];
      [congruence|]. cbn [py_int rbind]. apply Htotal. }
  rewrite Hprices. cbn [rbind snd]. eexists. split; [reflexivity|].
  rewrite length_map, (comprehension_length _ _ Hprices).
  rewrite (Permutation_length (order_by_desc_perm _ _)).
  unfold prices_of. rewrite Htbl, filter_app, length_app. f_equal.
  rewrite filter_all, with_ids_length; [reflexivity|].
  intros x Hx. destruct (in_with_ids_volume _ _ _ Hx) as (p & Hp & -> & _).
  rewrite (Hsym p Hp). apply String.eqb_refl.
Qed.

Lemma stored_prices_are_served_witness :
  let st := set_stock_daily [Examples.stored_price 7] empty_store in
  let st' := db (exec (StockDataLoader.update_stock_price Examples.price_env
                         Examples.symbol) (open_session st [])) in
  exists answer,
    DataFetcher.get_prices plain_price
      (write_file (fun _ => None) Examples.symbol st') no_series Examples.symbol
      = (Some answer, []) /\
    List.length answer = 2%nat.
Proof.
  intros st st'.
  apply (@stored_prices_are_served _ plain_price no_series Examples.price_env
           Examples.symbol (fun _ => None) st [] Examples.price_frame
           [StockDaily.mk None Examples.symbol Examples.d_2024_06_30
              (Fnum 10) (Fnum 12) (Fnum 9) (Fnum 11) (Fnum 1000) (Fnum 11000)]).
  - intros o c h l v t. eexists. reflexivity.
  - vm_compute. reflexivity.
  - vm_compute. reflexivity.
  - vm_compute. reflexivity.
  - vm_compute. reflexivity.
  - intros r [<-|[]]. discriminate.
  - intros p [<-|[]]. discriminate.
Defined.

(** ** [update_insider_trades]: every fetched trade, with its defaults *)

Section AllTrades.
Variable env : Env.
Variable symbol : string.




End AllTrades.



(** ** [update_stock_news]: rows that are passed over *)

Section NewsRows.
Variable env : Env.
Variable symbol : string.

(** What the loop of [update_stock_news] does with one row. *)
Definition stock_news_row (row : Series) : result (option StockNews.t) :=
  let date_str := StockDataLoader.date_str_of row in
  if negb (truthy date_str) then Ok None
  else
    let? news_date := to_datetime env date_str in
    if news_date <? thirty_days_before (now env) then Ok None
    else Ok (Some (StockDataLoader.news_of_row symbol row news_date (now env))).

Lemma stock_news_body_canon (acc : unit) (row : Series) (s : State) :
  StockDataLoader.stock_news_body env symbol (thirty_days_before (now env)) row s =
  canon put_news (fun a => a) stock_news_row acc row s.
Proof.
  destruct acc.
  unfold StockDataLoader.stock_news_body, canon, stock_news_row. cbv zeta.
  destruct (negb (truthy (StockDataLoader.date_str_of row))); [reflexivity|].
  mrun. destruct (to_datetime env _) as [t|e]; cbn [rbind]; [|reflexivity].
  destruct (t <? thirty_days_before (now env)); reflexivity.
Qed.

Lemma update_stock_news_commits (s : State) (d : DataFrame)
  (rs : list StockNews.t) :
  stock_news_em (ak env) symbol = Ok (Some d) ->
  empty d = false ->
  plan stock_news_row (iterrows d) = Ok rs ->
  commit_fails env NewsItem = false ->
  stock_news (db (exec (StockDataLoader.update_stock_news env symbol) s)) =
  fold_left (fun t m => merge_news_tbl m t) rs (stock_news (cur s)).
Proof.
  intros Hfetch Hempty Hplan Hcommit.
  unfold exec, StockDataLoader.update_stock_news. mrun.
  rewrite Hfetch. mrun. rewrite Hempty. mrun. unfold for_each.
  rewrite (for_fold_ext _ _ stock_news_body_canon).
  rewrite (loop_ok put_news (fun a => a) stock_news_row (iterrows d) Hplan).
  mrun. now rewrite fold_put_news.
Qed.
End NewsRows.

(** X26. [update_stock_news] passes over a row without raising in two cases:
    the row has neither a time nor a date (or has them empty), or its
    date is older than thirty days. When no date of the other rows
    fails to convert and the commit goes through, the news built from
    the other rows are merged over what is stored, in order, each dated
    by the time of its row or, without one, by its date. *)
Theorem update_stock_news_skips_rows (env : Env) (symbol : string) (st : Store)
  (tr : list Event) (d : DataFrame) (rs : list StockNews.t) :
  stock_news_em (ak env) symbol = Ok (Some d) ->
  empty d = false ->
  plan (stock_news_row env symbol) (iterrows d) = Ok rs ->
  commit_fails env NewsItem = false ->
  stock_news (db (exec (StockDataLoader.update_stock_news env symbol)
                    (open_session st tr))) =
    fold_left (fun t m => merge_news_tbl m t) rs (stock_news st) /\
  (forall row,
     truthy (py_or (get row "时间" PyNone) (get row "日期" PyNone)) = false ->
     stock_news_row env symbol row = Ok None) /\
  (forall row t,
     to_datetime env (py_or (get row "时间" PyNone) (get row "日期" PyNone))
       = Ok t ->
     t < thirty_days_before (now env) ->
     stock_news_row env symbol row = Ok None) /\
  (forall row t,
     truthy (py_or (get row "时间" PyNone) (get row "日期" PyNone)) = true ->
     to_datetime env (py_or (get row "时间" PyNone) (get row "日期" PyNone))
       = Ok t ->
     thirty_days_before (now env) <= t ->
     stock_news_row env symbol row =
     Ok (Some (StockNews.mk symbol (get row "标题" (PyStr "")) t "东方财富"
                 (get row "链接" (PyStr "")) (now env)))).
Proof.
  intros Hfetch Hempty Hplan Hcommit. split; [|split; [|split]].
  - exact (update_stock_news_commits env symbol (open_session st tr)
             Hfetch Hempty Hplan Hcommit).
  - intros row Hfalsy. unfold stock_news_row, StockDataLoader.date_str_of.
    cbv zeta. now rewrite Hfalsy.
  - intros row t Hconv Hold. unfold stock_news_row, StockDataLoader.date_str_of.
    cbv zeta. destruct (negb _); [reflexivity|].
    rewrite Hconv. cbn [rbind]. apply Z.ltb_lt in Hold. now rewrite Hold.
  - intros row t Htruthy Hconv Hrecent.
    unfold stock_news_row, StockDataLoader.date_str_of. cbv zeta.
    rewrite Htruthy, Hconv. cbn [negb rbind].
    apply Z.ltb_ge in Hrecent. now rewrite Hrecent.
Qed.

Lemma update_stock_news_skips_rows_witness :
  let frame :=
    mkDataFrame ["时间"; "日期"; "标题"; "链接"]
      [[PyNone; PyNone; PyStr "undated"; PyStr "http://a"];
       [PyNone; PyDate (Examples.clock - day); PyStr "dated"; PyStr "http://b"];
       [PyDate (Examples.clock - 35 * day); PyNone; PyStr "stale";
        PyStr "http://c"]] in
  let env :=
    Examples.environment
      (Examples.provider Examples.failing Examples.failing (Ok (Some frame))
         Examples.failing) in
  stock_news (db (exec (StockDataLoader.update_stock_news env Examples.symbol)
                    (open_session empty_store []))) =
  [StockNews.mk Examples.symbol (PyStr "dated") (Examples.clock - day)
     "东方财富" (PyStr "http://b") Examples.clock].
Proof.
  intros frame env.
  destruct (@update_stock_news_skips_rows env Examples.symbol empty_store []
              frame
              [StockNews.mk Examples.symbol (PyStr "dated") (Examples.clock - day)
                 "东方财富" (PyStr "http://b") Examples.clock]) as [H _].
  1-4: vm_compute; reflexivity.
  rewrite H. vm_compute. reflexivity.
Defined.

(** ** The valuation step of the daily run on a value that is a text *)

Section ValuationText.
Variable env : Env.
Variable symbol : string.

(** The five items the valuation steps read. *)
Definition valuation_labels : list string :=
  ["总市值"; "总股本"; "流通股本"; "市盈率(动)"; "市净率"].

Lemma valuation_of_info_raises (info : Series) (label text : string) (u : Z) :
  In label valuation_labels ->
  lookup info label = Some (PyStr text) ->
  float_of_string env text = None ->
  exists e, StockDataLoader.valuation_of_info env symbol info u = Raise e.
Proof.
  intros Hlabel Hlookup Hfloat.
  assert (Hraise : StockDataLoader.info_float env info label = Raise ValueError).
  { unfold StockDataLoader.info_float, get. rewrite Hlookup. simpl.
    now rewrite Hfloat. }
  unfold StockDataLoader.valuation_of_info, valuation_labels in *.
  simpl in Hlabel.
  destruct Hlabel as [<-|[<-|[<-|[<-|[<-|[]]]]]];
    repeat match goal with
      | |- context [StockDataLoader.info_float env info ?l] =>
          destruct (StockDataLoader.info_float env info l) eqn:?; cbn [rbind]
      end;
    solve [congruence | eauto].
Qed.

Lemma daily_valuation_text (s : State) (d : DataFrame) (info : Series)
  (label text : string) :
  stock_individual_info_em (ak env) symbol = Ok (Some d) ->
  set_index_item_value d = Ok info ->
  In label valuation_labels ->
  lookup info label = Some (PyStr text) ->
  float_of_string env text = None ->
  StockDataLoader.daily_valuation env symbol s =
  (Ok tt,
   mkState (db s) (db s)
     (trace s ++ [Log INFO "5. 更新估值信息..."; Call "stock_individual_info_em";
                  Log ERROR "更新估值信息时发生错误: {str(e)}"])).
Proof.
  intros Hfetch Hinfo Hlabel Hlookup Hfloat.
  destruct (@valuation_of_info_raises info label text (now env) Hlabel Hlookup Hfloat)
    as [e He].
  unfold StockDataLoader.daily_valuation. mrun. rewrite Hfetch. mrun.
  rewrite Hinfo. mrun. rewrite He. mrun. now rewrite <- !app_assoc.
Qed.
End ValuationText.

(** X27. The valuation step of the daily run reads each value with
    [float] alone: when one of the five values of the provider's answer
    is a text that [float] refuses, the step raises, its handler rolls
    back, and the valuation snapshots stay as they are; a run whose
    gate is open logs the error. *)
Theorem daily_valuation_text_fails (env : Env) (symbol : string) (st : Store)
  (tr : list Event) (d : DataFrame) (info : Series) (label text : string) :
  stock_individual_info_em (ak env) symbol = Ok (Some d) ->
  set_index_item_value d = Ok info ->
  In label valuation_labels ->
  lookup info label = Some (PyStr text) ->
  float_of_string env text = None ->
  let s' := exec (StockDataLoader.update_daily_data env symbol)
                 (open_session st tr) in
  stock_valuation_info (db s') = stock_valuation_info st /\
  (StockDataLoader.updated_today env symbol st = false ->
   In (Log ERROR "更新估值信息时发生错误: {str(e)}") (trace s')).
Proof.
  intros Hfetch Hinfo Hlabel Hlookup Hfloat s'. subst s'.
  set (s := open_session st tr). split.
  - apply (@keeps_exec _ _ stock_valuation_info
             (StockDataLoader.update_daily_data env symbol) s); [|reflexivity].
    apply daily_run_keeps.
    + apply update_daily_price_keeps. reflexivity.
    + apply daily_financial_metrics_keeps. reflexivity.
    + apply daily_insider_trades_keeps. reflexivity.
    + apply daily_news_keeps. reflexivity.
    + intros s0 Hc.
      rewrite (@daily_valuation_text env symbol s0 d info label text Hfetch Hinfo
                 Hlabel Hlookup Hfloat).
      cbn [snd db cur]. now split.
  - intros Hgate. unfold exec.
    rewrite update_daily_data_runs by exact Hgate. cbn [snd trace].
    apply in_or_app. left. unfold after_daily_valuation, exec.
    rewrite (@daily_valuation_text env symbol _ d info label text Hfetch Hinfo
               Hlabel Hlookup Hfloat).
    cbn [snd trace]. apply in_or_app. right. right. right. now left.
Qed.

Lemma daily_valuation_text_fails_witness :
  let s' := exec (StockDataLoader.update_daily_data Examples.partial_info_env
                    Examples.symbol)
                 (open_session Examples.store_with_old_rows []) in
  stock_valuation_info (db s') = [Examples.old_valuation] /\
  In (Log ERROR "更新估值信息时发生错误: {str(e)}") (trace s').
Proof.
  intros s'.
  destruct (@daily_valuation_text_fails Examples.partial_info_env
              Examples.symbol Examples.store_with_old_rows []
              Examples.partial_info_frame
              [("总市值", PyStr "1,000"); ("总股本", PyStr "n/a");
               ("流通股本", PyStr "90")] "总股本" "n/a") as [Htbl Hlog].
  - vm_compute. reflexivity.
  - vm_compute. reflexivity.
  - vm_compute. auto.
  - vm_compute. reflexivity.
  - vm_compute. reflexivity.
  - split; [exact Htbl|]. apply Hlog. vm_compute. reflexivity.
Defined.
